(** * The persistent iteration store of westpa_colmena (io.py)

    A shallow embedding of [WestpaH5File]: the HDF5 file is a finite map from
    absolute paths to nodes (groups with attributes, typed datasets), every
    h5py call is a step of a state-and-exception monad over the open file,
    and every mutating call leaves an event in a write log, so that the order
    of the writes of one [append] can be stated.

    Weights are float64 in the source.  The arithmetic on them that the
    aggregator uses (the zero [sum] starts from, [+], [<]) is an interface,
    [WeightOps]; the instance [float_weight] is IEEE binary64.

    The exceptions of the libraries are part of the embedding where the code
    can meet them: [min] and [max] of nothing, a missing or a taken name, an
    index outside a table, an integer outside an unsigned field, a str that
    is not ASCII in the [|S64] field, a NUL in a variable-length string,
    [np.array] on rows of unequal length, and a format the width of which is
    negative or does not fit 64 bits.  The size of a table has no limit
    here. *)

From Stdlib Require Import ZArith Ascii String List Strings.Byte Lia.
From Stdlib Require Import PrimFloat FloatAxioms SpecFloat DecimalString DecimalN DecimalFacts.
From stdpp Require Import gmap strings list fin_maps.

Set Default Proof Using "Type".

(** ** Python values and builtins *)

(** The exceptions the modelled calls raise. *)
Inductive exn :=
  ValueError | KeyError | TypeError | IndexError | OverflowError | UnicodeEncodeError.

Inductive result (A : Type) :=
| Ok (a : A)
| Raise (e : exn).
Arguments Ok {A} a.
Arguments Raise {A} e.

(** float64 arithmetic as the aggregator needs it. [w_zero] is the [0] that
    [sum] starts from, [w_add] is [+], [w_ltb x y] is [x < y] (and [y > x]). *)
Class WeightOps (W : Type) := {
  w_zero : W;
  w_add : W → W → W;
  w_ltb : W → W → bool
}.

#[export] Instance float_weight : WeightOps float := {|
  w_zero := 0%float;
  w_add := PrimFloat.add;
  w_ltb := PrimFloat.ltb
|}.

(** [if n:] on a Python int. *)
Definition truthy (n : Z) : bool := negb (n =? 0)%Z.

(** [str(n)] for a non-negative integer. *)
Definition str_N (n : N) : string := NilZero.string_of_uint (N.to_uint n).

(** [str(z)] for a Python int. *)
Definition py_str (z : Z) : string :=
  if (z <? 0)%Z then "-" +:+ str_N (Z.abs_N z) else str_N (Z.to_N z).

Fixpoint zeros (n : nat) : string :=
  match n with
  | O => ""
  | S n' => String "0"%char (zeros n')
  end.

(** ['{:0{prec}d}'.format(n, prec=prec)]: sign-aware zero padding to [prec]
    characters; a negative [prec] gives the format spec ["0-3d"], which
    [format] rejects with ValueError, and so it does a width that does not
    fit a signed 64-bit integer. *)
Definition py_format_0d (n prec : Z) : result string :=
  if ((prec <? 0) || (2 ^ 63 <=? prec))%Z then Raise ValueError
  else
    let digits := str_N (Z.abs_N n) in
    let width := Z.to_nat prec in
    if (n <? 0)%Z
    then Ok ("-" +:+ zeros (width - 1 - String.length digits) +:+ digits)
    else Ok (zeros (width - String.length digits) +:+ digits).

(** Storing a Python int into an unsigned numpy field of [bits] bits: out of
    range raises OverflowError (NumPy 2; NumPy 1 wrapped silently). *)
Definition np_uint (bits : Z) (z : Z) : result Z :=
  if ((0 <=? z) && (z <? 2 ^ bits))%Z then Ok z else Raise OverflowError.

Fixpoint string_take (n : nat) (s : string) : string :=
  match n, s with
  | S n', String c s' => String c (string_take n' s')
  | _, _ => ""
  end.

(** The character is in ASCII. *)
Definition is_ascii (c : ascii) : bool := nat_of_ascii c <? 128.

(** The string without the NUL characters at its end. *)
Fixpoint rstrip_nul (s : string) : string :=
  match s with
  | "" => ""
  | String c s' =>
      match rstrip_nul s' with
      | "" => if Ascii.eqb c Ascii.zero then "" else String c ""
      | r => String c r
      end
  end.

(** Storing a Python str into a field of dtype [|S64]: the str is encoded
    as ASCII, UnicodeEncodeError if it cannot be; the first 64 bytes are
    kept, and the field reads without the NUL bytes at its end. *)
Definition np_S64 (s : string) : result string :=
  if forallb is_ascii (list_ascii_of_string s)
  then Ok (rstrip_nul (string_take 64 s))
  else Raise UnicodeEncodeError.

(** [np.array(rows)] on a list of lists of floats: the matrix of these
    rows; rows of unequal length raise ValueError. *)
Definition np_array {A : Type} (rows : list (list A)) : result (list (list A)) :=
  match rows with
  | [] => Ok []
  | r :: rest =>
      if forallb (λ r', length r' =? length r) rest then Ok rows else Raise ValueError
  end.

(** The string holds no NUL character. *)
Definition no_nul (s : string) : bool :=
  forallb (λ c, negb (Ascii.eqb c Ascii.zero)) (list_ascii_of_string s).

(** Storing Python strs as variable-length strings: h5py refuses a str that
    holds a NUL character with ValueError. *)
Definition vlen_strs (l : list string) : result unit :=
  if forallb no_nul l then Ok tt else Raise ValueError.

(** [l[i]] and [l[i] = v] on an h5py dataset of [len] rows: a negative index
    counts from the end, an index outside the table raises IndexError. *)
Definition h5_index (len : nat) (i : Z) : result nat :=
  let j := if (i <? 0)%Z then (Z.of_nat len + i)%Z else i in
  if ((0 <=? j) && (j <? Z.of_nat len))%Z then Ok (Z.to_nat j) else Raise IndexError.

(** [dataset.resize((n, ...))] on the rows: rows beyond [n] are dropped, new
    rows hold the fill value. *)
Definition resize_rows {R : Type} (fill : R) (n : nat) (rows : list R) : list R :=
  take n rows ++ replicate (n - length rows) fill.

(** ** The data model *)

(** [DDWEMetadata]. *)
Record DDWEMetadata := {
  west_current_iteration : Z;
  west_file_format_version : Z;
  west_iter_prec : Z;
  west_version : string
}.

(** The fields of [SimMetadata] that the store reads. *)
Record SimMetadata (W : Type) := {
  weight : W;
  simulation_id : Z;
  iteration_id : Z;
  binner_hash : string;
  binner_pickle : list byte
}.
Arguments weight {W} _.
Arguments simulation_id {W} _.
Arguments iteration_id {W} _.
Arguments binner_hash {W} _.
Arguments binner_pickle {W} _.

(** An element of [BasisStates], with the fields [append_ibstates] reads. *)
Record BasisState (W : Type) := {
  bs_simulation_id : Z;
  bs_weight : W;
  bs_auxref : string;
  bs_parent_pcoord : list W
}.
Arguments bs_simulation_id {W} _.
Arguments bs_weight {W} _.
Arguments bs_auxref {W} _.
Arguments bs_parent_pcoord {W} _.

(** [TargetState]. *)
Record TargetState (W : Type) := {
  ts_label : string;
  ts_pcoord : list W
}.
Arguments ts_label {W} _.
Arguments ts_pcoord {W} _.

(** A path from the root of the file: ['/ibstates/index'] is
    [["ibstates"; "index"]], the root group is [[]]. *)
Abbreviation Path := (list string).

(** An h5py object reference; [None] is the null reference. *)
Abbreviation h5ref := (option Path).

(** [summary_table_dtype]. *)
Record SummaryRow (W : Type) := {
  n_particles : Z;
  norm : W;
  min_bin_prob : W;
  max_bin_prob : W;
  min_seg_prob : W;
  max_seg_prob : W;
  cputime : W;
  walltime : W;
  binhash : string
}.
Arguments n_particles {W} _.
Arguments norm {W} _.
Arguments min_bin_prob {W} _.
Arguments max_bin_prob {W} _.
Arguments min_seg_prob {W} _.
Arguments max_seg_prob {W} _.
Arguments cputime {W} _.
Arguments walltime {W} _.
Arguments binhash {W} _.

(** [ibstate_index_dtype]. *)
Record IbstateIndexRow := {
  ib_iter_valid : Z;
  n_bstates : Z;
  ib_group_ref : h5ref
}.

(** [bstate_dtype]. *)
Record BstateRow (W : Type) := {
  label : string;
  probability : W;
  auxref : string
}.
Arguments label {W} _.
Arguments probability {W} _.
Arguments auxref {W} _.

(** [tstate_index_dtype]. *)
Record TstateIndexRow := {
  ts_iter_valid : Z;
  n_states : Z;
  ts_group_ref : h5ref
}.

(** [binning_index_dtype]. *)
Record BinningIndexRow := {
  hash : string;
  pickle_len : Z
}.

Inductive AttrVal :=
| AInt (z : Z)
| AStr (s : string).

(** What a path of the file holds: a group with its attributes, or a
    dataset of one of the dtypes the store writes.  [Pickles] is the
    two-dimensional uint8 dataset: every row has [width] bytes. *)
Inductive Node (W : Type) :=
| Group (attrs : gmap string AttrVal)
| SummaryTable (rows : list (SummaryRow W))
| IbstateIndex (rows : list IbstateIndexRow)
| TstateIndex (rows : list TstateIndexRow)
| BinningIndex (rows : list BinningIndexRow)
| Pickles (width : nat) (rows : list (list byte))
| BstateTable (rows : list (BstateRow W))
| TstateTable (rows : list string)
| PcoordArray (rows : list (list W)).
Arguments Group {W} attrs.
Arguments SummaryTable {W} rows.
Arguments IbstateIndex {W} rows.
Arguments TstateIndex {W} rows.
Arguments BinningIndex {W} rows.
Arguments Pickles {W} width rows.
Arguments BstateTable {W} rows.
Arguments TstateTable {W} rows.
Arguments PcoordArray {W} rows.

(** A one-dimensional dataset of records of type [R]: how its rows sit in a
    node, and the fill value of a fresh row. *)
Record Dtype (W R : Type) := {
  dt_wrap : list R → Node W;
  dt_unwrap : Node W → option (list R);
  dt_fill : R
}.
Arguments dt_wrap {W R} _ _.
Arguments dt_unwrap {W R} _ _.
Arguments dt_fill {W R} _.

(** The mutating h5py calls, as the write log records them. *)
Inductive Event :=
| EvOpen (name : string)
| EvClose (name : string)
| EvRequireGroup (p : Path)
| EvCreateGroup (p : Path)
| EvCreateDataset (p : Path)
| EvResize (p : Path)
| EvSetItem (p : Path)
| EvSetAttr (p : Path) (key : string).

Definition ev_path (e : Event) : option Path :=
  match e with
  | EvOpen _ | EvClose _ => None
  | EvRequireGroup p | EvCreateGroup p | EvCreateDataset p
  | EvResize p | EvSetItem p | EvSetAttr p _ => Some p
  end.

(** The event writes below the top-level name [g]. *)
Definition ev_under (g : string) (e : Event) : Prop :=
  ∃ rest, ev_path e = Some (g :: rest).

(** Mode of [h5py.File]. *)
Inductive FileMode := ModeW | ModeA.

(** [WestpaH5File]. *)
Record WestpaH5File := {
  config : DDWEMetadata;
  h5file : string
}.

(** ** The open file and the monad of h5py calls *)

Section Store.
Context {W : Type} `{!WeightOps W}.

Abbreviation H5 := (gmap Path (Node W)).

(** A file system: the HDF5 files by name. *)
Abbreviation FS := (gmap string H5).

(** The file an [h5py.File] handle is open on, and the writes made so far. *)
Record St := {
  file : H5;
  log : list Event
}.

(** A call reads and changes the open file, and returns or raises; what was
    written before an exception stays written. *)
Definition M (A : Type) : Type := St → result A * St.

#[global] Instance M_ret : MRet M := λ A a s, (Ok a, s).

#[global] Instance M_bind : MBind M := λ A B k m s,
  match m s with
  | (Ok a, s') => k a s'
  | (Raise e, s') => (Raise e, s')
  end.

Definition raise {A : Type} (e : exn) : M A := λ s, (Raise e, s).

(** A computation that touches no file. *)
Definition lift {A : Type} (r : result A) : M A := λ s, (r, s).

Definition get_file : M H5 := λ s, (Ok (file s), s).

(** A write: the file changes and the call is logged. *)
Definition write (f : H5) (e : Event) : M unit :=
  λ s, (Ok tt, {| file := f; log := log s ++ [e] |}).

(** The fresh row of [np.zeros((1,), dtype=summary_table_dtype)]. *)
Definition summary_zero : SummaryRow W := {|
  n_particles := 0; norm := w_zero; min_bin_prob := w_zero;
  max_bin_prob := w_zero; min_seg_prob := w_zero; max_seg_prob := w_zero;
  cputime := w_zero; walltime := w_zero; binhash := ""
|}.

Definition summary_table_dtype : Dtype W (SummaryRow W) := {|
  dt_wrap := SummaryTable;
  dt_unwrap := λ n, match n with SummaryTable rows => Some rows | _ => None end;
  dt_fill := summary_zero
|}.

Definition ibstate_index_dtype : Dtype W IbstateIndexRow := {|
  dt_wrap := IbstateIndex;
  dt_unwrap := λ n, match n with IbstateIndex rows => Some rows | _ => None end;
  dt_fill := {| ib_iter_valid := 0; n_bstates := 0; ib_group_ref := None |}
|}.

Definition tstate_index_dtype : Dtype W TstateIndexRow := {|
  dt_wrap := TstateIndex;
  dt_unwrap := λ n, match n with TstateIndex rows => Some rows | _ => None end;
  dt_fill := {| ts_iter_valid := 0; n_states := 0; ts_group_ref := None |}
|}.

Definition binning_index_dtype : Dtype W BinningIndexRow := {|
  dt_wrap := BinningIndex;
  dt_unwrap := λ n, match n with BinningIndex rows => Some rows | _ => None end;
  dt_fill := {| hash := ""; pickle_len := 0 |}
|}.

(** *** Python builtins over weights *)

(** [sum(ws)]: from [0], left to right. *)
Definition py_sum (ws : list W) : W := fold_left w_add ws w_zero.

(** [min(ws)]: the first item, replaced by each later item that is [<] the
    current one; ValueError on an empty sequence. *)
Definition py_min (ws : list W) : result W :=
  match ws with
  | [] => Raise ValueError
  | w :: ws' => Ok (fold_left (λ m x, if w_ltb x m then x else m) ws' w)
  end.

(** [max(ws)]: the same with [>]. *)
Definition py_max (ws : list W) : result W :=
  match ws with
  | [] => Raise ValueError
  | w :: ws' => Ok (fold_left (λ m x, if w_ltb m x then x else m) ws' w)
  end.

(** [l[0]]. *)
Definition py_first {A : Type} (l : list A) : result A :=
  match l with
  | [] => Raise IndexError
  | x :: _ => Ok x
  end.

(** *** h5py calls *)

(** [name in group]. *)
Definition h5_contains (p : Path) : M bool :=
  f ← get_file;
  match f !! p with
  | Some _ => mret true
  | None => mret false
  end.

(** The groups [create_group] makes on the way to a nested name: each
    missing proper prefix of [pre ++ rest] longer than [pre] becomes a group;
    a dataset on the way is an error. *)
Fixpoint make_parents (f : H5) (pre rest : Path) : result H5 :=
  match rest with
  | [] | [_] => Ok f
  | c :: rest' =>
      let q := pre ++ [c] in
      match f !! q with
      | None => make_parents (<[q := Group ∅]> f) q rest'
      | Some (Group _) => make_parents f q rest'
      | Some _ => Raise ValueError
      end
  end.

(** The change [create_group(p)] makes to the file: ValueError when the
    name exists. *)
Definition new_group (f : H5) (p : Path) : result H5 :=
  match f !! p with
  | Some _ => Raise ValueError
  | None =>
      match make_parents f [] p with
      | Ok f' => Ok (<[p := Group ∅]> f')
      | Raise e => Raise e
      end
  end.

(** [group.create_group(name)]; returns the new group. *)
Definition create_group (p : Path) : M Path :=
  f ← get_file;
  f' ← lift (new_group f p);
  write f' (EvCreateGroup p);;
  mret p.

(** [group.require_group(name)]: the group if it exists, a new one if the
    name is free, TypeError if the name is a dataset. *)
Definition require_group (p : Path) : M Path :=
  f ← get_file;
  match f !! p with
  | None => f' ← lift (new_group f p); write f' (EvRequireGroup p);; mret p
  | Some (Group _) => write f (EvRequireGroup p);; mret p
  | Some _ => raise TypeError
  end.

(** [group.attrs[key] = v]. *)
Definition attrs_set (p : Path) (key : string) (v : AttrVal) : M unit :=
  f ← get_file;
  match f !! p with
  | Some (Group attrs) => write (<[p := Group (<[key := v]> attrs)]> f) (EvSetAttr p key)
  | Some _ => raise TypeError
  | None => raise KeyError
  end.

(** The rows of the dataset at [p]: KeyError if the name is missing,
    TypeError if it holds something other than a table of this dtype. *)
Definition ds_rows {R : Type} (dt : Dtype W R) (p : Path) : M (list R) :=
  f ← get_file;
  match f !! p with
  | None => raise KeyError
  | Some n =>
      match dt_unwrap dt n with
      | Some rows => mret rows
      | None => raise TypeError
      end
  end.

(** [group[name]] for a dataset; returns the handle. *)
Definition h5_getitem {R : Type} (dt : Dtype W R) (p : Path) : M Path :=
  ds_rows dt p;; mret p.

(** [len(dataset)]. *)
Definition ds_len {R : Type} (dt : Dtype W R) (p : Path) : M nat :=
  rows ← ds_rows dt p; mret (length rows).

(** [group.create_dataset(name, dtype=dt, shape=(n,), maxshape=(None,))]. *)
Definition create_dataset {R : Type} (dt : Dtype W R) (p : Path) (n : nat) : M Path :=
  f ← get_file;
  match f !! p with
  | Some _ => raise ValueError
  | None => write (<[p := dt_wrap dt (replicate n (dt_fill dt))]> f) (EvCreateDataset p);; mret p
  end.

(** [group[name] = array]: a new dataset holding the array. *)
Definition h5_setitem_new (p : Path) (n : Node W) : M unit :=
  f ← get_file;
  match f !! p with
  | Some _ => raise ValueError
  | None => write (<[p := n]> f) (EvCreateDataset p)
  end.

(** [dataset.resize((n,))].  The number of rows has no limit here, where
    HDF5 has one near [2 ^ 63]: [append_summary] resizes to one row more than
    the iteration number, and the theorems that say it returns take the
    iteration number below [2 ^ 32]. *)
Definition ds_resize {R : Type} (dt : Dtype W R) (p : Path) (n : Z) : M unit :=
  rows ← ds_rows dt p;
  if (n <? 0)%Z then raise ValueError
  else
    f ← get_file;
    write (<[p := dt_wrap dt (resize_rows (dt_fill dt) (Z.to_nat n) rows)]> f) (EvResize p).

(** [dataset[i]]. *)
Definition ds_getitem {R : Type} (dt : Dtype W R) (p : Path) (i : Z) : M R :=
  rows ← ds_rows dt p;
  j ← lift (h5_index (length rows) i);
  match rows !! j with
  | Some r => mret r
  | None => raise IndexError
  end.

(** [dataset[i] = row]. *)
Definition ds_setitem {R : Type} (dt : Dtype W R) (p : Path) (i : Z) (row : R) : M unit :=
  rows ← ds_rows dt p;
  j ← lift (h5_index (length rows) i);
  f ← get_file;
  write (<[p := dt_wrap dt (<[j := row]> rows)]> f) (EvSetItem p).

(** The two-dimensional uint8 dataset ['pickles']: [(len, shape[1])]. *)
Definition pickles_shape (p : Path) : M (nat * nat) :=
  f ← get_file;
  match f !! p with
  | None => raise KeyError
  | Some (Pickles width rows) => mret (length rows, width)
  | Some _ => raise TypeError
  end.

(** [create_dataset('pickles', dtype=np.uint8, shape=(n, width), ...)]. *)
Definition create_pickles (p : Path) (n width : nat) : M Path :=
  f ← get_file;
  match f !! p with
  | Some _ => raise ValueError
  | None =>
      write (<[p := Pickles width (replicate n (replicate width x00))]> f) (EvCreateDataset p);;
      mret p
  end.

(** [pickle_ds.resize((n, width))]: every row is cut or zero-filled to the
    new width, and the rows are cut or extended with zero rows. *)
Definition pickles_resize (p : Path) (n width : nat) : M unit :=
  f ← get_file;
  match f !! p with
  | None => raise KeyError
  | Some (Pickles _ rows) =>
      write (<[p := Pickles width
                      (resize_rows (replicate width x00) n
                         (resize_rows x00 width <$> rows))]> f) (EvResize p)
  | Some _ => raise TypeError
  end.

(** [pickle_ds[i, :len(data)] = data]: the first bytes of row [i]. *)
Definition pickles_setitem (p : Path) (i : Z) (data : list byte) : M unit :=
  f ← get_file;
  match f !! p with
  | None => raise KeyError
  | Some (Pickles width rows) =>
      j ← lift (h5_index (length rows) i);
      match rows !! j with
      | Some row =>
          if length data <=? width
          then write (<[p := Pickles width (<[j := data ++ drop (length data) row]> rows)]> f)
                     (EvSetItem p)
          else raise TypeError
      | None => raise IndexError
      end
  | Some _ => raise TypeError
  end.

(** ** WestpaH5File *)

(** [append_summary]. *)
Definition append_summary (n_iter : Z) (next_iteration : list (SimMetadata W))
    (binned_sims : list (list (SimMetadata W))) : M unit :=
  let n_particles := Z.of_nat (length next_iteration) in
  let norm := py_sum (weight <$> next_iteration) in
  min_seg ← lift (py_min (weight <$> next_iteration));
  max_seg ← lift (py_max (weight <$> next_iteration));
  min_bin ← lift (py_min ((λ sims, py_sum (weight <$> sims)) <$> binned_sims));
  max_bin ← lift (py_max ((λ sims, py_sum (weight <$> sims)) <$> binned_sims));
  sim0 ← lift (py_first next_iteration);
  hash_field ← lift (np_S64 (binner_hash sim0));
  let summary_row := {|
    n_particles := n_particles; norm := norm;
    min_bin_prob := min_bin; max_bin_prob := max_bin;
    min_seg_prob := min_seg; max_seg_prob := max_seg;
    cputime := w_zero; walltime := w_zero;
    binhash := hash_field
  |} in
  summary_table ← h5_getitem summary_table_dtype ["summary"];
  len ← ds_len summary_table_dtype summary_table;
  (if (Z.of_nat len <? n_iter)%Z
   then ds_resize summary_table_dtype summary_table (n_iter + 1)
   else mret tt);;
  ds_setitem summary_table_dtype summary_table (n_iter - 1) summary_row.

(** The row of the basis state table for one state. *)
Definition bstate_row (state : BasisState W) : BstateRow W := {|
  label := py_str (bs_simulation_id state);
  probability := bs_weight state;
  auxref := bs_auxref state
|}.

(** [append_ibstates]. *)
Definition append_ibstates (n_iter : Z) (basis_states : list (BasisState W)) : M unit :=
  group ← require_group ["ibstates"];
  has_index ← h5_contains (group ++ ["index"]);
  index ← (if has_index : bool
           then
             index ← h5_getitem ibstate_index_dtype (group ++ ["index"]);
             len ← ds_len ibstate_index_dtype index;
             ds_resize ibstate_index_dtype index (Z.of_nat len + 1);;
             mret index
           else create_dataset ibstate_index_dtype (group ++ ["index"]) 1);
  len ← ds_len ibstate_index_dtype index;
  let set_id := (Z.of_nat len - 1)%Z in
  index_row ← ds_getitem ibstate_index_dtype index set_id;
  iter_valid ← lift (np_uint 64 n_iter);
  let index_row := {| ib_iter_valid := iter_valid;
                      n_bstates := n_bstates index_row;
                      ib_group_ref := ib_group_ref index_row |} in
  let index_row := {| ib_iter_valid := ib_iter_valid index_row;
                      n_bstates := Z.of_nat (length basis_states);
                      ib_group_ref := ib_group_ref index_row |} in
  state_group ← create_group (group ++ [py_str set_id]);
  let index_row := {| ib_iter_valid := ib_iter_valid index_row;
                      n_bstates := n_bstates index_row;
                      ib_group_ref := Some state_group |} in
  (match basis_states with
   | _ :: _ =>
       let state_table := bstate_row <$> basis_states in
       state_pcoords ← lift (np_array (bs_parent_pcoord <$> basis_states));
       lift (vlen_strs ((label <$> state_table) ++ (auxref <$> state_table)));;
       h5_setitem_new (state_group ++ ["bstate_index"]) (BstateTable state_table);;
       h5_setitem_new (state_group ++ ["bstate_pcoord"]) (PcoordArray state_pcoords)
   | [] => mret tt
   end);;
  ds_setitem ibstate_index_dtype index set_id index_row.

(** [append_tstates]. *)
Definition append_tstates (n_iter : Z) (target_states : list (TargetState W)) : M unit :=
  group ← require_group ["tstates"];
  has_index ← h5_contains (group ++ ["index"]);
  index ← (if has_index : bool
           then
             index ← h5_getitem tstate_index_dtype (group ++ ["index"]);
             len ← ds_len tstate_index_dtype index;
             ds_resize tstate_index_dtype index (Z.of_nat len + 1);;
             mret index
           else create_dataset tstate_index_dtype (group ++ ["index"]) 1);
  len ← ds_len tstate_index_dtype index;
  let set_id := (Z.of_nat len - 1)%Z in
  index_row ← ds_getitem tstate_index_dtype index set_id;
  iter_valid ← lift (np_uint 64 n_iter);
  let index_row := {| ts_iter_valid := iter_valid;
                      n_states := n_states index_row;
                      ts_group_ref := ts_group_ref index_row |} in
  let index_row := {| ts_iter_valid := ts_iter_valid index_row;
                      n_states := Z.of_nat (length target_states);
                      ts_group_ref := ts_group_ref index_row |} in
  index_row ← (match target_states with
               | _ :: _ =>
                   let state_table := ts_label <$> target_states in
                   state_pcoords ← lift (np_array (ts_pcoord <$> target_states));
                   state_group ← create_group (group ++ [py_str set_id]);
                   let index_row := {| ts_iter_valid := ts_iter_valid index_row;
                                       n_states := n_states index_row;
                                       ts_group_ref := Some state_group |} in
                   lift (vlen_strs state_table);;
                   h5_setitem_new (state_group ++ ["index"]) (TstateTable state_table);;
                   h5_setitem_new (state_group ++ ["pcoord"]) (PcoordArray state_pcoords);;
                   mret index_row
               | [] =>
                   mret {| ts_iter_valid := ts_iter_valid index_row;
                           n_states := n_states index_row;
                           ts_group_ref := None |}
               end);
  ds_setitem tstate_index_dtype index set_id index_row.

(** [append_bin_mapper]. *)
Definition append_bin_mapper (sim : SimMetadata W) : M unit :=
  group ← require_group ["bin_topologies"];
  let pickle_data := binner_pickle sim in
  let hashval := binner_hash sim in
  has_index ← h5_contains (group ++ ["index"]);
  has_pickles ← h5_contains (group ++ ["pickles"]);
  handles ← (if has_index && has_pickles
             then
               index ← h5_getitem binning_index_dtype (group ++ ["index"]);
               shape ← pickles_shape (group ++ ["pickles"]);
               let pickle_ds := group ++ ["pickles"] in
               len ← ds_len binning_index_dtype index;
               ds_resize binning_index_dtype index (Z.of_nat len + 1);;
               let new_hsize := shape.2 `max` length pickle_data in
               pickles_resize pickle_ds (shape.1 + 1) new_hsize;;
               mret (index, pickle_ds)
             else
               index ← create_dataset binning_index_dtype (group ++ ["index"]) 1;
               pickle_ds ← create_pickles (group ++ ["pickles"]) 1 (length pickle_data);
               mret (index, pickle_ds));
  let index := handles.1 in
  let pickle_ds := handles.2 in
  len ← ds_len binning_index_dtype index;
  let ind := (Z.of_nat len - 1)%Z in
  index_row ← ds_getitem binning_index_dtype index ind;
  hash_field ← lift (np_S64 hashval);
  let index_row := {| hash := hash_field; pickle_len := pickle_len index_row |} in
  plen ← lift (np_uint 32 (Z.of_nat (length pickle_data)));
  let index_row := {| hash := hash index_row; pickle_len := plen |} in
  ds_setitem binning_index_dtype index ind index_row;;
  pickles_setitem pickle_ds ind pickle_data.

(** [with h5py.File(name, mode) as f: body]: mode ['w'] starts from an empty
    file, mode ['a'] from the file of that name if there is one; on the way
    out, also by an exception, the file is closed with what was written. *)
Definition with_file {A : Type} (name : string) (mode : FileMode) (body : M A)
    (fs : FS) : result A * FS * list Event :=
  let empty : H5 := {[ [] := Group ∅ ]} in
  let f := match mode with
           | ModeW => empty
           | ModeA => default empty (fs !! name)
           end in
  let '(r, s) := body {| file := f; log := [EvOpen name] |} in
  (r, <[name := file s]> fs, log s ++ [EvClose name]).

(** [WestpaH5File.__init__]. *)
Definition init (h5file : string) (config : DDWEMetadata)
    : FS → result WestpaH5File * FS * list Event :=
  with_file h5file ModeW (
    attrs_set [] "west_file_format_version" (AInt (west_file_format_version config));;
    attrs_set [] "west_iter_prec" (AInt (west_iter_prec config));;
    attrs_set [] "west_version" (AStr (west_version config));;
    attrs_set [] "westpa_iter_prec" (AInt (west_iter_prec config));;
    attrs_set [] "westpa_fileformat_version" (AInt (west_file_format_version config));;
    create_dataset summary_table_dtype ["summary"] 1;;
    create_group ["iterations"];;
    mret {| config := config; h5file := h5file |}).

(** The body of the [with] block of [append]. *)
Definition append_body (self : WestpaH5File) (sim : SimMetadata W) (n_iter : Z)
    (next_iteration : list (SimMetadata W)) (binned_sims : list (list (SimMetadata W)))
    (basis_states : list (BasisState W)) (target_states : list (TargetState W)) : M unit :=
  append_summary n_iter next_iteration binned_sims;;
  (if truthy n_iter then append_ibstates n_iter basis_states else mret tt);;
  (if truthy n_iter then append_tstates n_iter target_states else mret tt);;
  (if truthy n_iter then append_bin_mapper sim else mret tt);;
  name ← lift (py_format_0d n_iter (west_iter_prec (config self)));
  iter_group ← require_group ["iterations"; "iter_" +:+ name];
  attrs_set iter_group "n_iter" (AInt n_iter).

(** [WestpaH5File.append]. *)
Definition append (self : WestpaH5File)
    (next_iteration : list (SimMetadata W)) (binned_sims : list (list (SimMetadata W)))
    (basis_states : list (BasisState W)) (target_states : list (TargetState W))
    (fs : FS) : result unit * FS * list Event :=
  match next_iteration with
  | [] => (Raise ValueError, fs, [])
  | sim :: _ =>
      let n_iter := iteration_id sim in
      with_file (h5file self) ModeA
        (append_body self sim n_iter next_iteration binned_sims basis_states target_states) fs
  end.

End Store.

(** ** Vocabulary of the properties *)

Section Properties.
Context {W : Type} `{!WeightOps W}.

Abbreviation H5 := (gmap Path (Node W)).
Abbreviation FS := (gmap string H5).

(** The path lies below the top-level name [g] (or is [g] itself). *)
Definition under (g : string) (p : Path) : Prop := ∃ rest, p = g :: rest.

(** [len(dataset)] of what a path holds; a group or a free name counts 0. *)
Definition node_len (n : option (Node W)) : nat :=
  match n with
  | Some (SummaryTable rows) => length rows
  | Some (IbstateIndex rows) => length rows
  | Some (TstateIndex rows) => length rows
  | Some (BinningIndex rows) => length rows
  | Some (Pickles _ rows) => length rows
  | Some (BstateTable rows) => length rows
  | Some (TstateTable rows) => length rows
  | Some (PcoordArray rows) => length rows
  | Some (Group _) | None => 0
  end.

Definition table_len (f : H5) (p : Path) : nat := node_len (f !! p).

(** No table of [s'] is shorter than it is in [s]. *)
Definition len_mono (s s' : St (W:=W)) : Prop :=
  ∀ p, table_len (file s) p ≤ table_len (file s') p.

(** What one writer does to the file and the log, whatever its outcome: it
    changes nothing outside [g], logs only writes below [g], and when it
    returns it has logged [commit]. *)
Definition writes_under (g : string) (commit : Event) (r : result unit)
    (s s' : St (W:=W)) : Prop :=
  (∀ p, ¬ under g p → file s' !! p = file s !! p) ∧
  ∃ evs, log s' = log s ++ evs ∧ Forall (ev_under g) evs ∧
         (r = Ok tt → commit ∈ evs).

(** The same without the commit. *)
Definition changes_under (g : string) (s s' : St (W:=W)) : Prop :=
  (∀ p, ¬ under g p → file s' !! p = file s !! p) ∧
  ∃ evs, log s' = log s ++ evs ∧ Forall (ev_under g) evs.

(** The path [p] holds in [s'] what it holds in [s]. *)
Definition keeps (p : Path) (s s' : St (W:=W)) : Prop :=
  file s' !! p = file s !! p.

(** Every run of [m], returning or raising, relates the states by [R]. *)
Definition steps {A : Type} (R : St (W:=W) → St (W:=W) → Prop) (m : M (W:=W) A) : Prop :=
  ∀ s r s', m s = (r, s') → R s s'.

(** The last step of [append]: the namespace group of the iteration and its
    [n_iter] attribute. *)
Definition stamp_iteration (n_iter prec : Z) : M (W:=W) unit :=
  name ← lift (py_format_0d n_iter prec);
  iter_group ← require_group ["iterations"; "iter_" +:+ name];
  attrs_set iter_group "n_iter" (AInt n_iter).

(** The log has a write below [g]. *)
Definition writes_to (g : string) (lg : list Event) : Prop :=
  ∃ e, e ∈ lg ∧ ev_under g e.

(** The summary table of the store [name], if the store and the table exist. *)
Definition summary_of (fs : FS) (name : string) : option (Node W) :=
  f ← fs !! name; f !! ["summary"].

(** The rows of the table of dtype [dt] at [p], none if there is no such table. *)
Definition table_rows {R : Type} (dt : Dtype W R) (f : H5) (p : Path) : list R :=
  match f !! p with
  | Some n => default [] (dt_unwrap dt n)
  | None => []
  end.

(** The rows of ['/bin_topologies/index']. *)
Definition bin_index_rows (f : H5) : list BinningIndexRow :=
  table_rows binning_index_dtype f ["bin_topologies"; "index"].

(** Width and rows of ['/bin_topologies/pickles'], if there is such a table. *)
Definition bin_pickles (f : H5) : nat * list (list byte) :=
  match f !! ["bin_topologies"; "pickles"] with
  | Some (Pickles width rows) => (width, rows)
  | _ => (0, [])
  end.

(** The target-state part of a store as [append_tstates] leaves it: the
    group, if it is there, is a group, and so is its index an index. *)
Definition tstates_ok (f : H5) : Prop :=
  (f !! ["tstates"] = None ∨ ∃ attrs, f !! ["tstates"] = Some (Group attrs)) ∧
  (f !! ["tstates"; "index"] = None ∨
   ∃ rows, f !! ["tstates"; "index"] = Some (TstateIndex rows)).

(** The basis-state part of a store as [append_ibstates] leaves it: the same,
    and the name of the next epoch's subgroup is free. *)
Definition ibstates_ok (f : H5) : Prop :=
  (f !! ["ibstates"] = None ∨ ∃ attrs, f !! ["ibstates"] = Some (Group attrs)) ∧
  (f !! ["ibstates"; "index"] = None ∨
   ∃ rows, f !! ["ibstates"; "index"] = Some (IbstateIndex rows)) ∧
  f !! ["ibstates";
        py_str (Z.of_nat (length (table_rows ibstate_index_dtype f
                                    ["ibstates"; "index"])))] = None.

(** The bin-topology part of a store as [append_bin_mapper] leaves it: the
    group, if it is there, is a group, and the index and payload tables are
    both missing or both there with the same number of rows. *)
Definition bin_store_ok (f : H5) : Prop :=
  (f !! ["bin_topologies"] = None ∨ ∃ attrs, f !! ["bin_topologies"] = Some (Group attrs)) ∧
  ((f !! ["bin_topologies"; "index"] = None ∧ f !! ["bin_topologies"; "pickles"] = None) ∨
   ∃ irows width rows,
     f !! ["bin_topologies"; "index"] = Some (BinningIndex irows) ∧
     f !! ["bin_topologies"; "pickles"] = Some (Pickles width rows) ∧
     length rows = length irows).

(** Reading a blob back: payload row [i], cut to the [pickle_len] that index
    row [i] records. *)
Definition read_pickle (f : H5) (i : nat) : option (list byte) :=
  irow ← bin_index_rows f !! i;
  row ← (bin_pickles f).2 !! i;
  Some (take (Z.to_nat (pickle_len irow)) row).

(** The attributes [__init__] sets on the root group. *)
Definition root_attrs (config : DDWEMetadata) : gmap string AttrVal :=
  <["westpa_fileformat_version" := AInt (west_file_format_version config)]>
    (<["westpa_iter_prec" := AInt (west_iter_prec config)]>
       (<["west_version" := AStr (west_version config)]>
          (<["west_iter_prec" := AInt (west_iter_prec config)]>
             (<["west_file_format_version" := AInt (west_file_format_version config)]> ∅)))).

(** The file [__init__] leaves: the attributes on the root, a summary table
    of one zero row, an empty ['iterations'] group. *)
Definition fresh_store (config : DDWEMetadata) : H5 :=
  <[["iterations"] := Group ∅]>
    (<[["summary"] := SummaryTable [summary_zero]]>
       (<[[] := Group (root_attrs config)]> ∅)).

(** Two replica records that agree on every field but [iteration_id]. *)
Definition same_but_iteration (a b : SimMetadata W) : Prop :=
  weight a = weight b ∧ simulation_id a = simulation_id b ∧
  binner_hash a = binner_hash b ∧ binner_pickle a = binner_pickle b.

(** What [append] does after the summary row. *)
Definition append_rest (self : WestpaH5File) (sim : SimMetadata W) (n_iter : Z)
    (basis_states : list (BasisState W)) (target_states : list (TargetState W))
    : M (W:=W) unit :=
  (if truthy n_iter then append_ibstates n_iter basis_states else mret tt);;
  (if truthy n_iter then append_tstates n_iter target_states else mret tt);;
  (if truthy n_iter then append_bin_mapper sim else mret tt);;
  stamp_iteration n_iter (west_iter_prec (config self)).

(** The four writers of growable tables, as operations on the open file. *)
Inductive WriteOp :=
| OpSummary (n_iter : Z) (next_iteration : list (SimMetadata W))
    (binned_sims : list (list (SimMetadata W)))
| OpIbstates (n_iter : Z) (basis_states : list (BasisState W))
| OpTstates (n_iter : Z) (target_states : list (TargetState W))
| OpBinMapper (sim : SimMetadata W).

Definition run_op (op : WriteOp) : M (W:=W) unit :=
  match op with
  | OpSummary n l bins => append_summary n l bins
  | OpIbstates n bs => append_ibstates n bs
  | OpTstates n ts => append_tstates n ts
  | OpBinMapper sim => append_bin_mapper sim
  end.

(** A sequence of writer calls, each from the file the one before left,
    whether it returned or raised. *)
Definition run_ops (ops : list WriteOp) (s : St (W:=W)) : St (W:=W) :=
  foldl (λ s op, (run_op op s).2) s ops.

(** Row [i] of table [p] is what the writer [op], called on [s], refers to:
    iteration [n] to summary row [n - 1]; a basis or target state epoch and
    a binning-scheme snapshot to the row after the last one of their index
    (and, for the snapshot, of the payload table). *)
Definition references (op : WriteOp) (s : St (W:=W)) (p : Path) (i : nat) : Prop :=
  match op with
  | OpSummary n _ _ => p = ["summary"] ∧ (Z.of_nat i = n - 1)%Z
  | OpIbstates _ _ =>
      p = ["ibstates"; "index"] ∧ i = table_len (file s) ["ibstates"; "index"]
  | OpTstates _ _ =>
      p = ["tstates"; "index"] ∧ i = table_len (file s) ["tstates"; "index"]
  | OpBinMapper _ =>
      (p = ["bin_topologies"; "index"] ∨ p = ["bin_topologies"; "pickles"]) ∧
      i = table_len (file s) ["bin_topologies"; "index"]
  end.

(** A string [|S64] and the variable-length strings store as it is, up to
    its length: ASCII characters, none of them NUL. *)
Definition plain_ascii (s : string) : bool :=
  forallb is_ascii (list_ascii_of_string s) && no_nul s.

(** The rows are of one length, that of the first. *)
Definition rectangular {A : Type} (rows : list (list A)) : bool :=
  forallb (λ r, length r =? length (default [] (head rows))) rows.

(** Basis states [append_ibstates] can store: progress coordinates of one
    length and no NUL in an [auxref]. *)
Definition basis_states_ok (basis_states : list (BasisState W)) : Prop :=
  rectangular (bs_parent_pcoord <$> basis_states) = true ∧
  Forall (λ b, no_nul (bs_auxref b) = true) basis_states.

(** Target states [append_tstates] can store: progress coordinates of one
    length and no NUL in a label. *)
Definition target_states_ok (target_states : list (TargetState W)) : Prop :=
  rectangular (ts_pcoord <$> target_states) = true ∧
  Forall (λ t, no_nul (ts_label t) = true) target_states.

(** The number a string of decimal digits denotes, leading zeros allowed. *)
Definition digits_value (s : string) : option N :=
  N.of_uint <$> NilEmpty.uint_of_string s.

(** [row] is the aggregate [append_summary] computes for the replicas [l]
    in the bins [bins]. *)
Definition is_summary_row (l : list (SimMetadata W)) (bins : list (list (SimMetadata W)))
    (row : SummaryRow W) : Prop :=
  n_particles row = Z.of_nat (length l) ∧
  norm row = py_sum (weight <$> l) ∧
  py_min (weight <$> l) = Ok (min_seg_prob row) ∧
  py_max (weight <$> l) = Ok (max_seg_prob row) ∧
  py_min ((λ sims, py_sum (weight <$> sims)) <$> bins) = Ok (min_bin_prob row) ∧
  py_max ((λ sims, py_sum (weight <$> sims)) <$> bins) = Ok (max_bin_prob row) ∧
  cputime row = w_zero ∧
  walltime row = w_zero ∧
  ∃ sim0, head l = Some sim0 ∧ np_S64 (binner_hash sim0) = Ok (binhash row).

(** The file has no node at or below [p]. *)
Definition free_below (f : H5) (p : Path) : Prop := ∀ rest, f !! (p ++ rest) = None.

(** The basis-state part of a store that [append_ibstates] built: the group
    and its index are what they should be, index row [i] refers to the
    subgroup named [str(i)], which exists and whose tables have as many rows
    as the index row counts states, and the names of later subgroups are
    free. *)
Definition ibstates_wf (f : H5) : Prop :=
  (f !! ["ibstates"] = None ∨ ∃ attrs, f !! ["ibstates"] = Some (Group attrs)) ∧
  (f !! ["ibstates"; "index"] = None ∨
   ∃ rows, f !! ["ibstates"; "index"] = Some (IbstateIndex rows)) ∧
  (∀ i row, table_rows ibstate_index_dtype f ["ibstates"; "index"] !! i = Some row →
     ib_group_ref row = Some ["ibstates"; py_str (Z.of_nat i)] ∧
     (∃ attrs, f !! ["ibstates"; py_str (Z.of_nat i)] = Some (Group attrs)) ∧
     Z.of_nat (table_len f ["ibstates"; py_str (Z.of_nat i); "bstate_index"]) = n_bstates row ∧
     Z.of_nat (table_len f ["ibstates"; py_str (Z.of_nat i); "bstate_pcoord"]) = n_bstates row) ∧
  (∀ k, length (table_rows ibstate_index_dtype f ["ibstates"; "index"]) ≤ k →
     free_below f ["ibstates"; py_str (Z.of_nat k)]).

(** The target-state part of a store that [append_tstates] built: likewise,
    but an index row that counts no states has a null reference. *)
Definition tstates_wf (f : H5) : Prop :=
  (f !! ["tstates"] = None ∨ ∃ attrs, f !! ["tstates"] = Some (Group attrs)) ∧
  (f !! ["tstates"; "index"] = None ∨
   ∃ rows, f !! ["tstates"; "index"] = Some (TstateIndex rows)) ∧
  (∀ i row, table_rows tstate_index_dtype f ["tstates"; "index"] !! i = Some row →
     if (n_states row =? 0)%Z then ts_group_ref row = None
     else
       ts_group_ref row = Some ["tstates"; py_str (Z.of_nat i)] ∧
       (∃ attrs, f !! ["tstates"; py_str (Z.of_nat i)] = Some (Group attrs)) ∧
       Z.of_nat (table_len f ["tstates"; py_str (Z.of_nat i); "index"]) = n_states row ∧
       Z.of_nat (table_len f ["tstates"; py_str (Z.of_nat i); "pcoord"]) = n_states row) ∧
  (∀ k, length (table_rows tstate_index_dtype f ["tstates"; "index"]) ≤ k →
     free_below f ["tstates"; py_str (Z.of_nat k)]).

(** The bin-topology part of a store that [append_bin_mapper] built: the
    tables are in step, every payload row is as long as the table is wide,
    and the length an index row records is at most that width. *)
Definition bin_store_wf (f : H5) : Prop :=
  bin_store_ok f ∧
  ∀ i irow row,
    bin_index_rows f !! i = Some irow → (bin_pickles f).2 !! i = Some row →
    length row = (bin_pickles f).1 ∧
    (0 ≤ pickle_len irow)%Z ∧ Z.to_nat (pickle_len irow) ≤ length row.

(** [append_bin_mapper] for one snapshot after another. *)
Fixpoint append_bin_mappers (sims : list (SimMetadata W)) : M (W:=W) unit :=
  match sims with
  | [] => mret tt
  | sim :: sims' => append_bin_mapper sim;; append_bin_mappers sims'
  end.

(** The ['iterations'] group and the names in it are groups or free. *)
Definition iterations_ok (f : H5) : Prop :=
  (f !! ["iterations"] = None ∨ ∃ attrs, f !! ["iterations"] = Some (Group attrs)) ∧
  ∀ name, f !! ["iterations"; name] = None ∨
          ∃ attrs, f !! ["iterations"; name] = Some (Group attrs).

(** A store in order: a summary table of at least one row, and the four
    groups as this code builds them. *)
Definition store_ok (f : H5) : Prop :=
  (∃ rows, f !! ["summary"] = Some (SummaryTable rows) ∧ rows ≠ []) ∧
  ibstates_wf f ∧ tstates_wf f ∧ bin_store_wf f ∧ iterations_ok f.

(** The files agree on every path below the top-level name [g]. *)
Definition agree_under (g : string) (f f' : H5) : Prop :=
  ∀ p, under g p → f' !! p = f !! p.

(** The nodes outside the five top-level names [append] writes below. *)
Definition outside_store_groups (p : Path) : Prop :=
  ¬ under "summary" p ∧ ¬ under "ibstates" p ∧ ¬ under "tstates" p ∧
  ¬ under "bin_topologies" p ∧ ¬ under "iterations" p.

(** The nodes outside those names hold in [s'] what they hold in [s]. *)
Definition keeps_outside (s s' : St (W:=W)) : Prop :=
  ∀ p, outside_store_groups p → file s' !! p = file s !! p.

(** Every name that holds a node in [s] holds one in [s']. *)
Definition keeps_nodes (s s' : St (W:=W)) : Prop :=
  ∀ p, is_Some (file s !! p) → is_Some (file s' !! p).

(** The length [new] of an index after an [append] for iteration [n], from
    its length [old] before: one row more unless [n] is 0. *)
Definition grown (n : Z) (old new : nat) : Prop :=
  new = if truthy n then S old else old.




End Properties.

(** ** A store to run the code on *)

Definition sample_config : DDWEMetadata := {|
  west_current_iteration := 0;
  west_file_format_version := 9;
  west_iter_prec := 8;
  west_version := "1.0"
|}.

Definition sample_self : WestpaH5File := {|
  config := sample_config;
  h5file := "west.h5"
|}.

Definition sample_sim (w : float) (n : Z) : SimMetadata float := {|
  weight := w;
  simulation_id := 7;
  iteration_id := n;
  binner_hash := "3f2a";
  binner_pickle := [x80; x04; x4e]
|}.



(** Two replicas of weights 0.75 and 0.25. *)
Definition sample_iteration (n : Z) : list (SimMetadata float) :=
  [sample_sim 0.75%float n; sample_sim 0.25%float n].

Definition sample_basis : BasisState float := {|
  bs_simulation_id := 0;
  bs_weight := 1%float;
  bs_auxref := "";
  bs_parent_pcoord := [2.5%float]
|}.

(** The file system after [WestpaH5File('west.h5', sample_config)]. *)
Definition sample_fs0 : gmap string (gmap Path (Node float)) :=
  (init "west.h5" sample_config ∅).1.2.

(** And after appending iteration 1, both replicas in one bin. *)
Definition sample_fs1 : gmap string (gmap Path (Node float)) :=
  (append sample_self (sample_iteration 1) [sample_iteration 1] [sample_basis] []
     sample_fs0).1.2.

(** The store file of [sample_fs1] and its summary rows. *)
Definition sample_file1 : gmap Path (Node float) :=
  default ∅ (sample_fs1 !! "west.h5").

Definition sample_rows1 : list (SummaryRow float) :=
  table_rows summary_table_dtype sample_file1 ["summary"].

(** The store of [sample_fs0], open, with an empty log. *)
Definition sample_state : St (W:=float) := {|
  file := fresh_store sample_config;
  log := []
|}.

Definition sample_target : TargetState float := {|
  ts_label := "bound";
  ts_pcoord := [1.5%float]
|}.


(** A store handle whose iteration precision is negative. *)
Definition sample_bad_self : WestpaH5File := {|
  config := {| west_current_iteration := 0; west_file_format_version := 9;
               west_iter_prec := -1; west_version := "1.0" |};
  h5file := "west.h5"
|}.

(** An open file that has the bin-topology index and no payload table. *)
Definition sample_half_state : St (W:=float) := {|
  file := <[["bin_topologies"; "index"] := BinningIndex []]>
            (<[["bin_topologies"] := Group ∅]> ∅);
  log := []
|}.

(** * Proofs *)

(** ** Strings and lists *)

Lemma str_N_head (n : N) :
  ∃ c rest, str_N n = String c rest ∧ c ≠ "i"%char.
Proof.
  unfold str_N.
  destruct (N.to_uint n); simpl; eexists _, _; (split; [reflexivity | discriminate]).
Qed.

Lemma py_str_not_index (z : Z) : py_str z ≠ "index".
Proof.
  unfold py_str. destruct (z <? 0)%Z; [discriminate |].
  destruct (str_N_head (Z.to_N z)) as (c & rest & -> & Hc).
  intros [= ? _]. done.
Qed.

Lemma string_take_all (n : nat) (s : string) :
  String.length s ≤ n → string_take n s = s.
Proof.
  revert n. induction s as [| c s IH]; intros [| n] Hn; simpl in *; try done; try lia.
  f_equal. apply IH. lia.
Qed.

Lemma no_nul_string_take (n : nat) (s : string) :
  no_nul s = true → no_nul (string_take n s) = true.
Proof.
  unfold no_nul. revert n.
  induction s as [| c s IH]; intros [| n]; simpl; try done.
  intros [Hc Hs]%andb_true_iff. rewrite Hc. simpl. by apply IH.
Qed.

Lemma rstrip_nul_no_nul (s : string) : no_nul s = true → rstrip_nul s = s.
Proof.
  unfold no_nul. induction s as [| c s IH]; simpl; [done |].
  intros [Hc Hs]%andb_true_iff. rewrite (IH Hs).
  destruct s; [| done]. by destruct (Ascii.eqb c Ascii.zero).
Qed.

Lemma np_S64_plain (s : string) :
  plain_ascii s = true → np_S64 s = Ok (string_take 64 s).
Proof.
  unfold plain_ascii, np_S64. intros [-> Hs]%andb_true_iff.
  by rewrite rstrip_nul_no_nul by by apply no_nul_string_take.
Qed.

Lemma np_array_ok {A : Type} (rows l : list (list A)) : np_array rows = Ok l → l = rows.
Proof.
  unfold np_array. destruct rows as [| r rest]; [congruence |].
  destruct (forallb _ rest); congruence.
Qed.

Lemma np_array_rectangular {A : Type} (rows : list (list A)) :
  rectangular rows = true → np_array rows = Ok rows.
Proof.
  unfold rectangular, np_array. destruct rows as [| r rest]; [done |].
  simpl. intros [_ H]%andb_true_iff. by rewrite H.
Qed.

Lemma vlen_strs_ok (l : list string) :
  Forall (λ s, no_nul s = true) l → vlen_strs l = Ok tt.
Proof.
  intros Hl. unfold vlen_strs.
  induction Hl as [| s l Hs _ IH]; [done |].
  simpl. rewrite Hs. exact IH.
Qed.

Lemma no_nul_app (s t : string) :
  no_nul s = true → no_nul t = true → no_nul (s +:+ t) = true.
Proof.
  unfold no_nul. intros Hs Ht. induction s as [| c s IH]; [done |].
  change (String c s +:+ t) with (String c (s +:+ t)).
  simpl in *. apply andb_true_iff in Hs as [-> Hs]. simpl. by apply IH.
Qed.

Lemma no_nul_string_of_uint (d : Decimal.uint) :
  no_nul (NilEmpty.string_of_uint d) = true.
Proof. unfold no_nul. induction d; simpl; done. Qed.

Lemma no_nul_str_N (n : N) : no_nul (str_N n) = true.
Proof.
  unfold str_N, NilZero.string_of_uint.
  destruct (N.to_uint n); try apply no_nul_string_of_uint; done.
Qed.

Lemma no_nul_py_str (z : Z) : no_nul (py_str z) = true.
Proof.
  unfold py_str. destruct (z <? 0)%Z; [| apply no_nul_str_N].
  apply no_nul_app; [done | apply no_nul_str_N].
Qed.

Lemma length_resize_rows {R : Type} (fill : R) (n : nat) (rows : list R) :
  length (resize_rows fill n rows) = n.
Proof. unfold resize_rows. rewrite length_app, length_take, length_replicate. lia. Qed.

Lemma resize_rows_grow {R : Type} (fill : R) (n : nat) (rows : list R) :
  length rows ≤ n → resize_rows fill n rows = rows ++ replicate (n - length rows) fill.
Proof. intros Hn. unfold resize_rows. by rewrite take_ge. Qed.

Lemma resize_rows_lookup_old {R : Type} (fill : R) (n i : nat) (rows : list R) :
  length rows ≤ n → i < length rows → resize_rows fill n rows !! i = rows !! i.
Proof. intros Hn Hi. rewrite resize_rows_grow by done. by apply lookup_app_l. Qed.

Lemma resize_rows_succ_insert {R : Type} (fill row : R) (rows : list R) :
  <[length rows := row]> (resize_rows fill (S (length rows)) rows) = rows ++ [row].
Proof.
  rewrite resize_rows_grow by lia.
  replace (S (length rows) - length rows) with 1 by lia. simpl.
  rewrite insert_app_r_alt by lia. by rewrite Nat.sub_diag.
Qed.

Lemma take_resize_rows {R : Type} (fill : R) (n k : nat) (row : list R) :
  k ≤ n → k ≤ length row → take k (resize_rows fill n row) = take k row.
Proof.
  intros Hn Hk. unfold resize_rows.
  rewrite take_app_le by (rewrite length_take; lia).
  rewrite take_take. f_equal. lia.
Qed.

Lemma h5_index_last (len : nat) :
  0 < len → h5_index len (Z.of_nat len - 1) = Ok (len - 1).
Proof.
  intros Hlen. unfold h5_index.
  destruct (Z.ltb_spec (Z.of_nat len - 1) 0); [lia |].
  destruct (Z.leb_spec 0 (Z.of_nat len - 1)); [| lia].
  destruct (Z.ltb_spec (Z.of_nat len - 1) (Z.of_nat len)); [| lia].
  simpl. f_equal. lia.
Qed.

Lemma h5_index_new (n : nat) : h5_index (S n) (Z.of_nat (S n) - 1) = Ok n.
Proof. rewrite h5_index_last by lia. f_equal. lia. Qed.

Lemma of_nat_S_pred (n : nat) : (Z.of_nat (S n) - 1)%Z = Z.of_nat n.
Proof. lia. Qed.

Lemma h5_index_new' (n : nat) : h5_index (S n) (Z.of_nat n) = Ok n.
Proof. by rewrite <- of_nat_S_pred, h5_index_new. Qed.

Lemma to_nat_succ (n : nat) : Z.to_nat (Z.of_nat n + 1) = S n.
Proof. lia. Qed.

Lemma resize_rows_lookup_new {R : Type} (fill : R) (rows : list R) :
  resize_rows fill (S (length rows)) rows !! length rows = Some fill.
Proof.
  rewrite resize_rows_grow by lia.
  replace (S (length rows) - length rows) with 1 by lia.
  by rewrite lookup_app_r, Nat.sub_diag by lia.
Qed.

Lemma lookup_replicate_1 {R : Type} (x : R) : replicate 1 x !! 0 = Some x.
Proof. reflexivity. Qed.

Lemma insert_replicate_1 {R : Type} (x y : R) : <[0 := y]> (replicate 1 x) = [y].
Proof. reflexivity. Qed.

Lemma h5_index_ok (len : nat) (i : Z) :
  (0 ≤ i < Z.of_nat len)%Z → h5_index len i = Ok (Z.to_nat i).
Proof.
  intros Hi. unfold h5_index.
  destruct (Z.ltb_spec i 0); [lia |].
  destruct (Z.leb_spec 0 i); [| lia].
  destruct (Z.ltb_spec i (Z.of_nat len)); [| lia]. done.
Qed.

Lemma np_uint_in_range (bits z : Z) :
  (0 ≤ z < 2 ^ bits)%Z → np_uint bits z = Ok z.
Proof.
  intros Hz. unfold np_uint.
  destruct (Z.leb_spec 0 z); [| lia]. destruct (Z.ltb_spec z (2 ^ bits)); [done | lia].
Qed.

Lemma h5_index_bound (len : nat) (i : Z) (j : nat) :
  h5_index len i = Ok j → j < len.
Proof.
  unfold h5_index. intros H.
  destruct (_ && _) eqn:Hc; [| discriminate].
  apply andb_true_iff in Hc as [H1%Z.leb_le H2%Z.ltb_lt].
  injection H as <-. lia.
Qed.

Lemma h5_index_nonneg (len : nat) (i : Z) (j : nat) :
  (0 ≤ i)%Z → h5_index len i = Ok j → j = Z.to_nat i.
Proof.
  unfold h5_index. intros Hi H.
  destruct (Z.ltb_spec i 0); [lia |].
  destruct (_ && _); [| discriminate]. by injection H as <-.
Qed.

(** ** Decimal names *)

Lemma N_to_uint_nonnil (n : N) : N.to_uint n ≠ Decimal.Nil.
Proof.
  intros H. pose proof (DecimalN.Unsigned.to_of (N.to_uint n)) as E.
  rewrite DecimalN.Unsigned.of_to in E. rewrite H in E at 2.
  cbn in E. rewrite H in E. discriminate E.
Qed.

Lemma digits_value_str_N (n : N) : digits_value (str_N n) = Some n.
Proof.
  unfold digits_value, str_N.
  pose proof (N_to_uint_nonnil n) as Hn.
  replace (NilZero.string_of_uint (N.to_uint n))
    with (NilEmpty.string_of_uint (N.to_uint n)) by (by destruct (N.to_uint n)).
  rewrite NilEmpty.usu. cbn. by rewrite DecimalN.Unsigned.of_to.
Qed.

Lemma digits_value_zeros (k : nat) (s : string) :
  digits_value (zeros k +:+ s) = digits_value s.
Proof.
  induction k as [| k IH]; [done |].
  cbn [zeros]. change (String "0" (zeros k) +:+ s) with (String "0" (zeros k +:+ s)).
  rewrite <- IH. unfold digits_value. cbn.
  destruct (NilEmpty.uint_of_string (zeros k +:+ s)) as [d |]; cbn; [| done].
  reflexivity.
Qed.

Lemma digits_value_minus (s : string) : digits_value ("-" +:+ s) = None.
Proof.
  change ("-" +:+ s) with (String "-" s).
  unfold digits_value. cbn. by destruct (NilEmpty.uint_of_string s).
Qed.

Lemma str_N_inj (n m : N) : str_N n = str_N m → n = m.
Proof.
  intros H. apply (f_equal digits_value) in H.
  rewrite !digits_value_str_N in H. by injection H.
Qed.

Lemma py_str_inj (z z' : Z) : py_str z = py_str z' → z = z'.
Proof.
  unfold py_str.
  destruct (Z.ltb_spec z 0) as [Hz | Hz], (Z.ltb_spec z' 0) as [Hz' | Hz']; intros E.
  - injection E as E%str_N_inj. lia.
  - apply (f_equal digits_value) in E.
    by rewrite digits_value_minus, digits_value_str_N in E.
  - apply (f_equal digits_value) in E.
    by rewrite digits_value_minus, digits_value_str_N in E.
  - apply str_N_inj in E. lia.
Qed.

Lemma py_format_0d_inj (n m prec : Z) (a : string) :
  py_format_0d n prec = Ok a → py_format_0d m prec = Ok a → n = m.
Proof.
  unfold py_format_0d. destruct ((prec <? 0) || (2 ^ 63 <=? prec))%Z; [done |].
  destruct (Z.ltb_spec n 0) as [Hn | Hn], (Z.ltb_spec m 0) as [Hm | Hm];
    intros [= <-] [= E].
  - change ("" +:+ ?x) with x in E. apply (f_equal digits_value) in E.
    rewrite !digits_value_zeros, !digits_value_str_N in E. injection E as E. lia.
  - apply (f_equal digits_value) in E.
    by rewrite digits_value_minus, digits_value_zeros, digits_value_str_N in E.
  - apply (f_equal digits_value) in E.
    by rewrite digits_value_minus, digits_value_zeros, digits_value_str_N in E.
  - apply (f_equal digits_value) in E.
    rewrite !digits_value_zeros, !digits_value_str_N in E. injection E as E. lia.
Qed.

(** ** The width of a decimal name *)

Lemma of_uint_acc_bounds (d : Decimal.uint) (acc : positive) :
  (Z.pos acc * 10 ^ Z.of_nat (Decimal.nb_digits d) ≤ Z.pos (Pos.of_uint_acc d acc) <
   (Z.pos acc + 1) * 10 ^ Z.of_nat (Decimal.nb_digits d))%Z.
Proof.
  revert acc. induction d as [| d IH | d IH | d IH | d IH | d IH | d IH | d IH | d IH | d IH | d IH];
    intros acc; cbn [Pos.of_uint_acc Decimal.nb_digits].
  { cbn. lia. }
  all: rewrite Nat2Z.inj_succ, Z.pow_succ_r by lia.
  all: match goal with
       | |- context [Pos.of_uint_acc _ ?a] => specialize (IH a)
       end.
  all: assert (0 < 10 ^ Z.of_nat (Decimal.nb_digits d))%Z by (apply Z.pow_pos_nonneg; lia).
  all: nia.
Qed.

Lemma of_uint_upper (d : Decimal.uint) :
  (Z.of_N (N.of_uint d) < 10 ^ Z.of_nat (Decimal.nb_digits d))%Z.
Proof.
  induction d as [| d IH | d IH | d IH | d IH | d IH | d IH | d IH | d IH | d IH | d IH];
    cbn [N.of_uint Pos.of_uint Decimal.nb_digits].
  { cbn. lia. }
  all: rewrite Nat2Z.inj_succ, Z.pow_succ_r by lia.
  all: assert (0 < 10 ^ Z.of_nat (Decimal.nb_digits d))%Z by (apply Z.pow_pos_nonneg; lia).
  { unfold N.of_uint in IH. lia. }
  all: match goal with
       | |- context [Pos.of_uint_acc ?d' ?a] => pose proof (of_uint_acc_bounds d' a)
       end.
  all: cbn [Z.of_N]; lia.
Qed.

Lemma of_uint_lower (d : Decimal.uint) :
  d ≠ Decimal.Nil → Decimal.unorm d = d → N.of_uint d ≠ 0%N →
  (10 ^ (Z.of_nat (Decimal.nb_digits d) - 1) ≤ Z.of_N (N.of_uint d))%Z.
Proof.
  intros Hnil Hnorm Hnz.
  destruct d as [| d | d | d | d | d | d | d | d | d | d];
    cbn [N.of_uint Pos.of_uint Decimal.nb_digits] in *; try done.
  { (* a leading zero: the number is 0 *)
    exfalso. unfold Decimal.unorm in Hnorm. cbn [Decimal.nzhead] in Hnorm.
    destruct (Decimal.nzhead d) eqn:E; try discriminate Hnorm.
    - injection Hnorm as <-. by cbn in Hnz.
    - pose proof (DecimalFacts.nb_digits_nzhead d) as Hle. rewrite E, Hnorm in Hle.
      cbn in Hle. lia. }
  all: replace (Z.of_nat (S (Decimal.nb_digits d)) - 1)%Z
         with (Z.of_nat (Decimal.nb_digits d)) by lia.
  all: match goal with
       | |- context [Pos.of_uint_acc ?d' ?a] => pose proof (of_uint_acc_bounds d' a)
       end.
  all: assert (0 < 10 ^ Z.of_nat (Decimal.nb_digits d))%Z by (apply Z.pow_pos_nonneg; lia).
  all: cbn [Z.of_N]; nia.
Qed.

Lemma length_string_of_uint (d : Decimal.uint) :
  String.length (NilEmpty.string_of_uint d) = Decimal.nb_digits d.
Proof. induction d; cbn; congruence. Qed.

Lemma length_str_N (n : N) : String.length (str_N n) = Decimal.nb_digits (N.to_uint n).
Proof.
  unfold str_N. pose proof (N_to_uint_nonnil n).
  destruct (N.to_uint n) eqn:E; try done; rewrite <- length_string_of_uint; done.
Qed.

(** [str(n)] has at most [k] digits exactly when [n < 10 ^ k]. *)
Lemma length_str_N_le (n : N) (k : nat) :
  0 < k → String.length (str_N n) ≤ k ↔ (Z.of_N n < 10 ^ Z.of_nat k)%Z.
Proof.
  intros Hk. rewrite length_str_N.
  pose proof (of_uint_upper (N.to_uint n)) as Hup.
  rewrite DecimalN.Unsigned.of_to in Hup.
  split.
  - intros Hle. eapply Z.lt_le_trans; [exact Hup |].
    apply Z.pow_le_mono_r; lia.
  - intros Hlt. destruct (decide (n = 0%N)) as [-> | Hnz]; [cbn; lia |].
    pose proof (of_uint_lower (N.to_uint n) (N_to_uint_nonnil n)) as Hlo.
    rewrite DecimalN.Unsigned.of_to in Hlo.
    assert (Hnorm : Decimal.unorm (N.to_uint n) = N.to_uint n).
    { rewrite <- (DecimalN.Unsigned.of_to n) at 2. by rewrite DecimalN.Unsigned.to_of. }
    specialize (Hlo Hnorm Hnz).
    destruct (decide (Decimal.nb_digits (N.to_uint n) ≤ k)) as [? | Hgt]; [done |].
    exfalso.
    assert (10 ^ Z.of_nat k ≤ 10 ^ (Z.of_nat (Decimal.nb_digits (N.to_uint n)) - 1))%Z
      by (apply Z.pow_le_mono_r; lia).
    lia.
Qed.

Lemma length_zeros (k : nat) (s : string) :
  String.length (zeros k +:+ s) = k + String.length s.
Proof.
  induction k as [| k IH]; [done |].
  cbn [zeros]. change (String "0" (zeros k) +:+ s) with (String "0" (zeros k +:+ s)).
  cbn [String.length]. by rewrite IH.
Qed.

(** ** The order of float64 *)

Lemma SFltb_irrefl (x : spec_float) : SFltb x x = false.
Proof.
  unfold SFltb, SFcompare.
  destruct x as [s | s | | s m e]; try done.
  - by destruct s.
  - destruct s; rewrite Z.compare_refl, Pos.compare_cont_refl; done.
Qed.

Lemma SFltb_trans (x y z : spec_float) :
  SFltb x y = true → SFltb y z = true → SFltb x z = true.
Proof.
  unfold SFltb, SFcompare.
  destruct x as [sx | sx | | sx mx ex], y as [sy | sy | | sy my ey],
           z as [sz | sz | | sz mz ez];
    try destruct sx; try destruct sy; try destruct sz; try done.
  all: change (Pos.compare_cont Eq ?a ?b) with (Pos.compare a b).
  all: destruct (Z.compare_spec ex ey); try done.
  all: destruct (Z.compare_spec ey ez); try done.
  all: destruct (Z.compare_spec ex ez); try done; try lia.
  all: destruct (Pos.compare_spec mx my); try done.
  all: destruct (Pos.compare_spec my mz); try done.
  all: destruct (Pos.compare_spec mx mz); try done; try lia.
Qed.

Lemma float_ltb_irrefl (x : float) : PrimFloat.ltb x x = false.
Proof. rewrite ltb_spec. apply SFltb_irrefl. Qed.

Lemma float_ltb_trans (x y z : float) :
  PrimFloat.ltb x y = true → PrimFloat.ltb y z = true → PrimFloat.ltb x z = true.
Proof. rewrite !ltb_spec. apply SFltb_trans. Qed.

(** ** Symbolic execution *)

(** Symbolic execution of a call in a hypothesis: unfold the h5py calls,
    simplify the lookups in updated files, split on the next test. *)
Ltac unfold_m H :=
  cbv beta iota zeta delta
    [mbind mret M_bind M_ret raise lift get_file write
     h5_contains new_group make_parents create_group require_group attrs_set
     ds_rows h5_getitem ds_len create_dataset h5_setitem_new ds_resize
     ds_getitem ds_setitem pickles_shape create_pickles pickles_resize
     pickles_setitem dt_wrap dt_unwrap dt_fill summary_table_dtype
     ibstate_index_dtype tstate_index_dtype binning_index_dtype fst snd
     file log ib_iter_valid n_bstates ib_group_ref ts_iter_valid n_states
     ts_group_ref hash pickle_len] in H;
  cbn [app] in H.

Ltac solve_path_ne :=
  let E := fresh in
  intros E; simplify_eq; first [ done | by eapply py_str_not_index ].

Ltac simpl_lookups H :=
  repeat first
    [ rewrite lookup_insert_eq in H
    | rewrite lookup_insert_ne in H by solve_path_ne
    | match goal with
      | E : ?f !! ?k = _ |- _ =>
          lazymatch type of H with context [f !! k] => rewrite E in H end
      | E : np_S64 ?k = _ |- _ =>
          lazymatch type of H with context [np_S64 k] => rewrite E in H end
      | E : np_array ?k = _ |- _ =>
          lazymatch type of H with context [np_array k] => rewrite E in H end
      | E : vlen_strs ?k = _ |- _ =>
          lazymatch type of H with context [vlen_strs k] => rewrite E in H end
      end ].

Ltac head_scrut t :=
  lazymatch t with
  | match ?x with _ => _ end => head_scrut x
  | (match ?x with _ => _ end) _ => head_scrut x
  | _ => t
  end.

Ltac exec1 H :=
  lazymatch type of H with
  | ?lhs = _ =>
      let x := head_scrut lhs in
      lazymatch x with
      | lhs => fail
      | _ => destruct x eqn:?
      end
  end.

Ltac norm H :=
  repeat progress
    (unfold_m H; simpl_lookups H;
     rewrite ?to_nat_succ, ?length_resize_rows, ?length_replicate, ?h5_index_new,
       ?of_nat_S_pred, ?h5_index_new', ?resize_rows_lookup_new, ?resize_rows_succ_insert,
       ?lookup_replicate_1, ?insert_replicate_1 in H).

Ltac exec H := repeat progress (norm H; try exec1 H).

(** Closing the leaves of [writes_under]. *)
Ltac frame_leaf :=
  let p := fresh "p" in let Hp := fresh "Hp" in
  intros p Hp; cbn [file];
  repeat (rewrite lookup_insert_ne; [| by intros <-; apply Hp; eexists]);
  done.

Ltac log_leaf :=
  cbn [log]; rewrite <- ?app_assoc; cbn [app];
  eexists; split;
  [ first [ reflexivity | symmetry; apply app_nil_r ]
  | split;
    [ repeat first [ apply Forall_nil_2 | apply Forall_cons_2; [by eexists |] ]
    | let Hr := fresh in
      intros Hr; try discriminate Hr; rewrite ?elem_of_cons; auto 20 ] ].

Ltac footprint_leaf := split; [ frame_leaf | log_leaf ].

(** Closing the leaves of [len_mono]. *)
Ltac len_leaf :=
  let p := fresh "p" in
  intros p; unfold table_len; cbn [file];
  repeat (rewrite lookup_insert; case_decide; [subst p |]);
  repeat match goal with
         | E : ?f !! ?k = _ |- context [?f !! ?k] => rewrite E
         | Hb : (_ <? _)%Z = true |- _ => apply Z.ltb_lt in Hb
         end;
  cbn [node_len];
  rewrite ?length_insert, ?length_resize_rows, ?length_app, ?length_replicate;
  cbn [length]; lia.

Ltac solve_lookup :=
  cbn [file app];
  repeat first [ rewrite lookup_insert_eq | rewrite lookup_insert_ne by solve_path_ne ];
  try done.

(** Two paths differ: by their lengths, by a constant name, or because
    [str] of different numbers differs. *)
Ltac path_ne :=
  let E := fresh in
  intros E; cbn [app] in E; simplify_eq;
  repeat match goal with
         | H : py_str _ = py_str _ |- _ => apply py_str_inj in H
         | H : py_str _ = "index" |- _ => by apply py_str_not_index in H
         end;
  try done; lia.

(** Rewriting with an agreement below a top-level name. *)
Ltac rew_agree Ha := rewrite ?Ha by (cbn [app]; by eexists).

(** Closing the leaves of [keeps_nodes]. *)
Ltac nodes_leaf :=
  let p := fresh "p" in let Hp := fresh "Hp" in
  intros p Hp; cbn [file];
  repeat (rewrite lookup_insert; case_decide; [by eexists |]);
  done.

Lemma np_uint_ok bits z z' : np_uint bits z = Ok z' → z' = z.
Proof. unfold np_uint. destruct (_ && _); [| done]. by intros [= <-]. Qed.

(** What the numpy conversions that returned have returned. *)
Ltac ok_values :=
  repeat match goal with
         | Hu : np_uint _ _ = Ok _ |- _ => apply np_uint_ok in Hu; subst
         | Hu : np_array _ = Ok _ |- _ => apply np_array_ok in Hu; subst
         end.

(** ** The writers, one by one *)

Section Writers.
Context {W : Type} `{!WeightOps W}.
Implicit Types (s : St (W:=W)) (f : gmap Path (Node W)).

Lemma bind_inv {A B : Type} (m : M A) (k : A → M B) s (r : result B) s' :
  (m ≫= k) s = (r, s') →
  (∃ e, m s = (Raise e, s') ∧ r = Raise e) ∨
  (∃ a s1, m s = (Ok a, s1) ∧ k a s1 = (r, s')).
Proof.
  unfold mbind, M_bind. destruct (m s) as [[a | e] s1]; intros H.
  - right. by exists a, s1.
  - left. exists e. by simplify_eq.
Qed.

Lemma bind_ok_inv {A B : Type} (m : M A) (k : A → M B) s (b : B) s' :
  (m ≫= k) s = (Ok b, s') →
  ∃ a s1, m s = (Ok a, s1) ∧ k a s1 = (Ok b, s').
Proof.
  intros [(e & _ & ?) | H]%bind_inv; [done | exact H].
Qed.

Lemma append_summary_writes n l bins s r s' :
  append_summary n l bins s = (r, s') →
  writes_under "summary" (EvSetItem ["summary"]) r s s'.
Proof.
  destruct s as [f lg]. unfold append_summary. intros H.
  exec H; simplify_eq; footprint_leaf.
Qed.

Lemma append_ibstates_writes n bs s r s' :
  append_ibstates n bs s = (r, s') →
  writes_under "ibstates" (EvSetItem ["ibstates"; "index"]) r s s'.
Proof.
  destruct s as [f lg]. unfold append_ibstates. intros H.
  exec H; simplify_eq; footprint_leaf.
Qed.

Lemma append_tstates_writes n ts s r s' :
  append_tstates n ts s = (r, s') →
  writes_under "tstates" (EvSetItem ["tstates"; "index"]) r s s'.
Proof.
  destruct s as [f lg]. unfold append_tstates. intros H.
  exec H; simplify_eq; footprint_leaf.
Qed.

Lemma append_bin_mapper_writes sim s r s' :
  append_bin_mapper sim s = (r, s') →
  writes_under "bin_topologies" (EvSetItem ["bin_topologies"; "pickles"]) r s s'.
Proof.
  destruct s as [f lg]. unfold append_bin_mapper. intros H.
  exec H; simplify_eq; footprint_leaf.
Qed.


Lemma append_summary_mono n l bins s r s' :
  append_summary n l bins s = (r, s') → len_mono s s'.
Proof.
  destruct s as [f lg]. unfold append_summary. intros H.
  exec H; simplify_eq; len_leaf.
Qed.

Lemma append_ibstates_mono n bs s r s' :
  append_ibstates n bs s = (r, s') → len_mono s s'.
Proof.
  destruct s as [f lg]. unfold append_ibstates. intros H.
  exec H; simplify_eq; len_leaf.
Qed.

Lemma append_tstates_mono n ts s r s' :
  append_tstates n ts s = (r, s') → len_mono s s'.
Proof.
  destruct s as [f lg]. unfold append_tstates. intros H.
  exec H; simplify_eq; len_leaf.
Qed.

Lemma append_bin_mapper_mono sim s r s' :
  append_bin_mapper sim s = (r, s') → len_mono s s'.
Proof.
  destruct s as [f lg]. unfold append_bin_mapper. intros H.
  exec H; simplify_eq; len_leaf.
Qed.

End Writers.

Section WriterSpecs.
Context {W : Type} `{!WeightOps W}.
Implicit Types (s : St (W:=W)) (f : gmap Path (Node W)).

Lemma append_ibstates_spec n bs s s' :
  append_ibstates n bs s = (Ok tt, s') →
  let old := table_rows ibstate_index_dtype (file s) ["ibstates"; "index"] in
  let grp := ["ibstates"; py_str (Z.of_nat (length old))] in
  file s' !! ["ibstates"; "index"] =
    Some (IbstateIndex (old ++ [{| ib_iter_valid := n;
                                  n_bstates := Z.of_nat (length bs);
                                  ib_group_ref := Some grp |}])) ∧
  table_len (file s) ["ibstates"; "index"] = length old ∧
  file s !! grp = None ∧
  file s' !! grp = Some (Group ∅) ∧
  (bs = [] →
   ∀ p, p ≠ ["ibstates"] → p ≠ ["ibstates"; "index"] → p ≠ grp →
        file s' !! p = file s !! p) ∧
  (bs ≠ [] →
   file s' !! (grp ++ ["bstate_index"]) = Some (BstateTable (bstate_row <$> bs)) ∧
   file s' !! (grp ++ ["bstate_pcoord"]) = Some (PcoordArray (bs_parent_pcoord <$> bs))).
Proof.
  destruct s as [f lg]. unfold append_ibstates. intros H.
  exec H; simplify_eq.
  all: ok_values.
  all: unfold table_rows, table_len; cbn [file].
  all: repeat match goal with E : ?f !! ?k = _ |- context [?f !! ?k] => rewrite E end.
  all: cbn [default from_option id dt_unwrap ibstate_index_dtype length node_len].
  all: repeat split; try solve_lookup.
  all: try (intros; solve_lookup).
  all: try (intros p ???; by rewrite !lookup_insert_ne by done).
Qed.

End WriterSpecs.

(** ** What a writer that returned has written *)

Section Specs.
Context {W : Type} `{!WeightOps W}.
Implicit Types (s : St (W:=W)) (f : gmap Path (Node W)).

Lemma append_tstates_spec n ts s s' :
  append_tstates n ts s = (Ok tt, s') →
  let old := table_rows tstate_index_dtype (file s) ["tstates"; "index"] in
  let grp := ["tstates"; py_str (Z.of_nat (length old))] in
  file s' !! ["tstates"; "index"] =
    Some (TstateIndex (old ++ [{| ts_iter_valid := n;
                                 n_states := Z.of_nat (length ts);
                                 ts_group_ref := match ts with
                                                 | [] => None
                                                 | _ :: _ => Some grp
                                                 end |}])) ∧
  table_len (file s) ["tstates"; "index"] = length old ∧
  (ts = [] →
   ∀ p, p ≠ ["tstates"] → p ≠ ["tstates"; "index"] → file s' !! p = file s !! p) ∧
  (ts ≠ [] →
   file s !! grp = None ∧ file s' !! grp = Some (Group ∅) ∧
   file s' !! (grp ++ ["index"]) = Some (TstateTable (ts_label <$> ts)) ∧
   file s' !! (grp ++ ["pcoord"]) = Some (PcoordArray (ts_pcoord <$> ts))).
Proof.
  destruct s as [f lg]. unfold append_tstates. intros H.
  exec H; simplify_eq.
  all: ok_values.
  all: unfold table_rows, table_len; cbn [file].
  all: repeat match goal with E : ?f !! ?k = _ |- context [?f !! ?k] => rewrite E end.
  all: cbn [default from_option id dt_unwrap tstate_index_dtype length node_len].
  all: repeat split; try solve_lookup.
  all: try (intros; solve_lookup).
  all: try (intros p ??; by rewrite !lookup_insert_ne by done).
Qed.

Lemma append_bin_mapper_spec sim s s' :
  append_bin_mapper sim s = (Ok tt, s') →
  let data := binner_pickle sim in
  let irows := bin_index_rows (file s) in
  let w := (bin_pickles (file s)).1 `max` length data in
  let rs := resize_rows (replicate w x00) (S (length (bin_pickles (file s)).2))
              (resize_rows x00 w <$> (bin_pickles (file s)).2) in
  ∃ r0 attrs h,
    np_S64 (binner_hash sim) = Ok h ∧
    file s' !! ["bin_topologies"] = Some (Group attrs) ∧
    table_len (file s) ["bin_topologies"; "index"] = length irows ∧
    table_len (file s) ["bin_topologies"; "pickles"] = length (bin_pickles (file s)).2 ∧
    file s' !! ["bin_topologies"; "index"] =
      Some (BinningIndex (irows ++ [{| hash := h;
                                      pickle_len := Z.of_nat (length data) |}])) ∧
    rs !! length irows = Some r0 ∧
    file s' !! ["bin_topologies"; "pickles"] =
      Some (Pickles w (<[length irows := data ++ drop (length data) r0]> rs)).
Proof.
  destruct s as [f lg]. unfold append_bin_mapper. intros H.
  exec H; simplify_eq.
  all: ok_values.
  all: unfold bin_index_rows, bin_pickles, table_rows, table_len; cbn [file].
  all: repeat match goal with E : ?f !! ?k = _ |- context [?f !! ?k] => rewrite E end.
  all: cbn [default from_option id dt_unwrap binning_index_dtype length fst snd node_len].
  all: rewrite ?Nat.add_1_r in *.
  all: repeat match goal with
         | Hi : h5_index _ (Z.of_nat _) = Ok _ |- _ =>
             apply h5_index_nonneg in Hi; [rewrite Nat2Z.id in Hi; subst | lia]
         end.
  all: eexists _, _, _; split_and!;
    [ first [eassumption | reflexivity] | solve_lookup | reflexivity | reflexivity
    | solve_lookup
    | first [eassumption | reflexivity] | solve_lookup ].
Qed.


Lemma append_summary_run n sim0 rest b bins s rows h :
  file s !! ["summary"] = Some (SummaryTable rows) → (1 ≤ n)%Z →
  np_S64 (binner_hash sim0) = Ok h →
  ∃ s' rows' min_seg max_seg min_bin max_bin,
    append_summary n (sim0 :: rest) (b :: bins) s = (Ok tt, s') ∧
    py_min (weight <$> sim0 :: rest) = Ok min_seg ∧
    py_max (weight <$> sim0 :: rest) = Ok max_seg ∧
    py_min ((λ sims, py_sum (weight <$> sims)) <$> b :: bins) = Ok min_bin ∧
    py_max ((λ sims, py_sum (weight <$> sims)) <$> b :: bins) = Ok max_bin ∧
    file s' !! ["summary"] = Some (SummaryTable rows') ∧
    (n ≤ Z.of_nat (length rows'))%Z ∧
    rows' !! Z.to_nat (n - 1) =
      Some {| n_particles := Z.of_nat (length (sim0 :: rest));
              norm := py_sum (weight <$> sim0 :: rest);
              min_bin_prob := min_bin; max_bin_prob := max_bin;
              min_seg_prob := min_seg; max_seg_prob := max_seg;
              cputime := w_zero; walltime := w_zero;
              binhash := h |}.
Proof.
  destruct s as [f lg]. cbn [file]. intros Hsum Hn Hh.
  destruct (append_summary n (sim0 :: rest) (b :: bins) {| file := f; log := lg |})
    as [r s'] eqn:H.
  unfold append_summary in H.
  cbn [py_min py_max py_first fmap list_fmap] in H.
  exec H; simplify_eq.
  all: repeat match goal with
         | Hb : (_ <? _)%Z = true |- _ => apply Z.ltb_lt in Hb
         | Hb : (_ <? _)%Z = false |- _ => apply Z.ltb_ge in Hb
         end.
  all: try lia.
  all: try match goal with
         | Hi : h5_index _ _ = Raise _ |- _ => rewrite h5_index_ok in Hi by lia; discriminate Hi
         end.
  all: match goal with
         | Hi : h5_index _ _ = Ok _ |- _ =>
             pose proof (h5_index_bound _ _ _ Hi);
             apply h5_index_nonneg in Hi; [subst | lia]
         end.
  all: eexists _, _, _, _, _, _; split_and!; try reflexivity; try solve_lookup.
  all: rewrite ?length_insert, ?length_resize_rows; try lia.
  all: rewrite list_lookup_insert_eq; [reflexivity | rewrite ?length_resize_rows; lia].
Qed.

Lemma stamp_iteration_changes n prec s r s' :
  stamp_iteration n prec s = (r, s') → changes_under "iterations" s s'.
Proof.
  destruct s as [f lg]. unfold stamp_iteration. intros H.
  exec H; simplify_eq.
  all: split; [ frame_leaf | ].
  all: cbn [log]; rewrite <- ?app_assoc; cbn [app]; eexists; split;
    [ first [ reflexivity | symmetry; apply app_nil_r ]
    | repeat first [ apply Forall_nil_2 | apply Forall_cons_2; [by eexists |] ] ].
Qed.

Lemma stamp_iteration_spec n prec s s' :
  stamp_iteration n prec s = (Ok tt, s') →
  ∃ name attrs,
    py_format_0d n prec = Ok name ∧
    log s' = log s ++ [EvRequireGroup ["iterations"; "iter_" +:+ name];
                       EvSetAttr ["iterations"; "iter_" +:+ name] "n_iter"] ∧
    file s' !! ["iterations"; "iter_" +:+ name] = Some (Group attrs) ∧
    attrs !! "n_iter" = Some (AInt n).
Proof.
  destruct s as [f lg]. unfold stamp_iteration. intros H.
  exec H; simplify_eq.
  all: eexists _, _; split_and!; [ reflexivity | | solve_lookup | ].
  all: cbn [log]; rewrite <- ?app_assoc; try reflexivity.
  all: by rewrite lookup_insert_eq.
Qed.

End Specs.

(** ** [min] and [max] over an ordered weight type *)

Section Order.
Context {W : Type} `{!WeightOps W}.
Hypothesis ltb_irrefl : ∀ x : W, w_ltb x x = false.
Hypothesis ltb_trans : ∀ x y z : W, w_ltb x y = true → w_ltb y z = true → w_ltb x z = true.

Lemma ltb_asym (x y : W) : w_ltb x y = true → w_ltb y x = false.
Proof using ltb_irrefl ltb_trans.
  intros Hxy. destruct (w_ltb y x) eqn:Hyx; [| done].
  by rewrite <- (ltb_irrefl x), (ltb_trans _ _ _ Hxy Hyx).
Qed.

Lemma fold_min_spec (lt : W → W → bool) (ws : list W) (w : W) :
  (∀ x, lt x x = false) →
  (∀ x y z, lt x y = true → lt y z = true → lt x z = true) →
  let m := fold_left (λ m x, if lt x m then x else m) ws w in
  m ∈ w :: ws ∧ (m = w ∨ lt m w = true) ∧ ∀ x, x ∈ ws → lt x m = false.
Proof.
  intros Hirr Htr. revert w. induction ws as [| y ws IH]; intros w; cbn.
  - split_and!; [left | by left | by intros x ?%elem_of_nil].
  - destruct (lt y w) eqn:Hyw.
    + destruct (IH y) as (Hin & Hm & Hall).
      set (m := fold_left _ ws y) in *. split_and!.
      * by right.
      * right. destruct Hm as [-> | Hm]; [done | by eapply Htr].
      * intros x [-> | Hx]%elem_of_cons; [| by apply Hall].
        destruct Hm as [-> | Hm]; [done |].
        destruct (lt y m) eqn:Hy; [| done].
        by rewrite <- (Hirr y), (Htr _ _ _ Hy Hm).
    + destruct (IH w) as (Hin & Hm & Hall).
      set (m := fold_left _ ws w) in *. split_and!.
      * apply elem_of_cons in Hin as [-> | Hin]; [left | by do 2 right].
      * done.
      * intros x [-> | Hx]%elem_of_cons; [| by apply Hall].
        destruct Hm as [-> | Hm]; [done |].
        destruct (lt y m) eqn:Hy; [| done].
        by rewrite (Htr _ _ _ Hy Hm) in Hyw.
Qed.

(** [min(ws)] is an item of [ws] that no item is below. *)
Lemma py_min_spec (ws : list W) (m : W) :
  py_min ws = Ok m → m ∈ ws ∧ ∀ x, x ∈ ws → w_ltb x m = false.
Proof using ltb_irrefl ltb_trans.
  destruct ws as [| w ws]; [done |]. cbn. intros [= <-].
  destruct (fold_min_spec w_ltb ws w ltb_irrefl ltb_trans) as (Hin & Hm & Hall).
  split; [done |].
  intros x [-> | Hx]%elem_of_cons; [| by apply Hall].
  destruct Hm as [-> | Hm]; [done | by apply ltb_asym].
Qed.

(** [max(ws)] is an item of [ws] that is below no item. *)
Lemma py_max_spec (ws : list W) (m : W) :
  py_max ws = Ok m → m ∈ ws ∧ ∀ x, x ∈ ws → w_ltb m x = false.
Proof using ltb_irrefl ltb_trans.
  destruct ws as [| w ws]; [done |]. cbn. intros [= <-].
  destruct (fold_min_spec (λ x y, w_ltb y x) ws w ltb_irrefl) as (Hin & Hm & Hall).
  { intros x y z Hxy Hyz. by eapply ltb_trans. }
  split; [done |].
  intros x [-> | Hx]%elem_of_cons; [| by apply Hall].
  destruct Hm as [-> | Hm]; [done | by apply ltb_asym].
Qed.

End Order.

Section Facade.
Context {W : Type} `{!WeightOps W}.
Implicit Types (s : St (W:=W)) (f : gmap Path (Node W)).

(** ** Composition *)

#[global] Instance keeps_preorder (p : Path) : PreOrder (keeps (W:=W) p).
Proof.
  split.
  - by intros s.
  - intros s1 s2 s3 H12 H23. unfold keeps in *. congruence.
Qed.

#[global] Instance len_mono_preorder : PreOrder (len_mono (W:=W)).
Proof.
  split.
  - by intros s p.
  - intros s1 s2 s3 H12 H23 p. etrans; [apply H12 | apply H23].
Qed.

Lemma steps_bind {A B : Type} (R : relation (St (W:=W))) `{!PreOrder R}
    (m : M (W:=W) A) (k : A → M (W:=W) B) :
  steps R m → (∀ a, steps R (k a)) → steps R (m ≫= k).
Proof.
  intros Hm Hk s r s' [(e & H1 & _) | (a & s1 & H1 & H2)]%bind_inv.
  - by eapply Hm.
  - etrans; [by eapply Hm | by eapply Hk].
Qed.

Lemma steps_ret {A : Type} (R : relation (St (W:=W))) `{!Reflexive R} (a : A) :
  steps R (mret a : M (W:=W) A).
Proof. intros s r s' [= _ <-]. reflexivity. Qed.

Lemma steps_if {A : Type} (R : relation (St (W:=W))) (b : bool) (m1 m2 : M (W:=W) A) :
  steps R m1 → steps R m2 → steps R (if b then m1 else m2).
Proof. by destruct b. Qed.

Lemma writes_under_keeps g c r s s' p :
  ¬ under g p → writes_under g c r s s' → keeps p s s'.
Proof. intros Hp [Hf _]. by apply Hf. Qed.

Lemma changes_under_keeps g s s' p :
  ¬ under g p → changes_under g s s' → keeps p s s'.
Proof. intros Hp [Hf _]. by apply Hf. Qed.

Lemma not_under_summary g : g ≠ "summary" → ¬ under g ["summary"].
Proof. intros Hg [rest [= Hs _]]. congruence. Qed.

(** Nothing [append] does after the summary row touches the summary table. *)
Lemma append_rest_keeps_summary self (sim : SimMetadata W) n bs ts :
  steps (keeps ["summary"]) (append_rest self sim n bs ts).
Proof.
  unfold append_rest.
  repeat (apply steps_bind; [apply _ | | intros _]).
  - apply steps_if; [| apply steps_ret, _].
    intros s r s' H%append_ibstates_writes.
    eapply writes_under_keeps; [| exact H]. by apply not_under_summary.
  - apply steps_if; [| apply steps_ret, _].
    intros s r s' H%append_tstates_writes.
    eapply writes_under_keeps; [| exact H]. by apply not_under_summary.
  - apply steps_if; [| apply steps_ret, _].
    intros s r s' H%append_bin_mapper_writes.
    eapply writes_under_keeps; [| exact H]. by apply not_under_summary.
  - intros s r s' H%stamp_iteration_changes.
    eapply changes_under_keeps; [| exact H]. by apply not_under_summary.
Qed.

Lemma append_body_eq self (sim : SimMetadata W) n l bins bs ts :
  append_body self sim n l bins bs ts =
  (append_summary n l bins;; append_rest self sim n bs ts).
Proof. reflexivity. Qed.

(** ** C1 *)

(** C1. For every iteration [n] from 1 to below [2 ^ 32], every non-empty
    replica list whose first record has a binning hash of plain ASCII, every
    non-empty bin partition, and every store that has its summary table:
    after [append], whether it returned or a later writer raised, the summary
    table has at least [n] rows, and row [n - 1] holds the number of
    replicas, the sum of their weights, the minimum and maximum of the
    weights, the minimum and maximum of the per-bin sums, zero cputime and
    walltime, and the first 64 bytes of the binning hash of the first replica
    (the hash itself when it has at most 64 bytes). *)
Theorem summary_row_after_append (self : WestpaH5File)
    (sim0 : SimMetadata W) (rest : list (SimMetadata W))
    (bins : list (list (SimMetadata W)))
    (bs : list (BasisState W)) (ts : list (TargetState W))
    (fs : gmap string (gmap Path (Node W))) f rows r fs' lg :
  bins ≠ [] →
  (1 ≤ iteration_id sim0 < 2 ^ 32)%Z →
  plain_ascii (binner_hash sim0) = true →
  fs !! h5file self = Some f →
  f !! ["summary"] = Some (SummaryTable rows) →
  append self (sim0 :: rest) bins bs ts fs = (r, fs', lg) →
  ∃ f' rows' row,
    fs' !! h5file self = Some f' ∧
    f' !! ["summary"] = Some (SummaryTable rows') ∧
    (iteration_id sim0 ≤ Z.of_nat (length rows'))%Z ∧
    rows' !! Z.to_nat (iteration_id sim0 - 1) = Some row ∧
    n_particles row = Z.of_nat (length (sim0 :: rest)) ∧
    norm row = py_sum (weight <$> sim0 :: rest) ∧
    py_min (weight <$> sim0 :: rest) = Ok (min_seg_prob row) ∧
    py_max (weight <$> sim0 :: rest) = Ok (max_seg_prob row) ∧
    py_min ((λ sims, py_sum (weight <$> sims)) <$> bins) = Ok (min_bin_prob row) ∧
    py_max ((λ sims, py_sum (weight <$> sims)) <$> bins) = Ok (max_bin_prob row) ∧
    cputime row = w_zero ∧
    walltime row = w_zero ∧
    binhash row = string_take 64 (binner_hash sim0) ∧
    (String.length (binner_hash sim0) ≤ 64 → binhash row = binner_hash sim0).
Proof.
  intros Hbins [Hn _] Hplain%np_S64_plain Hfs Hsum Happ.
  destruct bins as [| b bins]; [done |].
  unfold append, with_file in Happ. rewrite Hfs in Happ. cbn [default from_option id] in Happ.
  destruct (append_body _ _ _ _ _ _ _ _) as [r0 s'] eqn:Hbody.
  injection Happ as <- <- <-.
  rewrite append_body_eq in Hbody.
  destruct (append_summary_run (iteration_id sim0) sim0 rest b bins
              {| file := f; log := [EvOpen (h5file self)] |} rows _ Hsum Hn Hplain)
    as (s1 & rows' & mn & mx & bmn & bmx & Hrun & Hmn & Hmx & Hbmn & Hbmx & Hs1 & Hlen & Hrow).
  apply bind_inv in Hbody as [(e & Hbody & _) | (a & s1' & Hbody & Hrest)];
    rewrite Hrun in Hbody; [done |].
  injection Hbody as _ <-.
  apply append_rest_keeps_summary in Hrest. unfold keeps in Hrest.
  eexists (file s'), rows', _. rewrite lookup_insert_eq, Hrest.
  split_and!; try done.
  cbn [binhash]. intros Hh. by apply string_take_all.
Qed.


(** ** C2 *)

(** C2. [append] raises ValueError (the spec's [EmptyIteration]) when the
    replica list is empty or the bin partition is empty, and then the summary
    table of the store is what it was; a store that existed is unchanged
    altogether. *)
Theorem empty_iteration_rejected (self : WestpaH5File)
    (l : list (SimMetadata W)) (bins : list (list (SimMetadata W)))
    (bs : list (BasisState W)) (ts : list (TargetState W))
    (fs : gmap string (gmap Path (Node W))) :
  l = [] ∨ bins = [] →
  ∃ fs' lg,
    append self l bins bs ts fs = (Raise ValueError, fs', lg) ∧
    summary_of fs' (h5file self) = summary_of fs (h5file self) ∧
    (∀ f, fs !! h5file self = Some f → fs' = fs).
Proof.
  intros Hempty.
  destruct l as [| sim0 rest].
  { exists fs, []. by split_and!. }
  destruct Hempty as [? | ->]; [done |].
  eexists _, _. split; [reflexivity |].
  cbn [fst snd file]. unfold summary_of. split.
  - rewrite lookup_insert_eq. cbn [mbind option_bind].
    destruct (fs !! h5file self) as [f |] eqn:Hf; cbn [default from_option id option_bind]; done.
  - intros f Hf. rewrite Hf. cbn [default from_option id]. by apply insert_id.
Qed.

(** ** The log of a successful [append] *)

Lemma ev_under_inj g g' e : ev_under g e → ev_under g' e → g = g'.
Proof. intros [r1 H1] [r2 H2]. congruence. Qed.

Lemma gated_ok (n : Z) (m : M (W:=W) unit) s s' :
  (if truthy n then m else mret tt) s = (Ok tt, s') →
  (n ≠ 0%Z ∧ m s = (Ok tt, s')) ∨ (n = 0%Z ∧ s' = s).
Proof.
  unfold truthy. destruct (Z.eqb_spec n 0); cbn [negb]; intros H.
  - right. by injection H as <-.
  - by left.
Qed.

Lemma append_log self (sim : SimMetadata W) n l bins bs ts s s' :
  append_body self sim n l bins bs ts s = (Ok tt, s') →
  ∃ e_sum e_ib e_ts e_bin name attrs,
    py_format_0d n (west_iter_prec (config self)) = Ok name ∧
    log s' = log s ++ e_sum ++ e_ib ++ e_ts ++ e_bin ++
               [EvRequireGroup ["iterations"; "iter_" +:+ name];
                EvSetAttr ["iterations"; "iter_" +:+ name] "n_iter"] ∧
    Forall (ev_under "summary") e_sum ∧ EvSetItem ["summary"] ∈ e_sum ∧
    Forall (ev_under "ibstates") e_ib ∧
    Forall (ev_under "tstates") e_ts ∧
    Forall (ev_under "bin_topologies") e_bin ∧
    (n = 0%Z → e_ib = [] ∧ e_ts = [] ∧ e_bin = []) ∧
    (n ≠ 0%Z → EvSetItem ["ibstates"; "index"] ∈ e_ib ∧
               EvSetItem ["tstates"; "index"] ∈ e_ts ∧
               EvSetItem ["bin_topologies"; "pickles"] ∈ e_bin) ∧
    file s' !! ["iterations"; "iter_" +:+ name] = Some (Group attrs) ∧
    attrs !! "n_iter" = Some (AInt n).
Proof.
  rewrite append_body_eq. unfold append_rest.
  intros (? & s1 & Hsum & H)%bind_ok_inv.
  apply bind_ok_inv in H as (? & s2 & Hib & H).
  apply bind_ok_inv in H as (? & s3 & Hts & H).
  apply bind_ok_inv in H as (? & s4 & Hbin & Hstamp).
  repeat match goal with u : unit |- _ => destruct u end.
  apply append_summary_writes in Hsum as (_ & e_sum & Hl1 & Hf1 & Hc1).
  apply stamp_iteration_spec in Hstamp as (name & attrs & Hname & Hl5 & Hgrp & Hattr).
  apply gated_ok in Hib, Hts, Hbin.
  destruct Hib as [[Hn Hib] | [Hn ->]].
  - destruct Hts as [[_ Hts] | [? _]]; [| done].
    destruct Hbin as [[_ Hbin] | [? _]]; [| done].
    apply append_ibstates_writes in Hib as (_ & e_ib & Hl2 & Hf2 & Hc2).
    apply append_tstates_writes in Hts as (_ & e_ts & Hl3 & Hf3 & Hc3).
    apply append_bin_mapper_writes in Hbin as (_ & e_bin & Hl4 & Hf4 & Hc4).
    exists e_sum, e_ib, e_ts, e_bin, name, attrs.
    split_and!; try done; try (by auto).
    rewrite Hl5, Hl4, Hl3, Hl2, Hl1. by rewrite <- !app_assoc.
  - destruct Hts as [[? _] | [_ ->]]; [done |].
    destruct Hbin as [[? _] | [_ ->]]; [done |].
    exists e_sum, [], [], [], name, attrs.
    split_and!; try done; try (by auto).
    rewrite Hl5, Hl1. by rewrite <- !app_assoc.
Qed.

Lemma append_ok_inv (self : WestpaH5File)
    (sim0 : SimMetadata W) (rest : list (SimMetadata W))
    (bins : list (list (SimMetadata W)))
    (bs : list (BasisState W)) (ts : list (TargetState W))
    (fs : gmap string (gmap Path (Node W))) fs' lg :
  append self (sim0 :: rest) bins bs ts fs = (Ok tt, fs', lg) →
  ∃ s',
    append_body self sim0 (iteration_id sim0) (sim0 :: rest) bins bs ts
      {| file := default {[ [] := Group ∅ ]} (fs !! h5file self);
         log := [EvOpen (h5file self)] |} = (Ok tt, s') ∧
    fs' = <[h5file self := file s']> fs ∧
    lg = log s' ++ [EvClose (h5file self)].
Proof.
  unfold append, with_file.
  destruct (append_body _ _ _ _ _ _ _ _) as [r0 s'] eqn:Hbody.
  intros [= -> <- <-]. by exists s'.
Qed.

(** ** C3 *)

(** C3. In an [append] that returns, the summary row is written, and the
    basis states, the target states and the bin topology are each written to
    if and only if the iteration number is not 0. *)
Theorem state_writes_gated_on_iteration (self : WestpaH5File)
    (sim0 : SimMetadata W) (rest : list (SimMetadata W))
    (bins : list (list (SimMetadata W)))
    (bs : list (BasisState W)) (ts : list (TargetState W))
    (fs : gmap string (gmap Path (Node W))) fs' lg :
  append self (sim0 :: rest) bins bs ts fs = (Ok tt, fs', lg) →
  EvSetItem ["summary"] ∈ lg ∧
  (writes_to "ibstates" lg ↔ iteration_id sim0 ≠ 0%Z) ∧
  (writes_to "tstates" lg ↔ iteration_id sim0 ≠ 0%Z) ∧
  (writes_to "bin_topologies" lg ↔ iteration_id sim0 ≠ 0%Z).
Proof.
  intros (s' & Hbody & _ & ->)%append_ok_inv.
  apply append_log in Hbody
    as (e_sum & e_ib & e_ts & e_bin & name & attrs & _ & -> & Hf1 & Hc1 & Hf2 & Hf3 & Hf4
        & Hzero & Hnz & _).
  cbn [log].
  assert (Hgate : ∀ g, g ≠ "summary" → g ≠ "iterations" →
            writes_to g ([EvOpen (h5file self)] ++ e_sum ++ e_ib ++ e_ts ++ e_bin ++
               [EvRequireGroup ["iterations"; "iter_" +:+ name];
                EvSetAttr ["iterations"; "iter_" +:+ name] "n_iter"] ++
               [EvClose (h5file self)]) →
            iteration_id sim0 ≠ 0%Z).
  { intros g Hg1 Hg2 (e & He & Hu) Hn0.
    destruct (Hzero Hn0) as (-> & -> & ->).
    rewrite !elem_of_app, !elem_of_cons in He.
    rewrite Forall_forall in Hf1.
    destruct He as [[-> | []%elem_of_nil] | [He | [[]%elem_of_nil | [[]%elem_of_nil | [[]%elem_of_nil |
      [[-> | [-> | []%elem_of_nil]] | [-> | []%elem_of_nil]]]]]]].
    - by destruct Hu.
    - apply Hg1. symmetry. eapply ev_under_inj; [by apply Hf1 | done].
    - destruct Hu as [? [= ? _]]. done.
    - destruct Hu as [? [= ? _]]. done.
    - by destruct Hu. }
  rewrite <- !app_assoc. split_and!.
  - rewrite !elem_of_app. auto.
  - split; [by apply Hgate |]. intros (H2 & _ & _)%Hnz.
    exists (EvSetItem ["ibstates"; "index"]). split; [| by eexists].
    rewrite !elem_of_app. auto.
  - split; [by apply Hgate |]. intros (_ & H3 & _)%Hnz.
    exists (EvSetItem ["tstates"; "index"]). split; [| by eexists].
    rewrite !elem_of_app. auto 10.
  - split; [by apply Hgate |]. intros (_ & _ & H4)%Hnz.
    exists (EvSetItem ["bin_topologies"; "pickles"]). split; [| by eexists].
    rewrite !elem_of_app. auto 10.
Qed.


(** ** C8 *)

(** C8. In an [append] that returns, the log is: the open, then writes below
    ['summary'], ['ibstates'], ['tstates'] and ['bin_topologies'] only (the
    summary row among them), then the namespace group of the iteration,
    named ['iter_'] and the iteration number zero-padded to [west_iter_prec],
    then its [n_iter] attribute, then the close; and the closed file has that
    group with [n_iter] equal to the iteration number. *)
Theorem namespace_group_written_last (self : WestpaH5File)
    (sim0 : SimMetadata W) (rest : list (SimMetadata W))
    (bins : list (list (SimMetadata W)))
    (bs : list (BasisState W)) (ts : list (TargetState W))
    (fs : gmap string (gmap Path (Node W))) fs' lg :
  append self (sim0 :: rest) bins bs ts fs = (Ok tt, fs', lg) →
  ∃ name pre f' attrs,
    py_format_0d (iteration_id sim0) (west_iter_prec (config self)) = Ok name ∧
    lg = EvOpen (h5file self) :: pre ++
           [EvRequireGroup ["iterations"; "iter_" +:+ name];
            EvSetAttr ["iterations"; "iter_" +:+ name] "n_iter";
            EvClose (h5file self)] ∧
    Forall (λ e, ev_under "summary" e ∨ ev_under "ibstates" e ∨
                 ev_under "tstates" e ∨ ev_under "bin_topologies" e) pre ∧
    EvSetItem ["summary"] ∈ pre ∧
    (iteration_id sim0 ≠ 0%Z →
     EvSetItem ["ibstates"; "index"] ∈ pre ∧ EvSetItem ["tstates"; "index"] ∈ pre ∧
     EvSetItem ["bin_topologies"; "pickles"] ∈ pre) ∧
    fs' !! h5file self = Some f' ∧
    f' !! ["iterations"; "iter_" +:+ name] = Some (Group attrs) ∧
    attrs !! "n_iter" = Some (AInt (iteration_id sim0)).
Proof.
  intros (s' & Hbody & -> & ->)%append_ok_inv.
  apply append_log in Hbody
    as (e_sum & e_ib & e_ts & e_bin & name & attrs & Hname & Hlog & Hf1 & Hc1 & Hf2 & Hf3 & Hf4
        & _ & Hnz & Hgrp & Hattr).
  exists name, (e_sum ++ e_ib ++ e_ts ++ e_bin), (file s'), attrs.
  split_and!; try done.
  - rewrite Hlog. cbn [log app]. by rewrite <- !app_assoc.
  - rewrite !Forall_app. split_and!; (eapply Forall_impl; [eassumption |]); cbn; auto.
  - rewrite !elem_of_app. auto.
  - intros (? & ? & ?)%Hnz. rewrite !elem_of_app. auto 10.
  - by rewrite lookup_insert_eq.
Qed.

(** ** C10 *)

Lemma same_but_iteration_weights (l1 l2 : list (SimMetadata W)) :
  Forall2 same_but_iteration l1 l2 → weight <$> l1 = weight <$> l2.
Proof.
  induction 1 as [| a b l1 l2 (Hw & _) _ IH]; [done |].
  cbn. by rewrite Hw, IH.
Qed.

Lemma same_but_iteration_bins (b1 b2 : list (list (SimMetadata W))) :
  Forall2 (Forall2 same_but_iteration) b1 b2 →
  (λ sims, py_sum (weight <$> sims)) <$> b1 = (λ sims, py_sum (weight <$> sims)) <$> b2.
Proof.
  induction 1 as [| a b l1 l2 Hab _ IH]; [done |].
  cbn. by rewrite (same_but_iteration_weights _ _ Hab), IH.
Qed.

(** C10. The iteration number [append] addresses with is that of the first
    record: two calls whose replica lists share the first record and
    otherwise differ, like their bin partitions, only in [iteration_id]
    fields, have the same outcome, leave the same files and the same log. *)
Theorem iteration_number_from_first_record (self : WestpaH5File)
    (sim0 : SimMetadata W) (rest1 rest2 : list (SimMetadata W))
    (bins1 bins2 : list (list (SimMetadata W)))
    (bs : list (BasisState W)) (ts : list (TargetState W))
    (fs : gmap string (gmap Path (Node W))) :
  Forall2 same_but_iteration rest1 rest2 →
  Forall2 (Forall2 same_but_iteration) bins1 bins2 →
  append self (sim0 :: rest1) bins1 bs ts fs =
  append self (sim0 :: rest2) bins2 bs ts fs.
Proof.
  intros Hrest Hbins.
  unfold append, append_body, append_summary. cbn [py_first].
  rewrite !fmap_cons, !length_cons.
  rewrite (same_but_iteration_weights _ _ Hrest), (same_but_iteration_bins _ _ Hbins).
  by rewrite (Forall2_length _ _ _ Hrest).
Qed.

End Facade.

Section Tables.
Context {W : Type} `{!WeightOps W}.
Implicit Types (s : St (W:=W)) (f : gmap Path (Node W)).

(** ** C4 *)

(** With an empty state list and an iteration number that fits the
    unsigned field, both state writers return. *)
Lemma append_tstates_empty_returns (n : Z) s :
  tstates_ok (file s) → (0 ≤ n < 2 ^ 64)%Z →
  ∃ s', append_tstates n [] s = (Ok tt, s').
Proof.
  destruct s as [f lg]. cbn [file]. intros [Hgrp Hidx] Hn.
  destruct (append_tstates n [] {| file := f; log := lg |}) as [r s'] eqn:H.
  assert (r = Ok tt) as ->; [| by eexists].
  unfold append_tstates in H.
  rewrite (np_uint_in_range 64) in H by lia.
  destruct Hgrp as [Hgrp | [attrs Hgrp]]; destruct Hidx as [Hidx | [rows Hidx]].
  all: exec H; simplify_eq.
  all: try done.
  all: exfalso; repeat match goal with
         | Hb : (_ <? _)%Z = true |- _ => apply Z.ltb_lt in Hb
         end; lia.
Qed.

Lemma append_ibstates_empty_returns (n : Z) s :
  ibstates_ok (file s) → (0 ≤ n < 2 ^ 64)%Z →
  ∃ s', append_ibstates n [] s = (Ok tt, s').
Proof.
  destruct s as [f lg]. cbn [file]. intros (Hgrp & Hidx & Hfree) Hn.
  destruct (append_ibstates n [] {| file := f; log := lg |}) as [r s'] eqn:H.
  assert (r = Ok tt) as ->; [| by eexists].
  unfold append_ibstates in H.
  rewrite (np_uint_in_range 64) in H by lia.
  unfold table_rows in Hfree.
  destruct Hgrp as [Hgrp | [attrs Hgrp]]; destruct Hidx as [Hidx | [rows Hidx]];
    rewrite Hidx in Hfree;
    cbn [default from_option id dt_unwrap ibstate_index_dtype length] in Hfree.
  all: exec H; simplify_eq.
  all: try done.
  all: exfalso; repeat match goal with
         | Hb : (_ <? _)%Z = true |- _ => apply Z.ltb_lt in Hb
         end; lia.
Qed.

(** C4, as the code has it. With an empty state list, on a store whose
    state groups are in order and for an iteration number that fits the
    unsigned field, both writers return and add one index row that records a
    state count of 0.  [append_tstates] leaves its back-reference null and
    changes nothing but the ['tstates'] group and its index, so it creates no
    subgroup.  [append_ibstates] creates the subgroup named after the row's
    ordinal, empty, points the back-reference at it, and changes nothing
    else. *)
Theorem empty_state_list_rows (n : Z) (s : St (W:=W)) :
  tstates_ok (file s) →
  ibstates_ok (file s) →
  (0 ≤ n < 2 ^ 64)%Z →
  ∃ s1 s2,
    append_tstates n [] s = (Ok tt, s1) ∧
    append_ibstates n [] s = (Ok tt, s2) ∧
    (file s1 !! ["tstates"; "index"] =
       Some (TstateIndex (table_rows tstate_index_dtype (file s) ["tstates"; "index"] ++
                          [{| ts_iter_valid := n; n_states := 0; ts_group_ref := None |}])) ∧
     ∀ p, p ≠ ["tstates"] → p ≠ ["tstates"; "index"] → file s1 !! p = file s !! p) ∧
    (∃ grp,
       grp = ["ibstates";
              py_str (Z.of_nat (length (table_rows ibstate_index_dtype (file s)
                                          ["ibstates"; "index"])))] ∧
       file s2 !! ["ibstates"; "index"] =
         Some (IbstateIndex (table_rows ibstate_index_dtype (file s) ["ibstates"; "index"] ++
                             [{| ib_iter_valid := n; n_bstates := 0;
                                 ib_group_ref := Some grp |}])) ∧
       file s !! grp = None ∧
       file s2 !! grp = Some (Group ∅) ∧
       ∀ p, p ≠ ["ibstates"] → p ≠ ["ibstates"; "index"] → p ≠ grp →
            file s2 !! p = file s !! p).
Proof.
  intros Hts Hib Hn.
  destruct (append_tstates_empty_returns n s Hts Hn) as [s1 Hrun1].
  destruct (append_ibstates_empty_returns n s Hib Hn) as [s2 Hrun2].
  exists s1, s2. split; [exact Hrun1 |]. split; [exact Hrun2 |].
  apply append_tstates_spec in Hrun1 as (Hidx & _ & Hframe & _).
  apply append_ibstates_spec in Hrun2 as (Hidx2 & _ & Hnew & Hgrp & Hframe2 & _).
  split.
  - split; [exact Hidx | by apply Hframe].
  - eexists. split; [reflexivity |]. split_and!; try done. by apply Hframe2.
Qed.

(** ** C6 and C7 *)

Lemma bin_index_rows_lookup f rows :
  f !! ["bin_topologies"; "index"] = Some (BinningIndex rows) →
  bin_index_rows f = rows.
Proof. intros H. unfold bin_index_rows, table_rows. by rewrite H. Qed.

Lemma bin_pickles_lookup f w rows :
  f !! ["bin_topologies"; "pickles"] = Some (Pickles w rows) →
  bin_pickles f = (w, rows).
Proof. intros H. unfold bin_pickles. by rewrite H. Qed.

(** What one successful [append_bin_mapper] leaves, in terms of the tables. *)
Lemma append_bin_mapper_tables (sim : SimMetadata W) s s' :
  append_bin_mapper sim s = (Ok tt, s') →
  ∃ row h,
    np_S64 (binner_hash sim) = Ok h ∧
    bin_index_rows (file s') =
      bin_index_rows (file s) ++
      [{| hash := h;
          pickle_len := Z.of_nat (length (binner_pickle sim)) |}] ∧
    length (bin_pickles (file s')).2 = S (length (bin_pickles (file s)).2) ∧
    length (bin_index_rows (file s)) < length (bin_pickles (file s')).2 ∧
    length (binner_pickle sim) ≤ (bin_pickles (file s')).1 ∧
    (bin_pickles (file s')).2 !! length (bin_index_rows (file s)) = Some row ∧
    take (length (binner_pickle sim)) row = binner_pickle sim ∧
    (∀ i old, i ≠ length (bin_index_rows (file s)) →
       (bin_pickles (file s)).2 !! i = Some old →
       ∃ new, (bin_pickles (file s')).2 !! i = Some new ∧
              ∀ k, k ≤ length (binner_pickle sim) → k ≤ length old →
                   take k new = take k old).
Proof.
  intros (r0 & attrs & h & Hh & Hgrp & _ & _ & Hidx & Hr0 & Hpk)%append_bin_mapper_spec.
  cbv zeta in *.
  set (w := (bin_pickles (file s)).1 `max` length (binner_pickle sim)) in *.
  set (rows := (bin_pickles (file s)).2) in *.
  set (irows := bin_index_rows (file s)) in *.
  rewrite (bin_index_rows_lookup _ _ Hidx), (bin_pickles_lookup _ _ _ Hpk). cbn [fst snd].
  assert (Hlen : length irows < S (length rows)).
  { apply lookup_lt_Some in Hr0. by rewrite length_resize_rows in Hr0. }
  eexists _, h. split_and!.
  - done.
  - done.
  - by rewrite length_insert, length_resize_rows.
  - by rewrite length_insert, length_resize_rows.
  - lia.
  - apply list_lookup_insert_eq. by rewrite length_resize_rows.
  - by rewrite take_app_length.
  - intros i old Hi Hold.
    rewrite list_lookup_insert_ne by done.
    assert (i < length rows) by by eapply lookup_lt_Some.
    rewrite resize_rows_lookup_old by (rewrite length_fmap; lia).
    rewrite list_lookup_fmap, Hold. cbn. eexists. split; [done |].
    intros k Hk1 Hk2. apply take_resize_rows; lia.
Qed.

Lemma bin_store_ok_in_step f :
  bin_store_ok f → length (bin_pickles f).2 = length (bin_index_rows f).
Proof.
  intros [_ [[Hidx Hpk] | (irows & w & rows & Hidx & Hpk & Hlen)]];
    unfold bin_pickles, bin_index_rows, table_rows; by rewrite Hidx, Hpk.
Qed.

(** On a store whose bin-topology part is in order, [append_bin_mapper]
    returns for every hash the 64-byte field takes and every blob whose
    length fits the 32-bit length field. *)
Lemma append_bin_mapper_returns (sim : SimMetadata W) s h :
  bin_store_ok (file s) →
  np_S64 (binner_hash sim) = Ok h →
  (Z.of_nat (length (binner_pickle sim)) < 2 ^ 32)%Z →
  ∃ s', append_bin_mapper sim s = (Ok tt, s').
Proof.
  destruct s as [f lg]. cbn [file]. intros [Hgrp Htab] Hh Hlen.
  destruct (append_bin_mapper sim {| file := f; log := lg |}) as [r s'] eqn:H.
  assert (r = Ok tt) as ->; [| by eexists].
  unfold append_bin_mapper in H.
  rewrite (np_uint_in_range 32) in H by lia.
  destruct Hgrp as [Hgrp | [attrs Hgrp]];
    destruct Htab as [[Hidx Hpk] | (irows & w & rows & Hidx & Hpk & Hrows)].
  all: exec H; simplify_eq.
  all: try done.
  all: exfalso.
  all: repeat match goal with
         | Hb : (_ <=? _) = false |- _ => apply Nat.leb_gt in Hb
         | Hb : (_ <? _)%Z = true |- _ => apply Z.ltb_lt in Hb
         | Hi : h5_index _ _ = Raise _ |- _ =>
             rewrite h5_index_ok in Hi by lia; discriminate Hi
         | Hi : h5_index _ _ = Ok _ |- _ => apply h5_index_bound in Hi
         | Hl : _ !! _ = None |- _ =>
             apply lookup_ge_None in Hl; rewrite ?length_resize_rows in Hl
         end.
  all: lia.
Qed.

(** And it leaves the bin-topology part in order. *)
Lemma append_bin_mapper_keeps_ok (sim : SimMetadata W) s s' :
  append_bin_mapper sim s = (Ok tt, s') →
  bin_store_ok (file s) → bin_store_ok (file s').
Proof.
  intros (r0 & attrs & h & _ & Hgrp & _ & _ & Hidx & Hr0 & Hpk)%append_bin_mapper_spec
         Hstep%bin_store_ok_in_step.
  split; [right; by exists attrs |].
  right. eexists _, _, _. split_and!; [exact Hidx | exact Hpk |].
  rewrite length_insert, length_resize_rows, length_app, Hstep. cbn. lia.
Qed.


(** C7. On such a store, appending the same snapshot twice, its hash plain
    ASCII and its blob of a length that fits the 32-bit field, returns twice
    and adds two rows to the index table and two rows to the payload table,
    one of each per call: nothing is looked up by hash, both new index rows
    record the snapshot, and both new payload rows read back as the blob. *)
Theorem same_snapshot_stored_twice (sim : SimMetadata W) (s : St (W:=W)) :
  bin_store_ok (file s) →
  plain_ascii (binner_hash sim) = true →
  (Z.of_nat (length (binner_pickle sim)) < 2 ^ 32)%Z →
  ∃ s1 s2,
    append_bin_mapper sim s = (Ok tt, s1) ∧
    append_bin_mapper sim s1 = (Ok tt, s2) ∧
    length (bin_index_rows (file s1)) = S (length (bin_index_rows (file s))) ∧
    length (bin_index_rows (file s2)) = S (S (length (bin_index_rows (file s)))) ∧
    length (bin_pickles (file s1)).2 = S (length (bin_pickles (file s)).2) ∧
    length (bin_pickles (file s2)).2 = S (S (length (bin_pickles (file s)).2)) ∧
    bin_index_rows (file s2) !! length (bin_index_rows (file s)) =
      Some {| hash := string_take 64 (binner_hash sim);
              pickle_len := Z.of_nat (length (binner_pickle sim)) |} ∧
    bin_index_rows (file s2) !! S (length (bin_index_rows (file s))) =
      Some {| hash := string_take 64 (binner_hash sim);
              pickle_len := Z.of_nat (length (binner_pickle sim)) |} ∧
    read_pickle (file s2) (length (bin_index_rows (file s))) = Some (binner_pickle sim) ∧
    read_pickle (file s2) (S (length (bin_index_rows (file s)))) = Some (binner_pickle sim).
Proof.
  intros Hok Hplain%np_S64_plain Hlen32.
  destruct (append_bin_mapper_returns sim s _ Hok Hplain Hlen32) as [s1 Hrun1].
  pose proof (append_bin_mapper_keeps_ok _ _ _ Hrun1 Hok) as Hok1.
  destruct (append_bin_mapper_returns sim s1 _ Hok1 Hplain Hlen32) as [s2 Hrun2].
  exists s1, s2. split; [exact Hrun1 |]. split; [exact Hrun2 |].
  apply append_bin_mapper_tables in Hrun1
    as (row1 & h1 & Hh1 & Hidx1 & Hlen1 & _ & _ & Hrow1 & Htake1 & _).
  apply append_bin_mapper_tables in Hrun2
    as (row2 & h2 & Hh2 & Hidx2 & Hlen2 & _ & _ & Hrow2 & Htake2 & Hold).
  rewrite Hplain in Hh1, Hh2. injection Hh1 as <-. injection Hh2 as <-.
  set (i := length (bin_index_rows (file s))) in *.
  assert (Hi1 : length (bin_index_rows (file s1)) = S i).
  { rewrite Hidx1, length_app. cbn. lia. }
  rewrite Hi1 in *.
  destruct (Hold i row1) as (new & Hnew & Hsame); [lia | done |].
  assert (Hl1 : length (binner_pickle sim) ≤ length row1).
  { rewrite <- Htake1 at 1. rewrite length_take. lia. }
  split_and!.
  - done.
  - rewrite Hidx2, length_app, Hi1. cbn. lia.
  - done.
  - lia.
  - rewrite Hidx2, Hidx1, <- app_assoc. by apply list_lookup_middle.
  - rewrite Hidx2. by apply list_lookup_middle.
  - unfold read_pickle. rewrite Hidx2, Hidx1, <- app_assoc. cbn [app].
    rewrite list_lookup_middle by done.
    cbn [mbind option_bind pickle_len]. rewrite Hnew. simpl.
    rewrite Nat2Z.id, Hsame by lia. by rewrite Htake1.
  - unfold read_pickle. rewrite Hidx2, list_lookup_middle by done.
    cbn [mbind option_bind pickle_len]. rewrite Hrow2. simpl.
    by rewrite Nat2Z.id, Htake2.
Qed.

End Tables.

Section Lifecycle.
Context {W : Type} `{!WeightOps W}.
Implicit Types (s : St (W:=W)) (f : gmap Path (Node W)).

(** ** C5 *)


(** ** C9 *)

Lemma append_summary_ok_len n (l : list (SimMetadata W)) bins s s' :
  append_summary n l bins s = (Ok tt, s') →
  (1 ≤ n)%Z → (n ≤ Z.of_nat (table_len (file s') ["summary"]))%Z.
Proof.
  destruct s as [f lg]. unfold append_summary. intros H Hn.
  exec H; simplify_eq.
  all: unfold table_len; cbn [file]; rewrite lookup_insert_eq; cbn [node_len].
  all: rewrite length_insert.
  all: match goal with
         | Hi : h5_index _ _ = Ok _ |- _ =>
             pose proof (h5_index_bound _ _ _ Hi) as Hb;
             apply h5_index_nonneg in Hi; [subst | lia]
         end.
  all: rewrite ?length_resize_rows in *; lia.
Qed.

Lemma run_op_mono (op : WriteOp (W:=W)) s : len_mono s (run_op op s).2.
Proof.
  destruct (run_op op s) as [r s'] eqn:H. cbn [snd].
  destruct op; cbn [run_op] in H.
  - by eapply append_summary_mono.
  - by eapply append_ibstates_mono.
  - by eapply append_tstates_mono.
  - by eapply append_bin_mapper_mono.
Qed.

Lemma run_ops_mono (ops : list (WriteOp (W:=W))) s : len_mono s (run_ops ops s).
Proof.
  revert s. induction ops as [| op ops IH]; intros s; cbn.
  - reflexivity.
  - etrans; [apply (run_op_mono op) | apply IH].
Qed.

Lemma table_len_lookup f p n : f !! p = Some n → table_len f p = node_len (Some n).
Proof. intros H. unfold table_len. by rewrite H. Qed.

(** C9. No writer of a growable table ever shortens a table, whether it
    returns or raises, and neither does any sequence of writer calls after
    it; and the row a writer that returned refers to (summary row [n - 1]
    for iteration [n], the new epoch's row of a state index, the new
    snapshot's row of the bin-topology index and payload) is a row of its
    table from then on. *)
Theorem tables_never_shrink (op : WriteOp (W:=W)) (ops : list (WriteOp (W:=W)))
    (s : St (W:=W)) (r : result unit) (s1 : St (W:=W)) :
  run_op op s = (r, s1) →
  len_mono s s1 ∧
  len_mono s1 (run_ops ops s1) ∧
  (r = Ok tt →
   ∀ p i, references op s p i → i < table_len (file (run_ops ops s1)) p).
Proof.
  intros Hrun. split_and!.
  - pose proof (run_op_mono op s) as H. by rewrite Hrun in H.
  - apply run_ops_mono.
  - intros -> p i Href.
    eapply Nat.lt_le_trans; [| apply run_ops_mono].
    destruct op as [n l bins | n bs | n ts | sim]; cbn [run_op references] in *.
    + destruct Href as [-> Hi].
      apply append_summary_ok_len in Hrun; lia.
    + destruct Href as [-> ->].
      apply append_ibstates_spec in Hrun as (Hidx & Hlen & _).
      rewrite (table_len_lookup _ _ _ Hidx), Hlen. cbn [node_len].
      rewrite length_app. cbn. lia.
    + destruct Href as [-> ->].
      apply append_tstates_spec in Hrun as (Hidx & Hlen & _).
      rewrite (table_len_lookup _ _ _ Hidx), Hlen. cbn [node_len].
      rewrite length_app. cbn. lia.
    + destruct Href as [Hp ->].
      apply append_bin_mapper_spec in Hrun
        as (r0 & attrs & h & _ & _ & Hlen & _ & Hidx & Hr0 & Hpk).
      rewrite Hlen. apply lookup_lt_Some in Hr0. rewrite length_resize_rows in Hr0.
      destruct Hp as [-> | ->].
      * rewrite (table_len_lookup _ _ _ Hidx). cbn [node_len].
        rewrite length_app. cbn. lia.
      * rewrite (table_len_lookup _ _ _ Hpk). cbn [node_len].
        rewrite length_insert, length_resize_rows. lia.
Qed.

End Lifecycle.

(** ** The summary table, row by row *)

Section SummaryRows.
Context {W : Type} `{!WeightOps W}.
Implicit Types (s : St (W:=W)) (f : gmap Path (Node W)).

Lemma resize_insert_grow {R : Type} (fill row : R) (rows : list R) (n : nat) :
  length rows < n →
  <[n - 1 := row]> (resize_rows fill (S n) rows) =
  rows ++ replicate (n - 1 - length rows) fill ++ [row; fill].
Proof.
  intros Hn. rewrite resize_rows_grow by lia.
  rewrite insert_app_r_alt by lia.
  replace (S n - length rows) with ((n - 1 - length rows) + 2) by lia.
  rewrite replicate_add. f_equal.
  rewrite insert_app_r_alt by (rewrite length_replicate; lia).
  rewrite length_replicate. f_equal.
  by replace (n - 1 - length rows - (n - 1 - length rows)) with 0 by lia.
Qed.

(** What [append_summary] leaves, whatever the iteration number, when the
    64-byte field takes the hash: the aggregate at the row the index [n - 1]
    selects, after the table was resized to [n + 1] rows if it had fewer than
    [n]; an index outside the table raises IndexError and nothing is
    written. *)
Lemma append_summary_outcome n sim0 rest b bins s rows h :
  file s !! ["summary"] = Some (SummaryTable rows) →
  np_S64 (binner_hash sim0) = Ok h →
  ∃ row, is_summary_row (sim0 :: rest) (b :: bins) row ∧
    let rows1 := if (Z.of_nat (length rows) <? n)%Z
                 then resize_rows summary_zero (Z.to_nat (n + 1)) rows else rows in
    match h5_index (length rows1) (n - 1) with
    | Ok j =>
        ∃ s', append_summary n (sim0 :: rest) (b :: bins) s = (Ok tt, s') ∧
              file s' !! ["summary"] = Some (SummaryTable (<[j := row]> rows1)) ∧
              ∀ p, p ≠ ["summary"] → file s' !! p = file s !! p
    | Raise e =>
        append_summary n (sim0 :: rest) (b :: bins) s = (Raise e, s) ∧
        ¬ (Z.of_nat (length rows) < n)%Z
    end.
Proof.
  destruct s as [f lg]. cbn [file]. intros Hsum Hh.
  destruct (append_summary n (sim0 :: rest) (b :: bins) {| file := f; log := lg |})
    as [r s'] eqn:H.
  unfold append_summary in H.
  cbn [py_min py_max py_first fmap list_fmap] in H.
  eexists {| n_particles := _ |}. split.
  { unfold is_summary_row. cbn [n_particles norm min_seg_prob max_seg_prob min_bin_prob
      max_bin_prob cputime walltime binhash head fmap option_fmap option_map list_fmap py_min py_max].
    split_and!; try reflexivity. exists sim0. split; [reflexivity | exact Hh]. }
  cbv zeta.
  exec H; simplify_eq.
  all: rewrite ?length_resize_rows.
  all: repeat match goal with
         | Hi : h5_index _ _ = _ |- _ => rewrite Hi
         | Hb : (_ <? _)%Z = true |- _ => apply Z.ltb_lt in Hb
         | Hb : (_ <? _)%Z = false |- _ => apply Z.ltb_ge in Hb
         end.
  all: try lia.
  all: try (eexists; split_and!; [reflexivity | solve_lookup |];
            intros p Hp; cbn [file]; by rewrite !lookup_insert_ne by done).
  all: try (split; [reflexivity | lia]).
  all: match goal with
       | Hi : h5_index _ _ = Raise _ |- _ => rewrite h5_index_ok in Hi by lia; discriminate Hi
       end.
Qed.

(** X1. For an iteration [n] from 1 to below [2 ^ 32] and a first record
    whose binning hash is plain ASCII, [append_summary] returns on every store
    that has its summary table. A table of fewer than [n] rows grows to exactly
    [n + 1]: the rows it had, zero rows for the iterations skipped, the
    aggregate as row [n - 1], and one more zero row; a table of at least [n]
    rows keeps its length and has row [n - 1] replaced. Nothing else in the
    file changes. *)
Theorem summary_table_after_append_summary n sim0 rest b bins s rows :
  file s !! ["summary"] = Some (SummaryTable rows) →
  (1 ≤ n < 2 ^ 32)%Z →
  plain_ascii (binner_hash sim0) = true →
  ∃ s' row,
    append_summary n (sim0 :: rest) (b :: bins) s = (Ok tt, s') ∧
    is_summary_row (sim0 :: rest) (b :: bins) row ∧
    file s' !! ["summary"] =
      Some (SummaryTable
              (if (Z.of_nat (length rows) <? n)%Z
               then rows ++ replicate (Z.to_nat n - 1 - length rows) summary_zero ++
                    [row; summary_zero]
               else <[Z.to_nat n - 1 := row]> rows)) ∧
    ∀ p, p ≠ ["summary"] → file s' !! p = file s !! p.
Proof.
  intros Hsum [Hn _] Hplain%np_S64_plain.
  destruct (append_summary_outcome n sim0 rest b bins s rows _ Hsum Hplain) as (row & Hrow & H).
  cbv zeta in H.
  destruct (Z.ltb_spec (Z.of_nat (length rows)) n) as [Hlt | Hge].
  - rewrite length_resize_rows, h5_index_ok in H by lia.
    destruct H as (s' & Hrun & Htab & Hframe). exists s', row. split_and!; try done.
    rewrite Htab. do 2 f_equal.
    replace (Z.to_nat (n + 1)) with (S (Z.to_nat n)) by lia.
    replace (Z.to_nat (n - 1)) with (Z.to_nat n - 1) by lia.
    apply resize_insert_grow. lia.
  - rewrite h5_index_ok in H by lia.
    destruct H as (s' & Hrun & Htab & Hframe). exists s', row. split_and!; try done.
    rewrite Htab. do 3 f_equal. lia.
Qed.

(** X2. For an iteration number [n ≤ 0] above [- 2 ^ 32], the first
    iteration's [0] among them, and a first record whose binning hash is plain
    ASCII, the table is never resized and the index [n - 1] counts from the end
    of the table: the aggregate replaces row [len + n - 1], for [n = 0] the
    last row; when there is no such row, [append_summary] raises IndexError and
    leaves the file and the log as they were. *)
Theorem summary_row_counts_from_the_end n sim0 rest b bins s rows :
  file s !! ["summary"] = Some (SummaryTable rows) →
  (- 2 ^ 32 < n ≤ 0)%Z →
  plain_ascii (binner_hash sim0) = true →
  ∃ row, is_summary_row (sim0 :: rest) (b :: bins) row ∧
    if (0 <=? Z.of_nat (length rows) + n - 1)%Z
    then ∃ s',
           append_summary n (sim0 :: rest) (b :: bins) s = (Ok tt, s') ∧
           file s' !! ["summary"] =
             Some (SummaryTable (<[Z.to_nat (Z.of_nat (length rows) + n - 1) := row]> rows)) ∧
           ∀ p, p ≠ ["summary"] → file s' !! p = file s !! p
    else append_summary n (sim0 :: rest) (b :: bins) s = (Raise IndexError, s).
Proof.
  intros Hsum [_ Hn] Hplain%np_S64_plain.
  destruct (append_summary_outcome n sim0 rest b bins s rows _ Hsum Hplain) as (row & Hrow & H).
  exists row. split; [done |]. cbv zeta in H.
  destruct (Z.ltb_spec (Z.of_nat (length rows)) n) as [Hlt | Hge]; [lia |].
  unfold h5_index in H.
  destruct (Z.ltb_spec (n - 1) 0) as [_ | ?]; [| lia].
  replace (Z.of_nat (length rows) + (n - 1))%Z with (Z.of_nat (length rows) + n - 1)%Z in H by lia.
  destruct (Z.leb_spec 0 (Z.of_nat (length rows) + n - 1)).
  - destruct (Z.ltb_spec (Z.of_nat (length rows) + n - 1) (Z.of_nat (length rows))); [| lia].
    exact H.
  - by destruct H.
Qed.

(** A returning [append_summary] has stored the aggregate at the row its
    index selects. *)
Lemma append_summary_ok_row n l bins s s' :
  append_summary n l bins s = (Ok tt, s') →
  ∃ rows j row,
    file s' !! ["summary"] = Some (SummaryTable rows) ∧
    h5_index (length rows) (n - 1) = Ok j ∧
    rows !! j = Some row ∧
    is_summary_row l bins row.
Proof.
  destruct s as [f lg]. unfold append_summary. intros H.
  destruct l as [| sim0 rest]; [done |].
  destruct bins as [| b bins]; [done |].
  cbn [py_min py_max py_first fmap list_fmap] in H.
  exec H; simplify_eq.
  all: match goal with
       | Hi : h5_index _ _ = Ok ?j |- _ =>
           eexists _, j, _; split_and!;
           [ solve_lookup
           | by rewrite length_insert, ?length_resize_rows
           | apply list_lookup_insert_eq; rewrite ?length_resize_rows; by eapply h5_index_bound
           | unfold is_summary_row; split_and!; try reflexivity;
             eexists; split; [reflexivity | eassumption] ]
       end.
Qed.

Lemma is_summary_row_unique (l : list (SimMetadata W)) bins (r r' : SummaryRow W) :
  is_summary_row l bins r → is_summary_row l bins r' → r = r'.
Proof.
  intros (H1 & H2 & H3 & H4 & H5 & H6 & H7 & H8 & x & Hx & H9)
         (H1' & H2' & H3' & H4' & H5' & H6' & H7' & H8' & x' & Hx' & H9').
  rewrite Hx in Hx'. injection Hx' as <-.
  destruct r, r'. cbn in *. f_equal; congruence.
Qed.

(** X3. The summary rows of iteration 0 and of the iteration numbered like the
    table is long coincide: iteration 0 is written to the last row, so on a
    table of [len] rows, a fresh store's one row for instance, appending
    iteration 0 and then iteration [len], both with a binning hash of plain
    ASCII, leaves the table that appending iteration [len] alone leaves; the
    aggregate of iteration 0 is gone. *)
Theorem iteration_zero_row_overwritten (sim0 : SimMetadata W) rest0 b0 bins0
    (sim1 : SimMetadata W) rest1 b1 bins1 s rows :
  file s !! ["summary"] = Some (SummaryTable rows) →
  rows ≠ [] →
  plain_ascii (binner_hash sim0) = true →
  plain_ascii (binner_hash sim1) = true →
  ∃ s0 s1 s1' row1,
    append_summary 0 (sim0 :: rest0) (b0 :: bins0) s = (Ok tt, s0) ∧
    append_summary (Z.of_nat (length rows)) (sim1 :: rest1) (b1 :: bins1) s0 = (Ok tt, s1) ∧
    append_summary (Z.of_nat (length rows)) (sim1 :: rest1) (b1 :: bins1) s = (Ok tt, s1') ∧
    is_summary_row (sim1 :: rest1) (b1 :: bins1) row1 ∧
    file s1 !! ["summary"] = Some (SummaryTable (<[length rows - 1 := row1]> rows)) ∧
    file s1' !! ["summary"] = file s1 !! ["summary"].
Proof.
  intros Hsum Hne Hplain0%np_S64_plain Hplain1%np_S64_plain.
  assert (Hlen : 0 < length rows) by (destruct rows; [done | cbn; lia]).
  destruct (append_summary_outcome 0 sim0 rest0 b0 bins0 s rows _ Hsum Hplain0)
    as (row0 & _ & H0).
  cbv zeta in H0.
  destruct (Z.ltb_spec (Z.of_nat (length rows)) 0) as [? | _]; [lia |].
  replace (0 - 1)%Z with (Z.of_nat (length rows) - 1 - Z.of_nat (length rows))%Z in H0 by lia.
  assert (Hwrap : h5_index (length rows)
                    (Z.of_nat (length rows) - 1 - Z.of_nat (length rows)) =
                  Ok (length rows - 1)).
  { unfold h5_index.
    destruct (Z.ltb_spec (Z.of_nat (length rows) - 1 - Z.of_nat (length rows)) 0); [| lia].
    destruct (Z.leb_spec 0 (Z.of_nat (length rows) +
                (Z.of_nat (length rows) - 1 - Z.of_nat (length rows)))); [| lia].
    destruct (Z.ltb_spec (Z.of_nat (length rows) +
                (Z.of_nat (length rows) - 1 - Z.of_nat (length rows)))
                (Z.of_nat (length rows))); [| lia].
    cbn. f_equal. lia. }
  rewrite Hwrap in H0. destruct H0 as (s0 & Hrun0 & Htab0 & _).
  destruct (append_summary_outcome (Z.of_nat (length rows)) sim1 rest1 b1 bins1 s0 _ _
              Htab0 Hplain1) as (row1 & Hrow1 & H1).
  cbv zeta in H1. rewrite length_insert in H1.
  destruct (Z.ltb_spec (Z.of_nat (length rows)) (Z.of_nat (length rows))) as [? | _]; [lia |].
  rewrite length_insert, h5_index_last in H1 by done.
  destruct H1 as (s1 & Hrun1 & Htab1 & _).
  destruct (append_summary_outcome (Z.of_nat (length rows)) sim1 rest1 b1 bins1 s _ _
              Hsum Hplain1) as (row1' & Hrow1' & H1').
  cbv zeta in H1'.
  destruct (Z.ltb_spec (Z.of_nat (length rows)) (Z.of_nat (length rows))) as [? | _]; [lia |].
  rewrite h5_index_last in H1' by done.
  destruct H1' as (s1' & Hrun1' & Htab1' & _).
  rewrite (is_summary_row_unique _ _ _ _ Hrow1' Hrow1) in Htab1'.
  rewrite list_insert_insert_eq in Htab1.
  exists s0, s1, s1', row1. split_and!; try done. by rewrite Htab1, Htab1'.
Qed.

End SummaryRows.

(** ** The extrema of a summary row *)

Section FloatExtrema.

Lemma float_w_ltb_irrefl (x : float) : w_ltb x x = false.
Proof. apply float_ltb_irrefl. Qed.

Lemma float_w_ltb_trans (x y z : float) :
  w_ltb x y = true → w_ltb y z = true → w_ltb x z = true.
Proof. apply float_ltb_trans. Qed.

(** X4. On float64 weights, the extrema of a stored summary row bound what they
    summarise: the minimum segment probability is the weight of a replica and no
    replica's weight is below it, the maximum is the weight of a replica and is
    below no replica's weight, and the same holds for the minimum and maximum
    bin probability among the per-bin sums. *)
Theorem summary_extrema_bound_the_weights (n : Z) (l : list (SimMetadata float))
    (bins : list (list (SimMetadata float))) (s s' : St (W:=float)) :
  append_summary n l bins s = (Ok tt, s') →
  ∃ rows j row,
    file s' !! ["summary"] = Some (SummaryTable rows) ∧
    h5_index (length rows) (n - 1) = Ok j ∧
    rows !! j = Some row ∧
    (∃ sim, sim ∈ l ∧ weight sim = min_seg_prob row) ∧
    (∃ sim, sim ∈ l ∧ weight sim = max_seg_prob row) ∧
    (∀ sim, sim ∈ l →
       (weight sim <? min_seg_prob row)%float = false ∧
       (max_seg_prob row <? weight sim)%float = false) ∧
    (∃ b, b ∈ bins ∧ py_sum (weight <$> b) = min_bin_prob row) ∧
    (∃ b, b ∈ bins ∧ py_sum (weight <$> b) = max_bin_prob row) ∧
    (∀ b, b ∈ bins →
       (py_sum (weight <$> b) <? min_bin_prob row)%float = false ∧
       (max_bin_prob row <? py_sum (weight <$> b))%float = false).
Proof.
  intros (rows & j & row & Htab & Hj & Hrow & His)%append_summary_ok_row.
  exists rows, j, row. split_and!; try done.
  all: destruct His as (_ & _ & Hmin & Hmax & Hbmin & Hbmax & _).
  all: apply (py_min_spec float_w_ltb_irrefl float_w_ltb_trans) in Hmin as [Hmin1 Hmin2].
  all: apply (py_max_spec float_w_ltb_irrefl float_w_ltb_trans) in Hmax as [Hmax1 Hmax2].
  all: apply (py_min_spec float_w_ltb_irrefl float_w_ltb_trans) in Hbmin as [Hbmin1 Hbmin2].
  all: apply (py_max_spec float_w_ltb_irrefl float_w_ltb_trans) in Hbmax as [Hbmax1 Hbmax2].
  - apply list_elem_of_fmap in Hmin1 as (sim & ? & ?). by exists sim.
  - apply list_elem_of_fmap in Hmax1 as (sim & ? & ?). by exists sim.
  - intros sim Hsim. split.
    + apply Hmin2. by apply list_elem_of_fmap_2.
    + apply Hmax2. by apply list_elem_of_fmap_2.
  - apply list_elem_of_fmap in Hbmin1 as (b & ? & ?). by exists b.
  - apply list_elem_of_fmap in Hbmax1 as (b & ? & ?). by exists b.
  - intros b Hb. split.
    + apply Hbmin2. by apply (list_elem_of_fmap_2 (λ sims, py_sum (weight <$> sims))).
    + apply Hbmax2. by apply (list_elem_of_fmap_2 (λ sims, py_sum (weight <$> sims))).
Qed.

End FloatExtrema.

(** ** Basis-state epochs *)

Section BasisEpochs.
Context {W : Type} `{!WeightOps W}.
Implicit Types (s : St (W:=W)) (f : gmap Path (Node W)).

Lemma vlen_strs_bstate_rows (bs : list (BasisState W)) :
  Forall (λ b, no_nul (bs_auxref b) = true) bs →
  vlen_strs ((label <$> (bstate_row <$> bs)) ++ (auxref <$> (bstate_row <$> bs))) = Ok tt.
Proof.
  intros Hbs. apply vlen_strs_ok. rewrite Forall_app, !Forall_fmap. split.
  - apply Forall_forall. intros b _. apply no_nul_py_str.
  - exact Hbs.
Qed.

Lemma append_ibstates_returns (n : Z) bs s :
  (file s !! ["ibstates"] = None ∨ ∃ attrs, file s !! ["ibstates"] = Some (Group attrs)) →
  (file s !! ["ibstates"; "index"] = None ∨
   ∃ rows, file s !! ["ibstates"; "index"] = Some (IbstateIndex rows)) →
  free_below (file s)
    ["ibstates"; py_str (Z.of_nat (length (table_rows ibstate_index_dtype (file s)
                                             ["ibstates"; "index"])))] →
  (0 ≤ n < 2 ^ 64)%Z →
  basis_states_ok bs →
  ∃ s', append_ibstates n bs s = (Ok tt, s').
Proof.
  destruct s as [f lg]. cbn [file].
  intros Hgrp Hidx Hfree Hn [Hpc%np_array_rectangular Hv%vlen_strs_bstate_rows].
  destruct (append_ibstates n bs {| file := f; log := lg |}) as [r s'] eqn:H.
  assert (r = Ok tt) as ->; [| by eexists].
  unfold append_ibstates in H.
  rewrite (np_uint_in_range 64) in H by lia.
  pose proof (Hfree []) as Hf0. pose proof (Hfree ["bstate_index"]) as Hf1.
  pose proof (Hfree ["bstate_pcoord"]) as Hf2. clear Hfree.
  unfold table_rows in Hf0, Hf1, Hf2.
  destruct Hgrp as [Hgrp | [attrs Hgrp]]; destruct Hidx as [Hidx | [rows Hidx]];
    rewrite Hidx in Hf0, Hf1, Hf2;
    cbn [default from_option id dt_unwrap ibstate_index_dtype length app] in Hf0, Hf1, Hf2.
  all: exec H; simplify_eq.
  all: try done.
  all: exfalso; repeat match goal with
         | Hb : (_ <? _)%Z = true |- _ => apply Z.ltb_lt in Hb
         end; lia.
Qed.

Lemma append_ibstates_frame (n : Z) bs s s' :
  append_ibstates n bs s = (Ok tt, s') →
  let grp := ["ibstates"; py_str (Z.of_nat (length (table_rows ibstate_index_dtype (file s)
                                                      ["ibstates"; "index"])))] in
  (∃ attrs, file s' !! ["ibstates"] = Some (Group attrs)) ∧
  ∀ p, p ≠ ["ibstates"] → p ≠ ["ibstates"; "index"] → p ≠ grp →
       p ≠ grp ++ ["bstate_index"] → p ≠ grp ++ ["bstate_pcoord"] →
       file s' !! p = file s !! p.
Proof.
  destruct s as [f lg]. unfold append_ibstates. intros H.
  exec H; simplify_eq.
  all: unfold table_rows; cbn [file].
  all: repeat match goal with E : ?f !! ?k = _ |- context [?f !! ?k] => rewrite E end.
  all: cbn [default from_option id dt_unwrap ibstate_index_dtype length app].
  all: split; [eexists; solve_lookup |].
  all: intros p ?????; by rewrite !lookup_insert_ne by done.
Qed.

(** One epoch more on a store in order. *)
Lemma append_ibstates_step (n : Z) (bs : list (BasisState W)) s :
  ibstates_wf (file s) →
  (0 ≤ n < 2 ^ 64)%Z →
  basis_states_ok bs →
  ∃ s',
    append_ibstates n bs s = (Ok tt, s') ∧
    ibstates_wf (file s') ∧
    let old := table_rows ibstate_index_dtype (file s) ["ibstates"; "index"] in
    let grp := ["ibstates"; py_str (Z.of_nat (length old))] in
    table_rows ibstate_index_dtype (file s') ["ibstates"; "index"] =
      old ++ [{| ib_iter_valid := n; n_bstates := Z.of_nat (length bs);
                 ib_group_ref := Some grp |}] ∧
    (∃ attrs, file s' !! grp = Some (Group attrs)) ∧
    (bs ≠ [] →
     file s' !! (grp ++ ["bstate_index"]) = Some (BstateTable (bstate_row <$> bs)) ∧
     file s' !! (grp ++ ["bstate_pcoord"]) = Some (PcoordArray (bs_parent_pcoord <$> bs))) ∧
    (bs = [] →
     file s' !! (grp ++ ["bstate_index"]) = None ∧
     file s' !! (grp ++ ["bstate_pcoord"]) = None) ∧
    (∀ p, p ≠ ["ibstates"] → p ≠ ["ibstates"; "index"] → p ≠ grp →
          p ≠ grp ++ ["bstate_index"] → p ≠ grp ++ ["bstate_pcoord"] →
          file s' !! p = file s !! p).
Proof.
  intros (Hg & Hi & Hrows & Hfree) Hn Hstates.
  destruct (append_ibstates_returns n bs s Hg Hi (Hfree _ (le_n _)) Hn Hstates) as [s' Hrun].
  pose proof (append_ibstates_spec _ _ _ _ Hrun) as (Hidx & _ & _ & Hnew & Hempty & Htabs).
  pose proof (append_ibstates_frame _ _ _ _ Hrun) as [Hgrp' Hframe].
  cbv zeta in *.
  set (old := table_rows ibstate_index_dtype (file s) ["ibstates"; "index"]) in *.
  set (grp := ["ibstates"; py_str (Z.of_nat (length old))]) in *.
  assert (Hrows' : table_rows ibstate_index_dtype (file s') ["ibstates"; "index"] =
            old ++ [{| ib_iter_valid := n; n_bstates := Z.of_nat (length bs);
                       ib_group_ref := Some grp |}]).
  { unfold table_rows. by rewrite Hidx. }
  assert (Hnone : bs = [] →
            file s' !! (grp ++ ["bstate_index"]) = None ∧
            file s' !! (grp ++ ["bstate_pcoord"]) = None).
  { intros Hbs. split.
    - rewrite (Hempty Hbs) by (subst grp; path_ne). apply (Hfree (length old)). lia.
    - rewrite (Hempty Hbs) by (subst grp; path_ne). apply (Hfree (length old)). lia. }
  assert (Hcount :
            Z.of_nat (table_len (file s') (grp ++ ["bstate_index"])) = Z.of_nat (length bs) ∧
            Z.of_nat (table_len (file s') (grp ++ ["bstate_pcoord"])) = Z.of_nat (length bs)).
  { unfold table_len. destruct bs as [| b bs'].
    - destruct (Hnone eq_refl) as [-> ->]. done.
    - destruct Htabs as [-> ->]; [done |]. cbn [node_len]. by rewrite !length_fmap. }
  exists s'. split; [exact Hrun |]. split; [| split_and!; try done; by eexists].
  split_and!.
  - by right.
  - right. by eexists.
  - intros i row. rewrite Hrows'. intros Hl.
    destruct (decide (i < length old)) as [Hlt | Hge].
    + rewrite lookup_app_l in Hl by done.
      destruct (Hrows i row Hl) as (Href & [attrs HG] & H1 & H2).
      unfold table_len in *. subst grp.
      rewrite !Hframe by path_ne. split_and!; try done. by exists attrs.
    + assert (i = length old) as ->.
      { apply lookup_lt_Some in Hl. rewrite length_app in Hl. cbn in Hl. lia. }
      rewrite list_lookup_middle in Hl by done. injection Hl as <-.
      cbn [ib_group_ref n_bstates]. destruct Hcount as [Hc1 Hc2].
      split_and!; try done. by eexists.
  - intros k Hk rest. rewrite Hrows', length_app in Hk. cbn in Hk.
    subst grp. rewrite Hframe by path_ne. apply (Hfree k). lia.
Qed.

(** X5. On a store whose basis-state part this code built, for an iteration
    number that fits the unsigned field and basis states whose parent pcoords
    are of one length and whose auxrefs hold no NUL, [append_ibstates] returns
    and leaves the basis-state part in order again: the index has one more row, which
    counts the states and refers to the new subgroup named after the row's
    ordinal; for a non-empty list the subgroup holds the state table (label
    [str(simulation_id)], probability, auxref) and the parent pcoords, one row
    per state in order, for an empty list it stays empty; every earlier epoch's
    subgroup, and everything else in the file, is untouched. *)
Theorem basis_state_epoch_appended (n : Z) (bs : list (BasisState W)) s :
  ibstates_wf (file s) →
  (0 ≤ n < 2 ^ 64)%Z →
  basis_states_ok bs →
  ∃ s',
    append_ibstates n bs s = (Ok tt, s') ∧
    ibstates_wf (file s') ∧
    let old := table_rows ibstate_index_dtype (file s) ["ibstates"; "index"] in
    let grp := ["ibstates"; py_str (Z.of_nat (length old))] in
    table_rows ibstate_index_dtype (file s') ["ibstates"; "index"] =
      old ++ [{| ib_iter_valid := n; n_bstates := Z.of_nat (length bs);
                 ib_group_ref := Some grp |}] ∧
    (∃ attrs, file s' !! grp = Some (Group attrs)) ∧
    (bs ≠ [] →
     file s' !! (grp ++ ["bstate_index"]) = Some (BstateTable (bstate_row <$> bs)) ∧
     file s' !! (grp ++ ["bstate_pcoord"]) = Some (PcoordArray (bs_parent_pcoord <$> bs))) ∧
    (bs = [] →
     file s' !! (grp ++ ["bstate_index"]) = None ∧
     file s' !! (grp ++ ["bstate_pcoord"]) = None) ∧
    (∀ p, p ≠ ["ibstates"] → p ≠ ["ibstates"; "index"] → p ≠ grp →
          p ≠ grp ++ ["bstate_index"] → p ≠ grp ++ ["bstate_pcoord"] →
          file s' !! p = file s !! p).
Proof. apply append_ibstates_step. Qed.

End BasisEpochs.

(** ** Target-state epochs *)

Section TargetEpochs.
Context {W : Type} `{!WeightOps W}.
Implicit Types (s : St (W:=W)) (f : gmap Path (Node W)).

Lemma append_tstates_returns (n : Z) ts s :
  (file s !! ["tstates"] = None ∨ ∃ attrs, file s !! ["tstates"] = Some (Group attrs)) →
  (file s !! ["tstates"; "index"] = None ∨
   ∃ rows, file s !! ["tstates"; "index"] = Some (TstateIndex rows)) →
  free_below (file s)
    ["tstates"; py_str (Z.of_nat (length (table_rows tstate_index_dtype (file s)
                                            ["tstates"; "index"])))] →
  (0 ≤ n < 2 ^ 64)%Z →
  target_states_ok ts →
  ∃ s', append_tstates n ts s = (Ok tt, s').
Proof.
  destruct s as [f lg]. cbn [file].
  intros Hgrp Hidx Hfree Hn [Hpc%np_array_rectangular Hlabels].
  assert (Hv : vlen_strs (ts_label <$> ts) = Ok tt).
  { apply vlen_strs_ok. by rewrite Forall_fmap. }
  destruct (append_tstates n ts {| file := f; log := lg |}) as [r s'] eqn:H.
  assert (r = Ok tt) as ->; [| by eexists].
  unfold append_tstates in H.
  rewrite (np_uint_in_range 64) in H by lia.
  pose proof (Hfree []) as Hf0. pose proof (Hfree ["index"]) as Hf1.
  pose proof (Hfree ["pcoord"]) as Hf2. clear Hfree.
  unfold table_rows in Hf0, Hf1, Hf2.
  destruct Hgrp as [Hgrp | [attrs Hgrp]]; destruct Hidx as [Hidx | [rows Hidx]];
    rewrite Hidx in Hf0, Hf1, Hf2;
    cbn [default from_option id dt_unwrap tstate_index_dtype length app] in Hf0, Hf1, Hf2.
  all: exec H; simplify_eq.
  all: try done.
  all: exfalso; repeat match goal with
         | Hb : (_ <? _)%Z = true |- _ => apply Z.ltb_lt in Hb
         end; lia.
Qed.

Lemma append_tstates_frame (n : Z) ts s s' :
  append_tstates n ts s = (Ok tt, s') →
  let grp := ["tstates"; py_str (Z.of_nat (length (table_rows tstate_index_dtype (file s)
                                                     ["tstates"; "index"])))] in
  (∃ attrs, file s' !! ["tstates"] = Some (Group attrs)) ∧
  ∀ p, p ≠ ["tstates"] → p ≠ ["tstates"; "index"] → p ≠ grp →
       p ≠ grp ++ ["index"] → p ≠ grp ++ ["pcoord"] →
       file s' !! p = file s !! p.
Proof.
  destruct s as [f lg]. unfold append_tstates. intros H.
  exec H; simplify_eq.
  all: unfold table_rows; cbn [file].
  all: repeat match goal with E : ?f !! ?k = _ |- context [?f !! ?k] => rewrite E end.
  all: cbn [default from_option id dt_unwrap tstate_index_dtype length app].
  all: split; [eexists; solve_lookup |].
  all: intros p ?????; by rewrite !lookup_insert_ne by done.
Qed.

(** One epoch more on a store in order. *)
Lemma append_tstates_step (n : Z) (ts : list (TargetState W)) s :
  tstates_wf (file s) →
  (0 ≤ n < 2 ^ 64)%Z →
  target_states_ok ts →
  ∃ s',
    append_tstates n ts s = (Ok tt, s') ∧
    tstates_wf (file s') ∧
    let old := table_rows tstate_index_dtype (file s) ["tstates"; "index"] in
    let grp := ["tstates"; py_str (Z.of_nat (length old))] in
    table_rows tstate_index_dtype (file s') ["tstates"; "index"] =
      old ++ [{| ts_iter_valid := n; n_states := Z.of_nat (length ts);
                 ts_group_ref := match ts with [] => None | _ :: _ => Some grp end |}] ∧
    (ts ≠ [] →
     (∃ attrs, file s' !! grp = Some (Group attrs)) ∧
     file s' !! (grp ++ ["index"]) = Some (TstateTable (ts_label <$> ts)) ∧
     file s' !! (grp ++ ["pcoord"]) = Some (PcoordArray (ts_pcoord <$> ts))) ∧
    (ts = [] → free_below (file s') grp) ∧
    (∀ p, p ≠ ["tstates"] → p ≠ ["tstates"; "index"] → p ≠ grp →
          p ≠ grp ++ ["index"] → p ≠ grp ++ ["pcoord"] →
          file s' !! p = file s !! p).
Proof.
  intros (Hg & Hi & Hrows & Hfree) Hn Hstates.
  destruct (append_tstates_returns n ts s Hg Hi (Hfree _ (le_n _)) Hn Hstates) as [s' Hrun].
  pose proof (append_tstates_spec _ _ _ _ Hrun) as (Hidx & _ & Hempty & Htabs).
  pose proof (append_tstates_frame _ _ _ _ Hrun) as [Hgrp' Hframe].
  cbv zeta in *.
  set (old := table_rows tstate_index_dtype (file s) ["tstates"; "index"]) in *.
  set (grp := ["tstates"; py_str (Z.of_nat (length old))]) in *.
  assert (Hrows' : table_rows tstate_index_dtype (file s') ["tstates"; "index"] =
            old ++ [{| ts_iter_valid := n; n_states := Z.of_nat (length ts);
                       ts_group_ref := match ts with [] => None | _ :: _ => Some grp end |}]).
  { unfold table_rows. by rewrite Hidx. }
  assert (Hnone : ts = [] → free_below (file s') grp).
  { intros Hts rest. rewrite (Hempty Hts) by (subst grp; path_ne).
    apply (Hfree (length old)). lia. }
  exists s'. split; [exact Hrun |]. split.
  2:{ split_and!; try done.
      intros Hts. destruct (Htabs Hts) as (_ & HG & H1 & H2). split_and!; try done. by eexists. }
  split_and!.
  - by right.
  - right. by eexists.
  - intros i row. rewrite Hrows'. intros Hl.
    destruct (decide (i < length old)) as [Hlt | Hge].
    + rewrite lookup_app_l in Hl by done.
      specialize (Hrows i row Hl).
      destruct (n_states row =? 0)%Z; [done |].
      destruct Hrows as (Href & [attrs HG] & H1 & H2).
      unfold table_len in *. subst grp.
      rewrite !Hframe by path_ne. split_and!; try done. by exists attrs.
    + assert (i = length old) as ->.
      { apply lookup_lt_Some in Hl. rewrite length_app in Hl. cbn in Hl. lia. }
      rewrite list_lookup_middle in Hl by done. injection Hl as <-.
      cbn [ts_group_ref n_states]. destruct ts as [| t ts'].
      * done.
      * destruct (Z.eqb_spec (Z.of_nat (length (t :: ts'))) 0) as [E | _]; [cbn in E; lia |].
        destruct Htabs as (_ & HG & H1 & H2); [done |].
        unfold table_len. subst grp. cbn [app] in H1, H2. rewrite H1, H2. cbn [node_len].
        rewrite !length_fmap. split_and!; try done. by eexists.
  - intros k Hk rest. rewrite Hrows', length_app in Hk. cbn in Hk.
    subst grp. rewrite Hframe by path_ne. apply (Hfree k). lia.
Qed.

(** X6. On a store whose target-state part this code built, for an iteration
    number that fits the unsigned field and target states whose pcoords are of
    one length and whose labels hold no NUL, [append_tstates] returns and leaves
    the target-state part in order again: the index has one more row, which counts
    the states; for a non-empty list the row refers to the new subgroup named
    after its ordinal, which holds the labels and the pcoords, one row per state
    in order; for an empty list the reference is null and no subgroup is made;
    every earlier epoch's subgroup, and everything else in the file, is
    untouched. *)
Theorem target_state_epoch_appended (n : Z) (ts : list (TargetState W)) s :
  tstates_wf (file s) →
  (0 ≤ n < 2 ^ 64)%Z →
  target_states_ok ts →
  ∃ s',
    append_tstates n ts s = (Ok tt, s') ∧
    tstates_wf (file s') ∧
    let old := table_rows tstate_index_dtype (file s) ["tstates"; "index"] in
    let grp := ["tstates"; py_str (Z.of_nat (length old))] in
    table_rows tstate_index_dtype (file s') ["tstates"; "index"] =
      old ++ [{| ts_iter_valid := n; n_states := Z.of_nat (length ts);
                 ts_group_ref := match ts with [] => None | _ :: _ => Some grp end |}] ∧
    (ts ≠ [] →
     (∃ attrs, file s' !! grp = Some (Group attrs)) ∧
     file s' !! (grp ++ ["index"]) = Some (TstateTable (ts_label <$> ts)) ∧
     file s' !! (grp ++ ["pcoord"]) = Some (PcoordArray (ts_pcoord <$> ts))) ∧
    (ts = [] → free_below (file s') grp) ∧
    (∀ p, p ≠ ["tstates"] → p ≠ ["tstates"; "index"] → p ≠ grp →
          p ≠ grp ++ ["index"] → p ≠ grp ++ ["pcoord"] →
          file s' !! p = file s !! p).
Proof. apply append_tstates_step. Qed.

End TargetEpochs.

(** ** The log of binning-scheme snapshots *)

Section Snapshots.
Context {W : Type} `{!WeightOps W}.
Implicit Types (s : St (W:=W)) (f : gmap Path (Node W)).

Lemma read_pickle_eq f f' i irow row row' :
  bin_index_rows f !! i = Some irow → (bin_pickles f).2 !! i = Some row →
  bin_index_rows f' !! i = Some irow → (bin_pickles f').2 !! i = Some row' →
  take (Z.to_nat (pickle_len irow)) row' = take (Z.to_nat (pickle_len irow)) row →
  read_pickle f' i = read_pickle f i.
Proof.
  intros H1 H2 H3 H4 H5. unfold read_pickle. rewrite H1, H2, H3, H4. simpl. by rewrite H5.
Qed.

(** One snapshot more on a store in order. *)
Lemma append_bin_mapper_step (sim : SimMetadata W) s :
  bin_store_wf (file s) →
  plain_ascii (binner_hash sim) = true →
  (Z.of_nat (length (binner_pickle sim)) < 2 ^ 32)%Z →
  ∃ s',
    append_bin_mapper sim s = (Ok tt, s') ∧
    bin_store_wf (file s') ∧
    bin_index_rows (file s') =
      bin_index_rows (file s) ++
      [{| hash := string_take 64 (binner_hash sim);
          pickle_len := Z.of_nat (length (binner_pickle sim)) |}] ∧
    length (bin_pickles (file s')).2 = S (length (bin_index_rows (file s))) ∧
    (bin_pickles (file s')).1 = (bin_pickles (file s)).1 `max` length (binner_pickle sim) ∧
    (∀ i, i < length (bin_index_rows (file s)) →
          read_pickle (file s') i = read_pickle (file s) i) ∧
    read_pickle (file s') (length (bin_index_rows (file s))) = Some (binner_pickle sim).
Proof.
  intros [Hok Hwf] Hplain%np_S64_plain Hlen32.
  destruct (append_bin_mapper_returns sim s _ Hok Hplain Hlen32) as [s' Hrun].
  pose proof (bin_store_ok_in_step _ Hok) as Hstep.
  pose proof (append_bin_mapper_keeps_ok _ _ _ Hrun Hok) as Hok'.
  pose proof (append_bin_mapper_spec _ _ _ Hrun)
    as (r0 & attrs & h & Hh & Hgrp & _ & _ & Hidx & Hr0 & Hpk).
  rewrite Hplain in Hh. injection Hh as <-.
  cbv zeta in *.
  set (data := binner_pickle sim) in *.
  set (w := (bin_pickles (file s)).1 `max` length data) in *.
  set (rows := (bin_pickles (file s)).2) in *.
  set (irows := bin_index_rows (file s)) in *.
  apply bin_index_rows_lookup in Hidx. apply bin_pickles_lookup in Hpk.
  assert (Hr0' : r0 = replicate w x00).
  { rewrite <- Hstep in Hr0.
    rewrite <- (length_fmap (resize_rows x00 w) rows) in Hr0.
    rewrite resize_rows_lookup_new in Hr0. by injection Hr0. }
  subst r0.
  assert (Hnewrow : length (data ++ drop (length data) (replicate w x00)) = w).
  { rewrite length_app, length_drop, length_replicate. lia. }
  assert (Hold : ∀ i, i < length irows →
            ∃ irow row, irows !! i = Some irow ∧ rows !! i = Some row ∧
              bin_index_rows (file s') !! i = Some irow ∧
              (bin_pickles (file s')).2 !! i = Some (resize_rows x00 w row)).
  { intros i Hi.
    destruct (lookup_lt_is_Some_2 irows i Hi) as [irow Hirow].
    destruct (lookup_lt_is_Some_2 rows i) as [row Hrow]; [lia |].
    exists irow, row. split_and!; try done.
    - rewrite Hidx. by rewrite lookup_app_l.
    - rewrite Hpk. cbn [snd]. rewrite list_lookup_insert_ne by lia.
      rewrite resize_rows_lookup_old by (rewrite length_fmap; lia).
      by rewrite list_lookup_fmap, Hrow. }
  exists s'. split; [exact Hrun |]. split_and!.
  - split; [exact Hok' |]. intros i irow row Hirow Hrow.
    rewrite Hpk. cbn [fst].
    destruct (decide (i < length irows)) as [Hlt | Hge].
    + destruct (Hold i Hlt) as (irow0 & row0 & Hi0 & Hrw0 & Hi1 & Hrw1).
      rewrite Hi1 in Hirow. rewrite Hrw1 in Hrow. simplify_eq.
      destruct (Hwf i irow row0 Hi0 Hrw0) as (Hl & Hp0 & Hp1).
      rewrite length_resize_rows. split_and!; try done. lia.
    + assert (i = length irows) as ->.
      { apply lookup_lt_Some in Hirow. rewrite Hidx, length_app in Hirow. cbn in Hirow. lia. }
      rewrite Hidx, list_lookup_middle in Hirow by done.
      rewrite Hpk in Hrow. cbn [snd] in Hrow.
      rewrite list_lookup_insert_eq in Hrow by (rewrite length_resize_rows; lia).
      simplify_eq. cbn [pickle_len]. rewrite Hnewrow. split_and!; lia.
  - done.
  - rewrite Hpk. cbn [snd]. by rewrite length_insert, length_resize_rows, Hstep.
  - by rewrite Hpk.
  - intros i Hi.
    destruct (Hold i Hi) as (irow0 & row0 & Hi0 & Hrw0 & Hi1 & Hrw1).
    destruct (Hwf i irow0 row0 Hi0 Hrw0) as (Hl & Hp0 & Hp1).
    eapply read_pickle_eq; try done.
    apply take_resize_rows; lia.
  - unfold read_pickle. rewrite Hidx, list_lookup_middle by done.
    rewrite Hpk. cbn [snd].
    rewrite list_lookup_insert_eq by (rewrite length_resize_rows; lia).
    simpl. by rewrite Nat2Z.id, take_app_length.
Qed.

(** X7. The bin-topology tables are an append-only log of snapshots: on a store
    whose bin-topology part this code built, storing any list of snapshots whose
    hashes are plain ASCII and whose blobs fit the 32-bit length field returns,
    adds one index row and one payload row per snapshot in order, each index
    row with the first 64 bytes of the snapshot's hash and the length of its
    blob, widens the payload table to the longest blob stored so far, leaves
    every earlier snapshot reading back as before, and every new snapshot reads
    back as its blob. *)
Theorem snapshots_read_back (sims : list (SimMetadata W)) s :
  bin_store_wf (file s) →
  Forall (λ sim, plain_ascii (binner_hash sim) = true ∧
                 (Z.of_nat (length (binner_pickle sim)) < 2 ^ 32)%Z) sims →
  ∃ s',
    append_bin_mappers sims s = (Ok tt, s') ∧
    bin_store_wf (file s') ∧
    length (bin_index_rows (file s')) = length (bin_index_rows (file s)) + length sims ∧
    length (bin_pickles (file s')).2 = length (bin_index_rows (file s)) + length sims ∧
    (bin_pickles (file s')).1 =
      foldl (λ w sim, w `max` length (binner_pickle sim)) (bin_pickles (file s)).1 sims ∧
    (∀ i, i < length (bin_index_rows (file s)) →
          bin_index_rows (file s') !! i = bin_index_rows (file s) !! i ∧
          read_pickle (file s') i = read_pickle (file s) i) ∧
    (∀ i sim, sims !! i = Some sim →
       bin_index_rows (file s') !! (length (bin_index_rows (file s)) + i) =
         Some {| hash := string_take 64 (binner_hash sim);
                 pickle_len := Z.of_nat (length (binner_pickle sim)) |} ∧
       read_pickle (file s') (length (bin_index_rows (file s)) + i) =
         Some (binner_pickle sim)).
Proof.
  revert s. induction sims as [| sim sims IH]; intros s Hwf Hall.
  - exists s. split_and!; cbn [length]; rewrite ?Nat.add_0_r; try done.
    apply bin_store_ok_in_step. by destruct Hwf.
  - apply Forall_cons in Hall as [[Hplain Hsim] Hall].
    destruct (append_bin_mapper_step sim s Hwf Hplain Hsim)
      as (s1 & Hrun1 & Hwf1 & Hidx1 & Hlen1 & Hw1 & Hold1 & Hnew1).
    destruct (IH s1 Hwf1 Hall) as (s' & Hrun & Hwf' & Hlen & Hplen & Hw & Hold & Hnew).
    assert (Hk1 : length (bin_index_rows (file s1)) = S (length (bin_index_rows (file s)))).
    { rewrite Hidx1, length_app. cbn. lia. }
    rewrite Hk1 in *.
    exists s'. split_and!.
    + cbn [append_bin_mappers]. unfold mbind, M_bind. by rewrite Hrun1.
    + done.
    + cbn [length]. lia.
    + cbn [length]. lia.
    + cbn [foldl]. by rewrite <- Hw1.
    + intros i Hi. destruct (Hold i) as [-> ->]; [lia |]. split.
      * rewrite Hidx1. by apply lookup_app_l.
      * by apply Hold1.
    + intros [| i] sim' Hsim'; cbn in Hsim'.
      * injection Hsim' as <-. rewrite Nat.add_0_r.
        destruct (Hold (length (bin_index_rows (file s)))) as [-> ->]; [lia |]. split.
        -- rewrite Hidx1. by apply list_lookup_middle.
        -- done.
      * replace (length (bin_index_rows (file s)) + S i)
          with (S (length (bin_index_rows (file s))) + i) by lia.
        by apply Hnew.
Qed.

(** X8. A store with only one of the two bin-topology tables:
    [append_bin_mapper] takes the branch that creates both and raises ValueError
    at the name that exists. With only the index there, nothing is written; with
    only the payload table there, a new index of one zero row has been created
    by then and stays. *)
Theorem bin_tables_out_of_step (sim : SimMetadata W) s attrs :
  file s !! ["bin_topologies"] = Some (Group attrs) →
  ((∃ rows, file s !! ["bin_topologies"; "index"] = Some (BinningIndex rows)) →
   file s !! ["bin_topologies"; "pickles"] = None →
   ∃ s', append_bin_mapper sim s = (Raise ValueError, s') ∧ file s' = file s) ∧
  (file s !! ["bin_topologies"; "index"] = None →
   (∃ w rows, file s !! ["bin_topologies"; "pickles"] = Some (Pickles w rows)) →
   ∃ s', append_bin_mapper sim s = (Raise ValueError, s') ∧
         file s' = <[["bin_topologies"; "index"] :=
                       BinningIndex [{| hash := ""; pickle_len := 0 |}]]> (file s)).
Proof.
  destruct s as [f lg]. cbn [file]. intros Hgrp. split.
  - intros [rows Hidx] Hpk.
    destruct (append_bin_mapper sim {| file := f; log := lg |}) as [r s'] eqn:H.
    unfold append_bin_mapper in H.
    exec H; simplify_eq. by eexists.
  - intros Hidx (w & rows & Hpk).
    destruct (append_bin_mapper sim {| file := f; log := lg |}) as [r s'] eqn:H.
    unfold append_bin_mapper in H.
    exec H; simplify_eq. by eexists.
Qed.

End Snapshots.

(** ** A store in order *)

Section Invariant.
Context {W : Type} `{!WeightOps W}.
Implicit Types (s : St (W:=W)) (f : gmap Path (Node W)).

Lemma ibstates_wf_agree f f' : agree_under "ibstates" f f' → ibstates_wf f → ibstates_wf f'.
Proof.
  intros Ha (Hg & Hi & Hr & Hf).
  assert (Ht : table_rows ibstate_index_dtype f' ["ibstates"; "index"] =
               table_rows ibstate_index_dtype f ["ibstates"; "index"]).
  { unfold table_rows. by rew_agree Ha. }
  unfold ibstates_wf, table_len, free_below. rewrite Ht. split_and!.
  - by rew_agree Ha.
  - by rew_agree Ha.
  - intros i row Hl. rew_agree Ha. by apply Hr.
  - intros k Hk rest. rew_agree Ha. by apply Hf.
Qed.

Lemma tstates_wf_agree f f' : agree_under "tstates" f f' → tstates_wf f → tstates_wf f'.
Proof.
  intros Ha (Hg & Hi & Hr & Hf).
  assert (Ht : table_rows tstate_index_dtype f' ["tstates"; "index"] =
               table_rows tstate_index_dtype f ["tstates"; "index"]).
  { unfold table_rows. by rew_agree Ha. }
  unfold tstates_wf, table_len, free_below. rewrite Ht. split_and!.
  - by rew_agree Ha.
  - by rew_agree Ha.
  - intros i row Hl. rew_agree Ha. by apply Hr.
  - intros k Hk rest. rew_agree Ha. by apply Hf.
Qed.

Lemma bin_store_wf_agree f f' :
  agree_under "bin_topologies" f f' → bin_store_wf f → bin_store_wf f'.
Proof.
  intros Ha [Hok Hwf].
  assert (Hi : bin_index_rows f' = bin_index_rows f).
  { unfold bin_index_rows, table_rows. by rew_agree Ha. }
  assert (Hp : bin_pickles f' = bin_pickles f).
  { unfold bin_pickles. by rew_agree Ha. }
  split.
  - unfold bin_store_ok. by rew_agree Ha.
  - rewrite Hi, Hp. exact Hwf.
Qed.

Lemma iterations_ok_agree f f' :
  agree_under "iterations" f f' → iterations_ok f → iterations_ok f'.
Proof.
  intros Ha [Hg Hn]. split.
  - by rew_agree Ha.
  - intros name. rew_agree Ha. apply Hn.
Qed.

Lemma frame_agree (g g' : string) f f' :
  g ≠ g' → (∀ p, ¬ under g p → f' !! p = f !! p) → agree_under g' f f'.
Proof. intros Hg Hf p [rest ->]. apply Hf. intros [rest' [= ? _]]. done. Qed.

Lemma py_format_0d_returns (n prec : Z) :
  (0 ≤ prec < 2 ^ 63)%Z → ∃ name, py_format_0d n prec = Ok name.
Proof.
  intros Hp. unfold py_format_0d.
  destruct (Z.ltb_spec prec 0); [lia |].
  destruct (Z.leb_spec (2 ^ 63) prec); [lia |].
  destruct (n <? 0)%Z; by eexists.
Qed.

Lemma stamp_iteration_returns (n prec : Z) s :
  iterations_ok (file s) → (0 ≤ prec < 2 ^ 63)%Z →
  ∃ s', stamp_iteration n prec s = (Ok tt, s') ∧ iterations_ok (file s').
Proof.
  destruct s as [f lg]. cbn [file]. intros [Hg Hn] Hp.
  destruct (py_format_0d_returns n prec Hp) as [name Hname].
  destruct (stamp_iteration n prec {| file := f; log := lg |}) as [r s'] eqn:H.
  unfold stamp_iteration in H. rewrite Hname in H.
  destruct Hg as [Hg | [attrs Hg]];
    destruct (Hn ("iter_" +:+ name)) as [Hnm | [attrs' Hnm]].
  all: exec H; simplify_eq.
  all: eexists; split; [reflexivity |].
  all: cbn [file]; split;
    [ rewrite ?lookup_insert_ne by done; rewrite ?lookup_insert_eq; eauto
    | intros name'; rewrite ?lookup_insert; repeat case_decide; simplify_eq; eauto ].
Qed.

Lemma store_ok_frame (g : string) f f' :
  (∀ p, ¬ under g p → f' !! p = f !! p) →
  store_ok f →
  (g = "summary" → ∃ rows, f' !! ["summary"] = Some (SummaryTable rows) ∧ rows ≠ []) →
  (g = "ibstates" → ibstates_wf f') →
  (g = "tstates" → tstates_wf f') →
  (g = "bin_topologies" → bin_store_wf f') →
  (g = "iterations" → iterations_ok f') →
  store_ok f'.
Proof.
  intros Hf (Hsum & Hib & Hts & Hbin & Hit) H1 H2 H3 H4 H5. split_and!.
  - destruct (decide (g = "summary")) as [Hg | Hg]; [by apply H1 |].
    rewrite Hf; [done |]. by apply not_under_summary.
  - destruct (decide (g = "ibstates")) as [Hg | Hg]; [by apply H2 |].
    eapply ibstates_wf_agree; [| done]. by eapply frame_agree.
  - destruct (decide (g = "tstates")) as [Hg | Hg]; [by apply H3 |].
    eapply tstates_wf_agree; [| done]. by eapply frame_agree.
  - destruct (decide (g = "bin_topologies")) as [Hg | Hg]; [by apply H4 |].
    eapply bin_store_wf_agree; [| done]. by eapply frame_agree.
  - destruct (decide (g = "iterations")) as [Hg | Hg]; [by apply H5 |].
    eapply iterations_ok_agree; [| done]. by eapply frame_agree.
Qed.

Lemma append_summary_keeps_store (n : Z) sim0 rest b bins s :
  store_ok (file s) → (0 ≤ n)%Z → plain_ascii (binner_hash sim0) = true →
  ∃ s', append_summary n (sim0 :: rest) (b :: bins) s = (Ok tt, s') ∧ store_ok (file s').
Proof.
  intros Hok Hn Hplain%np_S64_plain. pose proof Hok as ((rows & Hsum & Hne) & _).
  destruct (append_summary_outcome n sim0 rest b bins s rows _ Hsum Hplain) as (row & _ & H).
  cbv zeta in H.
  assert (Hlen : 0 < length rows) by (destruct rows; [done | cbn; lia]).
  destruct (h5_index _ _) as [j | e] eqn:Hj.
  - destruct H as (s' & Hrun & Htab & Hframe). exists s'. split; [done |].
    apply (store_ok_frame "summary" (file s)); try done.
    + intros p Hp. apply Hframe. intros ->. apply Hp. by eexists.
    + intros _. eexists. split; [exact Htab |].
      apply h5_index_bound in Hj. intros Hnil.
      apply (f_equal length) in Hnil. rewrite length_insert in Hnil. cbn in Hnil. lia.
  - exfalso. destruct H as [_ Hge].
    destruct (Z.ltb_spec (Z.of_nat (length rows)) n) as [? | _]; [done |].
    unfold h5_index in Hj.
    destruct (Z.ltb_spec (n - 1) 0).
    + destruct (Z.leb_spec 0 (Z.of_nat (length rows) + (n - 1))); [| lia].
      destruct (Z.ltb_spec (Z.of_nat (length rows) + (n - 1)) (Z.of_nat (length rows)));
        [done | lia].
    + destruct (Z.leb_spec 0 (n - 1)); [| lia].
      destruct (Z.ltb_spec (n - 1) (Z.of_nat (length rows))); [done | lia].
Qed.

Lemma append_ibstates_keeps_store (n : Z) bs s :
  store_ok (file s) → (0 ≤ n < 2 ^ 64)%Z → basis_states_ok bs →
  ∃ s', append_ibstates n bs s = (Ok tt, s') ∧ store_ok (file s').
Proof.
  intros Hok Hn Hstates. pose proof Hok as (_ & Hib & _).
  destruct (append_ibstates_step n bs s Hib Hn Hstates) as (s' & Hrun & Hwf & _).
  exists s'. split; [done |].
  apply (store_ok_frame "ibstates" (file s)); try done.
  by apply append_ibstates_writes in Hrun as [Hf _].
Qed.

Lemma append_tstates_keeps_store (n : Z) ts s :
  store_ok (file s) → (0 ≤ n < 2 ^ 64)%Z → target_states_ok ts →
  ∃ s', append_tstates n ts s = (Ok tt, s') ∧ store_ok (file s').
Proof.
  intros Hok Hn Hstates. pose proof Hok as (_ & _ & Hts & _).
  destruct (append_tstates_step n ts s Hts Hn Hstates) as (s' & Hrun & Hwf & _).
  exists s'. split; [done |].
  apply (store_ok_frame "tstates" (file s)); try done.
  by apply append_tstates_writes in Hrun as [Hf _].
Qed.

Lemma append_bin_mapper_keeps_store (sim : SimMetadata W) s :
  store_ok (file s) → plain_ascii (binner_hash sim) = true →
  (Z.of_nat (length (binner_pickle sim)) < 2 ^ 32)%Z →
  ∃ s', append_bin_mapper sim s = (Ok tt, s') ∧ store_ok (file s').
Proof.
  intros Hok Hplain Hn. pose proof Hok as (_ & _ & _ & Hbin & _).
  destruct (append_bin_mapper_step sim s Hbin Hplain Hn) as (s' & Hrun & Hwf & _).
  exists s'. split; [done |].
  apply (store_ok_frame "bin_topologies" (file s)); try done.
  by apply append_bin_mapper_writes in Hrun as [Hf _].
Qed.

Lemma stamp_iteration_keeps_store (n prec : Z) s :
  store_ok (file s) → (0 ≤ prec < 2 ^ 63)%Z →
  ∃ s', stamp_iteration n prec s = (Ok tt, s') ∧ store_ok (file s').
Proof.
  intros Hok Hp. pose proof Hok as (_ & _ & _ & _ & Hit).
  destruct (stamp_iteration_returns n prec s Hit Hp) as (s' & Hrun & Hit').
  exists s'. split; [done |].
  apply (store_ok_frame "iterations" (file s)); try done.
  by apply stamp_iteration_changes in Hrun as [Hf _].
Qed.

Lemma bind_returns {A B : Type} (m : M (W:=W) A) (k : A → M (W:=W) B) s a s1 r :
  m s = (Ok a, s1) → k a s1 = r → (m ≫= k) s = r.
Proof. intros Hm Hk. unfold mbind, M_bind. by rewrite Hm. Qed.

(** The body of [append] on a store in order. *)
Lemma append_body_returns (self : WestpaH5File) (sim0 : SimMetadata W) rest b bins bs ts s :
  store_ok (file s) →
  (0 ≤ iteration_id sim0 < 2 ^ 32)%Z →
  (0 ≤ west_iter_prec (config self) < 2 ^ 8)%Z →
  plain_ascii (binner_hash sim0) = true →
  (Z.of_nat (length (binner_pickle sim0)) < 2 ^ 32)%Z →
  basis_states_ok bs →
  target_states_ok ts →
  ∃ s',
    append_body self sim0 (iteration_id sim0) (sim0 :: rest) (b :: bins) bs ts s = (Ok tt, s') ∧
    store_ok (file s').
Proof.
  intros Hok Hn32 Hp8 Hplain Hb Hbs Hts. rewrite append_body_eq. unfold append_rest.
  assert (Hn : (0 ≤ iteration_id sim0 < 2 ^ 64)%Z) by lia.
  assert (Hp : (0 ≤ west_iter_prec (config self) < 2 ^ 63)%Z) by lia.
  destruct (append_summary_keeps_store (iteration_id sim0) sim0 rest b bins s Hok)
    as (s1 & Hrun1 & Hok1); [lia | done |].
  unfold truthy. destruct (Z.eqb_spec (iteration_id sim0) 0) as [Hz | Hnz]; cbn [negb].
  - destruct (stamp_iteration_keeps_store (iteration_id sim0) _ s1 Hok1 Hp)
      as (s5 & Hrun5 & Hok5).
    exists s5. split; [| done].
    eapply bind_returns; [exact Hrun1 |].
    do 3 (eapply bind_returns; [reflexivity |]). exact Hrun5.
  - destruct (append_ibstates_keeps_store (iteration_id sim0) bs s1 Hok1 Hn Hbs)
      as (s2 & Hrun2 & Hok2).
    destruct (append_tstates_keeps_store (iteration_id sim0) ts s2 Hok2 Hn Hts)
      as (s3 & Hrun3 & Hok3).
    destruct (append_bin_mapper_keeps_store sim0 s3 Hok3 Hplain Hb) as (s4 & Hrun4 & Hok4).
    destruct (stamp_iteration_keeps_store (iteration_id sim0) _ s4 Hok4 Hp)
      as (s5 & Hrun5 & Hok5).
    exists s5. split; [| done].
    eapply bind_returns; [exact Hrun1 |].
    eapply bind_returns; [exact Hrun2 |].
    eapply bind_returns; [exact Hrun3 |].
    eapply bind_returns; [exact Hrun4 |]. exact Hrun5.
Qed.

Lemma fresh_store_ok (cfg : DDWEMetadata) : store_ok (fresh_store (W:=W) cfg).
Proof.
  unfold fresh_store. split_and!.
  - eexists. split; [by rewrite lookup_insert_ne, lookup_insert_eq |]. done.
  - split_and!; [by left | by left | |].
    + intros i row. unfold table_rows. by rewrite !lookup_insert_ne, lookup_empty.
    + intros k _ rest. cbn [app]. by rewrite !lookup_insert_ne, lookup_empty.
  - split_and!; [by left | by left | |].
    + intros i row. unfold table_rows. by rewrite !lookup_insert_ne, lookup_empty.
    + intros k _ rest. cbn [app]. by rewrite !lookup_insert_ne, lookup_empty.
  - split.
    + split; [by left | left; by split].
    + intros i irow row. unfold bin_index_rows, table_rows.
      by rewrite !lookup_insert_ne, lookup_empty.
  - split.
    + right. eexists. by rewrite lookup_insert_eq.
    + intros name. left. by rewrite !lookup_insert_ne, lookup_empty.
Qed.

End Invariant.

(** ** The life of a store *)

Section StoreLife.
Context {W : Type} `{!WeightOps W}.
Implicit Types (s : St (W:=W)) (f : gmap Path (Node W)).

Lemma table_len_frame (g : string) (p : Path) f f' :
  (∀ q, ¬ under g q → f' !! q = f !! q) → ¬ under g p → table_len f' p = table_len f p.
Proof. intros Hf Hp. unfold table_len. by rewrite Hf. Qed.

Lemma not_under (g g' : string) (rest : Path) : g ≠ g' → ¬ under g (g' :: rest).
Proof. intros Hg [rest' [= ? _]]. done. Qed.

(** What the body of [append] does to the lengths of the tables. *)
Lemma append_body_grows (self : WestpaH5File) (sim0 : SimMetadata W) n l bins bs ts s s' :
  append_body self sim0 n l bins bs ts s = (Ok tt, s') →
  grown n (table_len (file s) ["ibstates"; "index"]) (table_len (file s') ["ibstates"; "index"]) ∧
  grown n (table_len (file s) ["tstates"; "index"]) (table_len (file s') ["tstates"; "index"]) ∧
  grown n (table_len (file s) ["bin_topologies"; "index"])
          (table_len (file s') ["bin_topologies"; "index"]) ∧
  grown n (table_len (file s) ["bin_topologies"; "pickles"])
          (table_len (file s') ["bin_topologies"; "pickles"]).
Proof.
  rewrite append_body_eq. unfold append_rest.
  intros (? & s1 & Hsum & H)%bind_ok_inv.
  apply bind_ok_inv in H as (? & s2 & Hib & H).
  apply bind_ok_inv in H as (? & s3 & Hts & H).
  apply bind_ok_inv in H as (? & s4 & Hbin & Hstamp).
  repeat match goal with u : unit |- _ => destruct u end.
  apply append_summary_writes in Hsum as [F1 _].
  apply stamp_iteration_changes in Hstamp as [F5 _].
  unfold grown.
  rewrite !(table_len_frame _ _ _ _ F5) by (by apply not_under).
  rewrite <- !(table_len_frame _ _ _ _ F1) by (by apply not_under).
  apply gated_ok in Hib, Hts, Hbin.
  destruct Hib as [[Hn Hib] | [Hn ->]].
  - destruct Hts as [[_ Hts] | [? _]]; [| done].
    destruct Hbin as [[_ Hbin] | [? _]]; [| done].
    assert (truthy n = true) as ->.
    { unfold truthy. by destruct (Z.eqb_spec n 0). }
    pose proof (append_ibstates_writes _ _ _ _ _ Hib) as [F2 _].
    pose proof (append_tstates_writes _ _ _ _ _ Hts) as [F3 _].
    pose proof (append_bin_mapper_writes _ _ _ _ Hbin) as [F4 _].
    apply append_ibstates_spec in Hib as (Hi2 & Hl2 & _).
    apply append_tstates_spec in Hts as (Hi3 & Hl3 & _).
    apply append_bin_mapper_spec in Hbin
      as (r0 & attrs & h & _ & _ & Hl4 & Hl4' & Hi4 & _ & Hp4).
    split_and!.
    + rewrite (table_len_frame _ _ _ _ F4), (table_len_frame _ _ _ _ F3)
        by (by apply not_under).
      rewrite (table_len_lookup _ _ _ Hi2), Hl2. cbn [node_len].
      rewrite length_app. cbn. lia.
    + rewrite (table_len_frame _ _ _ _ F4) by (by apply not_under).
      rewrite <- (table_len_frame _ ["tstates"; "index"] _ _ F2) by (by apply not_under).
      rewrite (table_len_lookup _ _ _ Hi3), Hl3. cbn [node_len].
      rewrite length_app. cbn. lia.
    + rewrite <- (table_len_frame _ ["bin_topologies"; "index"] _ _ F2),
        <- (table_len_frame _ ["bin_topologies"; "index"] _ _ F3) by (by apply not_under).
      rewrite (table_len_lookup _ _ _ Hi4), Hl4. cbn [node_len].
      rewrite length_app. cbn. lia.
    + rewrite <- (table_len_frame _ ["bin_topologies"; "pickles"] _ _ F2),
        <- (table_len_frame _ ["bin_topologies"; "pickles"] _ _ F3) by (by apply not_under).
      rewrite (table_len_lookup _ _ _ Hp4), Hl4'. cbn [node_len].
      by rewrite length_insert, length_resize_rows.
  - destruct Hts as [[? _] | [_ ->]]; [done |].
    destruct Hbin as [[? _] | [_ ->]]; [done |].
    subst n. by cbn.
Qed.

(** The files [__init__] leaves. *)
Lemma init_files (name : string) (cfg : DDWEMetadata) (fs : gmap string (gmap Path (Node W))) :
  (init name cfg fs).1.1 = Ok {| config := cfg; h5file := name |} ∧
  (init name cfg fs).1.2 = <[name := fresh_store cfg]> fs.
Proof.
  unfold init, with_file.
  match goal with
  | |- context [let '(_, _) := ?b ?st in _] => destruct (b st) as [r s'] eqn:H
  end.
  rewrite <- insert_empty in H.
  exec H; rewrite ?lookup_empty in *; simplify_eq.
  cbn [file log app fst snd]. unfold fresh_store, root_attrs.
  by rewrite !insert_insert_eq.
Qed.

(** [append] on a store in order. *)
Lemma append_step (self : WestpaH5File) (sim0 : SimMetadata W)
    (rest : list (SimMetadata W)) (bins : list (list (SimMetadata W)))
    (bs : list (BasisState W)) (ts : list (TargetState W))
    (fs : gmap string (gmap Path (Node W))) (f : gmap Path (Node W)) :
  fs !! h5file self = Some f →
  store_ok f →
  bins ≠ [] →
  (0 ≤ iteration_id sim0 < 2 ^ 32)%Z →
  (0 ≤ west_iter_prec (config self) < 2 ^ 8)%Z →
  plain_ascii (binner_hash sim0) = true →
  (Z.of_nat (length (binner_pickle sim0)) < 2 ^ 32)%Z →
  basis_states_ok bs →
  target_states_ok ts →
  ∃ lg f',
    append self (sim0 :: rest) bins bs ts fs = (Ok tt, <[h5file self := f']> fs, lg) ∧
    store_ok f' ∧
    grown (iteration_id sim0) (table_len f ["ibstates"; "index"])
          (table_len f' ["ibstates"; "index"]) ∧
    grown (iteration_id sim0) (table_len f ["tstates"; "index"])
          (table_len f' ["tstates"; "index"]) ∧
    grown (iteration_id sim0) (table_len f ["bin_topologies"; "index"])
          (table_len f' ["bin_topologies"; "index"]) ∧
    grown (iteration_id sim0) (table_len f ["bin_topologies"; "pickles"])
          (table_len f' ["bin_topologies"; "pickles"]).
Proof.
  intros Hfs Hok Hbins Hn Hp Hplain Hb Hbs Hts.
  destruct bins as [| b bins]; [done |].
  destruct (append_body_returns self sim0 rest b bins bs ts
              {| file := f; log := [EvOpen (h5file self)] |} Hok Hn Hp Hplain Hb Hbs Hts)
    as (s' & Hrun & Hok').
  exists (log s' ++ [EvClose (h5file self)]), (file s'). split.
  - unfold append, with_file. rewrite Hfs. cbn [default from_option id]. by rewrite Hrun.
  - split; [done |]. by apply append_body_grows in Hrun.
Qed.

(** X9. On a store in order, [append] returns for every non-empty replica list
    and bin partition whose iteration number is from 0 to below [2 ^ 32], whose
    binning hash is plain ASCII and whose binning blob fits the 32-bit length
    field, for basis and target states with pcoords of one length and no NUL
    in an auxref or a label, provided the iteration precision is from 0 to
    below [2 ^ 8]. It leaves the store in order, so the next
    [append] returns as well, and it adds exactly one row to the basis-state
    index, the target-state index, the bin-topology index and the payload table,
    or none at all when the iteration number is 0. *)
Theorem append_returns_on_store_in_order (self : WestpaH5File) (sim0 : SimMetadata W)
    (rest : list (SimMetadata W)) (bins : list (list (SimMetadata W)))
    (bs : list (BasisState W)) (ts : list (TargetState W))
    (fs : gmap string (gmap Path (Node W))) (f : gmap Path (Node W)) :
  fs !! h5file self = Some f →
  store_ok f →
  bins ≠ [] →
  (0 ≤ iteration_id sim0 < 2 ^ 32)%Z →
  (0 ≤ west_iter_prec (config self) < 2 ^ 8)%Z →
  plain_ascii (binner_hash sim0) = true →
  (Z.of_nat (length (binner_pickle sim0)) < 2 ^ 32)%Z →
  basis_states_ok bs →
  target_states_ok ts →
  ∃ lg f',
    append self (sim0 :: rest) bins bs ts fs = (Ok tt, <[h5file self := f']> fs, lg) ∧
    store_ok f' ∧
    grown (iteration_id sim0) (table_len f ["ibstates"; "index"])
          (table_len f' ["ibstates"; "index"]) ∧
    grown (iteration_id sim0) (table_len f ["tstates"; "index"])
          (table_len f' ["tstates"; "index"]) ∧
    grown (iteration_id sim0) (table_len f ["bin_topologies"; "index"])
          (table_len f' ["bin_topologies"; "index"]) ∧
    grown (iteration_id sim0) (table_len f ["bin_topologies"; "pickles"])
          (table_len f' ["bin_topologies"; "pickles"]).
Proof. apply append_step. Qed.



Lemma append_summary_no_table (n : Z) (sim0 : SimMetadata W) rest b bins s :
  file s !! ["summary"] = None →
  plain_ascii (binner_hash sim0) = true →
  append_summary n (sim0 :: rest) (b :: bins) s = (Raise KeyError, s).
Proof.
  destruct s as [f lg]. cbn [file]. intros Hsum Hplain%np_S64_plain.
  destruct (append_summary n (sim0 :: rest) (b :: bins) {| file := f; log := lg |})
    as [r s'] eqn:H.
  unfold append_summary in H.
  cbn [py_min py_max py_first fmap list_fmap] in H.
  exec H. by simplify_eq.
Qed.

(** X11. [append] on a path where there is no file, for a binning hash of
    plain ASCII: mode ['a'] creates a file, the aggregate is computed, and the
    lookup of ['summary'] raises KeyError; the new file, with nothing in it but
    the root group, stays behind. *)
Theorem append_without_store_raises (self : WestpaH5File) (sim0 : SimMetadata W)
    (rest : list (SimMetadata W)) (bins : list (list (SimMetadata W)))
    (bs : list (BasisState W)) (ts : list (TargetState W))
    (fs : gmap string (gmap Path (Node W))) :
  fs !! h5file self = None →
  bins ≠ [] →
  plain_ascii (binner_hash sim0) = true →
  append self (sim0 :: rest) bins bs ts fs =
    (Raise KeyError, <[h5file self := {[ [] := Group ∅ ]}]> fs,
     [EvOpen (h5file self); EvClose (h5file self)]).
Proof.
  intros Hfs Hbins Hplain. destruct bins as [| b bins]; [done |].
  unfold append, with_file. rewrite Hfs. cbn [default from_option id].
  rewrite append_body_eq. unfold mbind at 1, M_bind at 1.
  by rewrite append_summary_no_table.
Qed.

#[global] Instance keeps_outside_preorder : PreOrder (keeps_outside (W:=W)).
Proof.
  split.
  - by intros s p.
  - intros s1 s2 s3 H12 H23 p Hp. rewrite H23, H12; done.
Qed.

Lemma frame_keeps_outside (g : string) s s' :
  g ∈ ["summary"; "ibstates"; "tstates"; "bin_topologies"; "iterations"] →
  (∀ p, ¬ under g p → file s' !! p = file s !! p) → keeps_outside s s'.
Proof.
  intros Hg Hf p (H1 & H2 & H3 & H4 & H5). apply Hf.
  repeat (apply elem_of_cons in Hg as [-> | Hg]; [done |]). by apply elem_of_nil in Hg.
Qed.

Lemma append_body_keeps_outside self (sim : SimMetadata W) n l bins bs ts :
  steps keeps_outside (append_body self sim n l bins bs ts).
Proof.
  rewrite append_body_eq. unfold append_rest.
  repeat (apply steps_bind; [apply _ | | intros _]).
  - intros s r s' [H _]%append_summary_writes.
    eapply frame_keeps_outside; [| exact H]. set_solver.
  - apply steps_if; [| apply steps_ret, _].
    intros s r s' [H _]%append_ibstates_writes.
    eapply frame_keeps_outside; [| exact H]. set_solver.
  - apply steps_if; [| apply steps_ret, _].
    intros s r s' [H _]%append_tstates_writes.
    eapply frame_keeps_outside; [| exact H]. set_solver.
  - apply steps_if; [| apply steps_ret, _].
    intros s r s' [H _]%append_bin_mapper_writes.
    eapply frame_keeps_outside; [| exact H]. set_solver.
  - intros s r s' [H _]%stamp_iteration_changes.
    eapply frame_keeps_outside; [| exact H]. set_solver.
Qed.

(** X12. Whatever its outcome, [append] touches no other file, and in the store
    nothing outside the five names it writes below: ['summary'], ['ibstates'],
    ['tstates'], ['bin_topologies'] and ['iterations']. In particular the root
    group keeps the attributes [__init__] gave it. *)
Theorem append_leaves_the_rest_alone (self : WestpaH5File)
    (l : list (SimMetadata W)) (bins : list (list (SimMetadata W)))
    (bs : list (BasisState W)) (ts : list (TargetState W))
    (fs : gmap string (gmap Path (Node W))) r fs' lg :
  append self l bins bs ts fs = (r, fs', lg) →
  (∀ name, name ≠ h5file self → fs' !! name = fs !! name) ∧
  (∀ f, fs !! h5file self = Some f →
     ∃ f', fs' !! h5file self = Some f' ∧
           (∀ p, outside_store_groups p → f' !! p = f !! p) ∧
           f' !! [] = f !! []).
Proof.
  intros H. destruct l as [| sim0 rest].
  { injection H as <- <- <-. split; [done |]. intros f Hf. by exists f. }
  unfold append, with_file in H.
  destruct (append_body _ _ _ _ _ _ _ _) as [r0 s'] eqn:Hbody.
  injection H as <- <- <-. split.
  - intros name Hname. by rewrite lookup_insert_ne.
  - intros f Hf. rewrite Hf in Hbody. cbn [default from_option id] in Hbody.
    apply append_body_keeps_outside in Hbody.
    exists (file s'). rewrite lookup_insert_eq. split; [done |]. split.
    + intros p Hp. by apply Hbody.
    + apply Hbody. repeat split; by intros [rest' ?].
Qed.

(** X13. Different iteration numbers get different namespace groups: the
    zero-padded name determines the number, for every precision, also when the
    number has more digits than the precision or is negative. *)
Theorem iteration_group_names_distinct (n m prec : Z) (a b : string) :
  py_format_0d n prec = Ok a →
  py_format_0d m prec = Ok b →
  ["iterations"; "iter_" +:+ a] = ["iterations"; "iter_" +:+ b] →
  n = m.
Proof.
  intros Ha Hb [= E]. eapply py_format_0d_inj; [exact Ha |].
  by replace a with b.
Qed.

(** X14. The zero-padded name of iteration [n ≥ 0] has exactly [west_iter_prec]
    characters as long as [n < 10 ^ west_iter_prec]; from there on it is not cut
    but gets longer. *)
Theorem iteration_group_name_width (n prec : Z) (name : string) :
  (0 ≤ n)%Z → (0 < prec)%Z →
  py_format_0d n prec = Ok name →
  ((n < 10 ^ prec)%Z → String.length name = Z.to_nat prec) ∧
  ((10 ^ prec ≤ n)%Z → Z.to_nat prec < String.length name).
Proof.
  intros Hn Hp. unfold py_format_0d.
  destruct (Z.ltb_spec prec 0); [lia |].
  destruct (2 ^ 63 <=? prec)%Z; [done |]. cbn [orb].
  destruct (Z.ltb_spec n 0); [lia |].
  intros [= <-]. rewrite length_zeros.
  pose proof (length_str_N_le (Z.abs_N n) (Z.to_nat prec)) as Hle.
  rewrite N2Z.inj_abs_N, Z.abs_eq, Z2Nat.id in Hle by lia.
  split; intros Hlt.
  - apply Hle in Hlt; lia.
  - assert (¬ String.length (str_N (Z.abs_N n)) ≤ Z.to_nat prec); [| lia].
    intros H'. apply Hle in H'; lia.
Qed.

End StoreLife.

(** ** Edges of [append] *)

Section Edges.
Context {W : Type} `{!WeightOps W}.
Implicit Types (s : St (W:=W)) (f : gmap Path (Node W)).

Lemma stamp_iteration_negative_prec (n prec : Z) s :
  (prec < 0)%Z → stamp_iteration n prec s = (Raise ValueError, s).
Proof.
  intros Hp. unfold stamp_iteration, py_format_0d.
  destruct (Z.ltb_spec prec 0); [done | lia].
Qed.

(** X15. With a negative iteration precision the format of the group name is
    invalid, but [append] finds out last: on a store in order and with arguments
    it would otherwise accept (an iteration number from 0 to below [2 ^ 32], a
    binning hash of plain ASCII, a blob that fits the 32-bit length field,
    pcoords of one length, no NUL in an auxref or a label), it raises
    ValueError after the writers have run.
    The aggregate is in the summary table, the indices have grown, the store is
    in order, and nothing below ['iterations'] has changed: the iteration has a
    summary row and no namespace group. *)
Theorem negative_precision_fails_after_writing (self : WestpaH5File) (sim0 : SimMetadata W)
    (rest : list (SimMetadata W)) (bins : list (list (SimMetadata W)))
    (bs : list (BasisState W)) (ts : list (TargetState W))
    (fs : gmap string (gmap Path (Node W))) (f : gmap Path (Node W)) :
  fs !! h5file self = Some f →
  store_ok f →
  bins ≠ [] →
  (0 ≤ iteration_id sim0 < 2 ^ 32)%Z →
  (west_iter_prec (config self) < 0)%Z →
  plain_ascii (binner_hash sim0) = true →
  (Z.of_nat (length (binner_pickle sim0)) < 2 ^ 32)%Z →
  basis_states_ok bs →
  target_states_ok ts →
  ∃ lg f' rows j row,
    append self (sim0 :: rest) bins bs ts fs = (Raise ValueError, <[h5file self := f']> fs, lg) ∧
    store_ok f' ∧
    f' !! ["summary"] = Some (SummaryTable rows) ∧
    h5_index (length rows) (iteration_id sim0 - 1) = Ok j ∧
    rows !! j = Some row ∧
    is_summary_row (sim0 :: rest) bins row ∧
    grown (iteration_id sim0) (table_len f ["ibstates"; "index"])
          (table_len f' ["ibstates"; "index"]) ∧
    agree_under "iterations" f f'.
Proof.
  intros Hfs Hok Hbins Hn32 Hp Hplain Hb Hbs Hts.
  assert (Hn : (0 ≤ iteration_id sim0 < 2 ^ 64)%Z) by lia.
  destruct bins as [| b bins]; [done |].
  set (s := {| file := f; log := [EvOpen (h5file self)] |}).
  destruct (append_summary_keeps_store (iteration_id sim0) sim0 rest b bins s Hok)
    as (s1 & Hrun1 & Hok1); [lia | done |].
  pose proof (append_summary_ok_row _ _ _ _ _ Hrun1) as (rows & j & row & Htab & Hj & Hrow & His).
  pose proof (append_summary_writes _ _ _ _ _ _ Hrun1) as [F1 _].
  unfold append, with_file. rewrite Hfs. cbn [default from_option id]. fold s.
  rewrite append_body_eq. unfold append_rest.
  unfold mbind at 1, M_bind at 1. rewrite Hrun1.
  unfold grown, truthy.
  destruct (Z.eqb_spec (iteration_id sim0) 0) as [Hz | Hnz]; cbn [negb].
  - unfold mbind, M_bind, mret, M_ret.
    rewrite stamp_iteration_negative_prec by done.
    eexists _, (file s1), rows, j, row. split_and!; try done.
    + unfold table_len. rewrite F1; [done |]. by apply not_under.
    + eapply frame_agree; [| exact F1]. done.
  - destruct (append_ibstates_keeps_store (iteration_id sim0) bs s1 Hok1 Hn Hbs)
      as (s2 & Hrun2 & Hok2).
    destruct (append_tstates_keeps_store (iteration_id sim0) ts s2 Hok2 Hn Hts)
      as (s3 & Hrun3 & Hok3).
    destruct (append_bin_mapper_keeps_store sim0 s3 Hok3 Hplain Hb) as (s4 & Hrun4 & Hok4).
    pose proof (append_ibstates_writes _ _ _ _ _ Hrun2) as [F2 _].
    pose proof (append_tstates_writes _ _ _ _ _ Hrun3) as [F3 _].
    pose proof (append_bin_mapper_writes _ _ _ _ Hrun4) as [F4 _].
    unfold mbind, M_bind. rewrite Hrun2, Hrun3, Hrun4.
    rewrite stamp_iteration_negative_prec by done.
    eexists _, (file s4), rows, j, row. split_and!; try done.
    + rewrite F4, F3, F2 by (by apply not_under). done.
    + rewrite (table_len_frame _ ["ibstates"; "index"] _ _ F4),
        (table_len_frame _ ["ibstates"; "index"] _ _ F3) by (by apply not_under).
      apply append_ibstates_spec in Hrun2 as (Hi2 & Hl2 & _).
      rewrite (table_len_lookup _ _ _ Hi2). cbn [node_len].
      assert (E1 : table_len (file s1) ["ibstates"; "index"] =
                   table_len f ["ibstates"; "index"]).
      { apply (table_len_frame _ _ _ _ F1). by apply not_under. }
      rewrite <- E1, Hl2, length_app. cbn. lia.
    + intros p Hp'. destruct Hp' as [rest' ->].
      rewrite F4, F3, F2, F1 by (by apply not_under). done.
Qed.

#[global] Instance keeps_nodes_preorder : PreOrder (keeps_nodes (W:=W)).
Proof.
  split.
  - by intros s p.
  - intros s1 s2 s3 H12 H23 p Hp. by apply H23, H12.
Qed.

Lemma append_summary_keeps_nodes n l bins :
  steps keeps_nodes (append_summary (W:=W) n l bins).
Proof.
  intros [f lg] r s'. unfold append_summary. intros H.
  exec H; simplify_eq; nodes_leaf.
Qed.

Lemma append_ibstates_keeps_nodes n bs :
  steps keeps_nodes (append_ibstates (W:=W) n bs).
Proof.
  intros [f lg] r s'. unfold append_ibstates. intros H.
  exec H; simplify_eq; nodes_leaf.
Qed.

Lemma append_tstates_keeps_nodes n ts :
  steps keeps_nodes (append_tstates (W:=W) n ts).
Proof.
  intros [f lg] r s'. unfold append_tstates. intros H.
  exec H; simplify_eq; nodes_leaf.
Qed.

Lemma append_bin_mapper_keeps_nodes (sim : SimMetadata W) :
  steps keeps_nodes (append_bin_mapper sim).
Proof.
  intros [f lg] r s'. unfold append_bin_mapper. intros H.
  exec H; simplify_eq; nodes_leaf.
Qed.

Lemma stamp_iteration_keeps_nodes (n prec : Z) :
  steps keeps_nodes (stamp_iteration (W:=W) n prec).
Proof.
  intros [f lg] r s'. unfold stamp_iteration. intros H.
  exec H; simplify_eq; nodes_leaf.
Qed.

Lemma append_body_keeps_nodes self (sim : SimMetadata W) n l bins bs ts :
  steps keeps_nodes (append_body self sim n l bins bs ts).
Proof.
  rewrite append_body_eq. unfold append_rest.
  repeat (apply steps_bind; [apply _ | | intros _]).
  - apply append_summary_keeps_nodes.
  - apply steps_if; [apply append_ibstates_keeps_nodes | apply steps_ret, _].
  - apply steps_if; [apply append_tstates_keeps_nodes | apply steps_ret, _].
  - apply steps_if; [apply append_bin_mapper_keeps_nodes | apply steps_ret, _].
  - apply stamp_iteration_keeps_nodes.
Qed.

(** X16. [append] never removes anything: whatever its outcome, also when it
    raises half-way, every group and dataset the store had is still there, and
    so is every other file. *)
Theorem append_never_removes_nodes (self : WestpaH5File)
    (l : list (SimMetadata W)) (bins : list (list (SimMetadata W)))
    (bs : list (BasisState W)) (ts : list (TargetState W))
    (fs : gmap string (gmap Path (Node W))) r fs' lg :
  append self l bins bs ts fs = (r, fs', lg) →
  ∀ name f, fs !! name = Some f →
    ∃ f', fs' !! name = Some f' ∧ ∀ p, is_Some (f !! p) → is_Some (f' !! p).
Proof.
  intros H name f Hf. destruct l as [| sim0 rest].
  { injection H as <- <- <-. by exists f. }
  unfold append, with_file in H.
  destruct (append_body _ _ _ _ _ _ _ _) as [r0 s'] eqn:Hbody.
  injection H as <- <- <-.
  destruct (decide (name = h5file self)) as [-> | Hne].
  - rewrite Hf in Hbody. cbn [default from_option id] in Hbody.
    apply append_body_keeps_nodes in Hbody.
    exists (file s'). rewrite lookup_insert_eq. split; [done |]. exact Hbody.
  - exists f. by rewrite lookup_insert_ne.
Qed.

End Edges.

(** ** The code on the sample store *)

Lemma lookup_default_Some {K A : Type} `{Countable K} (m : gmap K A) (k : K) (d : A) :
  match m !! k with Some _ => true | None => false end = true → m !! k = Some (default d (m !! k)).
Proof. by destruct (m !! k). Qed.

Lemma returned_triple {A B : Type} (x : result unit * A * B) :
  x.1.1 = Ok tt → x = (Ok tt, x.1.2, x.2).
Proof. destruct x as [[r a] b]. cbn. by intros ->. Qed.

Lemma returned_pair {A : Type} (x : result unit * A) :
  x.1 = Ok tt → x = (Ok tt, x.2).
Proof. destruct x as [r a]. cbn. by intros ->. Qed.

Lemma outcome_triple {R A B : Type} (x : R * A * B) : x = (x.1.1, x.1.2, x.2).
Proof. by destruct x as [[r a] b]. Qed.

Lemma outcome_pair {R A : Type} (x : R * A) : x = (x.1, x.2).
Proof. by destruct x as [r a]. Qed.

(** Iteration 1 on a fresh store: two replicas of weights 0.75 and 0.25 in
    one bin. *)
Example sample_summary_row :
  sample_rows1 =
    [{| n_particles := 2; norm := 1%float;
        min_bin_prob := 1%float; max_bin_prob := 1%float;
        min_seg_prob := 0.25%float; max_seg_prob := 0.75%float;
        cputime := 0%float; walltime := 0%float; binhash := "3f2a" |}].
Proof. vm_compute. exact eq_refl. Qed.

Example sample_iteration_group :
  py_format_0d 1 (west_iter_prec sample_config) = Ok "00000001" ∧
  py_format_0d (-5) 3 = Ok "-05" ∧
  py_format_0d 12345 3 = Ok "12345".
Proof. vm_compute. by split_and!. Qed.

(** C4, refuted for basis states: appending an empty basis-state list to a
    fresh store returns, creates the subgroup ['/ibstates/0'], and the new
    index row, with a state count of 0, refers to it. *)
Lemma empty_basis_states_get_a_subgroup :
  (append_ibstates (W:=float) 1 [] sample_state).1 = Ok tt ∧
  file sample_state !! ["ibstates"; "0"] = None ∧
  file (append_ibstates (W:=float) 1 [] sample_state).2 !! ["ibstates"; "0"] =
    Some (Group ∅) ∧
  table_rows ibstate_index_dtype
    (file (append_ibstates (W:=float) 1 [] sample_state).2) ["ibstates"; "index"] =
    [{| ib_iter_valid := 1; n_bstates := 0; ib_group_ref := Some ["ibstates"; "0"] |}].
Proof. vm_compute. by split_and!. Qed.



(** ** Witnesses *)

Lemma summary_row_after_append_witness :
  ∃ f' rows' row,
    (append sample_self (sample_iteration 2) [sample_iteration 2] [sample_basis] []
       sample_fs1).1.2 !! "west.h5" = Some f' ∧
    f' !! ["summary"] = Some (SummaryTable rows') ∧
    (2 ≤ Z.of_nat (length rows'))%Z ∧
    rows' !! 1 = Some row ∧
    n_particles row = 2%Z ∧
    norm row = py_sum (weight <$> sample_iteration 2).
Proof.
  destruct (summary_row_after_append sample_self (sample_sim 0.75 2) [sample_sim 0.25 2]
              [sample_iteration 2] [sample_basis] [] sample_fs1 sample_file1 sample_rows1
              (append sample_self (sample_iteration 2) [sample_iteration 2] [sample_basis] []
                 sample_fs1).1.1
              (append sample_self (sample_iteration 2) [sample_iteration 2] [sample_basis] []
                 sample_fs1).1.2
              (append sample_self (sample_iteration 2) [sample_iteration 2] [sample_basis] []
                 sample_fs1).2)
    as (f' & rows' & row & H1 & H2 & H3 & H4 & H5 & H6 & _).
  - discriminate.
  - simpl. lia.
  - vm_compute. exact eq_refl.
  - apply lookup_default_Some. vm_compute. exact eq_refl.
  - vm_compute. exact eq_refl.
  - apply outcome_triple.
  - exists f', rows', row. split_and!; assumption.
Defined.

Lemma empty_iteration_rejected_witness :
  ∃ fs' lg,
    append sample_self [] [sample_iteration 1] [sample_basis] [] sample_fs1 =
      (Raise ValueError, fs', lg) ∧
    summary_of fs' "west.h5" = summary_of sample_fs1 "west.h5" ∧
    (∀ f, sample_fs1 !! "west.h5" = Some f → fs' = sample_fs1).
Proof.
  apply (empty_iteration_rejected sample_self [] [sample_iteration 1] [sample_basis] []
           sample_fs1).
  left. reflexivity.
Defined.

Lemma state_writes_gated_on_iteration_witness :
  EvSetItem ["summary"] ∈
    (append sample_self (sample_iteration 1) [sample_iteration 1] [sample_basis] []
       sample_fs0).2 ∧
  (writes_to "ibstates"
     (append sample_self (sample_iteration 1) [sample_iteration 1] [sample_basis] []
        sample_fs0).2 ↔ 1%Z ≠ 0%Z) ∧
  (writes_to "tstates"
     (append sample_self (sample_iteration 1) [sample_iteration 1] [sample_basis] []
        sample_fs0).2 ↔ 1%Z ≠ 0%Z) ∧
  (writes_to "bin_topologies"
     (append sample_self (sample_iteration 1) [sample_iteration 1] [sample_basis] []
        sample_fs0).2 ↔ 1%Z ≠ 0%Z).
Proof.
  apply (state_writes_gated_on_iteration sample_self (sample_sim 0.75 1) [sample_sim 0.25 1]
           [sample_iteration 1] [sample_basis] [] sample_fs0
           (append sample_self (sample_iteration 1) [sample_iteration 1] [sample_basis] []
              sample_fs0).1.2).
  apply returned_triple. vm_compute. exact eq_refl.
Defined.

Lemma namespace_group_written_last_witness :
  ∃ name pre f' attrs,
    py_format_0d 1 8 = Ok name ∧
    (append sample_self (sample_iteration 1) [sample_iteration 1] [sample_basis] []
       sample_fs0).2 =
      EvOpen "west.h5" :: pre ++
        [EvRequireGroup ["iterations"; "iter_" +:+ name];
         EvSetAttr ["iterations"; "iter_" +:+ name] "n_iter";
         EvClose "west.h5"] ∧
    (append sample_self (sample_iteration 1) [sample_iteration 1] [sample_basis] []
       sample_fs0).1.2 !! "west.h5" = Some f' ∧
    f' !! ["iterations"; "iter_" +:+ name] = Some (Group attrs) ∧
    attrs !! "n_iter" = Some (AInt 1).
Proof.
  destruct (namespace_group_written_last sample_self (sample_sim 0.75 1)
              [sample_sim 0.25 1] [sample_iteration 1] [sample_basis] [] sample_fs0
              (append sample_self (sample_iteration 1) [sample_iteration 1] [sample_basis] []
                 sample_fs0).1.2
              (append sample_self (sample_iteration 1) [sample_iteration 1] [sample_basis] []
                 sample_fs0).2)
    as (name & pre & f' & attrs & H1 & H2 & _ & _ & _ & H3 & H4 & H5).
  - apply returned_triple. vm_compute. exact eq_refl.
  - exists name, pre, f', attrs. split_and!; assumption.
Defined.

Lemma sample_tstates_ok : tstates_ok (file sample_state).
Proof. split; left; vm_compute; exact eq_refl. Qed.

Lemma sample_ibstates_ok : ibstates_ok (file sample_state).
Proof. split_and!; [left | left |]; vm_compute; exact eq_refl. Qed.

Lemma empty_state_list_rows_witness :
  ∃ s1 s2,
    append_tstates (W:=float) 1 [] sample_state = (Ok tt, s1) ∧
    append_ibstates (W:=float) 1 [] sample_state = (Ok tt, s2) ∧
    file s1 !! ["tstates"; "index"] =
      Some (TstateIndex [{| ts_iter_valid := 1; n_states := 0; ts_group_ref := None |}]) ∧
    file s1 !! ["tstates"; "0"] = None ∧
    file s2 !! ["ibstates"; "index"] =
      Some (IbstateIndex [{| ib_iter_valid := 1; n_bstates := 0;
                             ib_group_ref := Some ["ibstates"; "0"] |}]) ∧
    file s2 !! ["ibstates"; "0"] = Some (Group ∅).
Proof.
  destruct (empty_state_list_rows 1 sample_state)
    as (s1 & s2 & H1 & H2 & [H3 H4] & (grp & -> & H5 & _ & H6 & _)).
  - apply sample_tstates_ok.
  - apply sample_ibstates_ok.
  - vm_compute. split; [discriminate | exact eq_refl].
  - exists s1, s2. split_and!; [exact H1 | exact H2 | exact H3 | | exact H5 | exact H6].
    rewrite H4 by discriminate. vm_compute. exact eq_refl.
Defined.

Lemma sample_bin_store_ok : bin_store_ok (file sample_state).
Proof. split; left; [| split]; vm_compute; exact eq_refl. Qed.


Lemma same_snapshot_stored_twice_witness :
  ∃ s1 s2,
    append_bin_mapper (sample_sim 0.75 1) sample_state = (Ok tt, s1) ∧
    append_bin_mapper (sample_sim 0.75 1) s1 = (Ok tt, s2) ∧
    read_pickle (file s2) 0 = Some [x80; x04; x4e] ∧
    read_pickle (file s2) 1 = Some [x80; x04; x4e].
Proof.
  destruct (same_snapshot_stored_twice (sample_sim 0.75 1) sample_state)
    as (s1 & s2 & H1 & H2 & _ & _ & _ & _ & _ & _ & H3 & H4).
  - apply sample_bin_store_ok.
  - vm_compute. exact eq_refl.
  - vm_compute. exact eq_refl.
  - exists s1, s2. split_and!; assumption.
Defined.

Lemma tables_never_shrink_witness :
  len_mono sample_state
    (run_op (OpSummary 2 (sample_iteration 2) [sample_iteration 2]) sample_state).2 ∧
  len_mono
    (run_op (OpSummary 2 (sample_iteration 2) [sample_iteration 2]) sample_state).2
    (run_ops [OpIbstates 2 [sample_basis]]
       (run_op (OpSummary 2 (sample_iteration 2) [sample_iteration 2]) sample_state).2) ∧
  ((run_op (OpSummary 2 (sample_iteration 2) [sample_iteration 2]) sample_state).1 = Ok tt →
   ∀ p i,
     references (OpSummary 2 (sample_iteration 2) [sample_iteration 2]) sample_state p i →
     i < table_len
           (file (run_ops [OpIbstates 2 [sample_basis]]
                    (run_op (OpSummary 2 (sample_iteration 2) [sample_iteration 2])
                       sample_state).2)) p).
Proof.
  apply (tables_never_shrink (OpSummary 2 (sample_iteration 2) [sample_iteration 2])
           [OpIbstates 2 [sample_basis]] sample_state).
  apply outcome_pair.
Defined.

Lemma iteration_number_from_first_record_witness :
  append sample_self [sample_sim 0.75 1; sample_sim 0.25 1] [sample_iteration 1]
    [sample_basis] [] sample_fs0 =
  append sample_self [sample_sim 0.75 1; sample_sim 0.25 5] [sample_iteration 9]
    [sample_basis] [] sample_fs0.
Proof.
  apply (iteration_number_from_first_record sample_self (sample_sim 0.75 1)
           [sample_sim 0.25 1] [sample_sim 0.25 5] [sample_iteration 1] [sample_iteration 9]
           [sample_basis] [] sample_fs0).
  - repeat constructor.
  - repeat constructor.
Defined.

Lemma sample_fs0_store :
  sample_fs0 !! "west.h5" = Some (fresh_store sample_config).
Proof.
  unfold sample_fs0. rewrite (proj2 (init_files "west.h5" sample_config ∅)).
  apply lookup_insert_eq.
Qed.

Lemma summary_table_after_append_summary_witness :
  ∃ s' row,
    append_summary 2 (sample_iteration 2) [sample_iteration 2] sample_state = (Ok tt, s') ∧
    file s' !! ["summary"] = Some (SummaryTable [summary_zero; row; summary_zero]).
Proof.
  destruct (summary_table_after_append_summary 2 (sample_sim 0.75 2) [sample_sim 0.25 2]
              (sample_iteration 2) [] sample_state [summary_zero])
    as (s' & row & H1 & _ & H3 & _).
  - vm_compute. exact eq_refl.
  - lia.
  - vm_compute. exact eq_refl.
  - exists s', row. split; [exact H1 | exact H3].
Defined.

Lemma summary_row_counts_from_the_end_witness :
  ∃ row,
    is_summary_row (sample_iteration 0) [sample_iteration 0] row ∧
    ∃ s',
      append_summary 0 (sample_iteration 0) [sample_iteration 0] sample_state = (Ok tt, s') ∧
      file s' !! ["summary"] = Some (SummaryTable [row]) ∧
      ∀ p, p ≠ ["summary"] → file s' !! p = file sample_state !! p.
Proof.
  refine (summary_row_counts_from_the_end 0 (sample_sim 0.75 0) [sample_sim 0.25 0]
            (sample_iteration 0) [] sample_state [summary_zero] _ _ _).
  - vm_compute. exact eq_refl.
  - lia.
  - vm_compute. exact eq_refl.
Defined.

Lemma summary_extrema_bound_the_weights_witness :
  ∃ rows j row,
    file (append_summary 1 (sample_iteration 1) [sample_iteration 1] sample_state).2
      !! ["summary"] = Some (SummaryTable rows) ∧
    h5_index (length rows) (1 - 1) = Ok j ∧
    rows !! j = Some row ∧
    (∃ sim, sim ∈ sample_iteration 1 ∧ weight sim = min_seg_prob row) ∧
    (∃ sim, sim ∈ sample_iteration 1 ∧ weight sim = max_seg_prob row) ∧
    (∀ sim, sim ∈ sample_iteration 1 →
       (weight sim <? min_seg_prob row)%float = false ∧
       (max_seg_prob row <? weight sim)%float = false) ∧
    (∃ b, b ∈ [sample_iteration 1] ∧ py_sum (weight <$> b) = min_bin_prob row) ∧
    (∃ b, b ∈ [sample_iteration 1] ∧ py_sum (weight <$> b) = max_bin_prob row) ∧
    (∀ b, b ∈ [sample_iteration 1] →
       (py_sum (weight <$> b) <? min_bin_prob row)%float = false ∧
       (max_bin_prob row <? py_sum (weight <$> b))%float = false).
Proof.
  apply (summary_extrema_bound_the_weights 1 (sample_iteration 1) [sample_iteration 1]
           sample_state).
  apply returned_pair. vm_compute. exact eq_refl.
Defined.

Lemma basis_state_epoch_appended_witness :
  ∃ s',
    append_ibstates 1 [sample_basis] sample_state = (Ok tt, s') ∧
    ibstates_wf (file s') ∧
    file s' !! ["ibstates"; "0"; "bstate_index"] =
      Some (BstateTable [{| label := "0"; probability := 1%float; auxref := "" |}]).
Proof.
  destruct (basis_state_epoch_appended 1 [sample_basis] sample_state)
    as (s' & H1 & H2 & _ & _ & H5 & _).
  - exact (proj1 (proj2 (fresh_store_ok sample_config))).
  - vm_compute. split; [discriminate | exact eq_refl].
  - split; [reflexivity | apply Forall_cons; split; [reflexivity | apply Forall_nil_2]].
  - exists s'. split_and!; [exact H1 | exact H2 |].
    destruct H5 as [H5 _]; [discriminate |]. exact H5.
Defined.

Lemma target_state_epoch_appended_witness :
  ∃ s',
    append_tstates 1 [sample_target] sample_state = (Ok tt, s') ∧
    tstates_wf (file s') ∧
    file s' !! ["tstates"; "0"; "index"] = Some (TstateTable ["bound"]).
Proof.
  destruct (target_state_epoch_appended 1 [sample_target] sample_state)
    as (s' & H1 & H2 & _ & H4 & _).
  - exact (proj1 (proj2 (proj2 (fresh_store_ok sample_config)))).
  - vm_compute. split; [discriminate | exact eq_refl].
  - split; [reflexivity | apply Forall_cons; split; [reflexivity | apply Forall_nil_2]].
  - exists s'. split_and!; [exact H1 | exact H2 |].
    destruct H4 as (_ & H4 & _); [discriminate |]. exact H4.
Defined.

Lemma snapshots_read_back_witness :
  ∃ s',
    append_bin_mappers [sample_sim 0.75 1; sample_sim 0.25 2] sample_state = (Ok tt, s') ∧
    read_pickle (file s') 0 = Some [x80; x04; x4e] ∧
    read_pickle (file s') 1 = Some [x80; x04; x4e].
Proof.
  destruct (snapshots_read_back [sample_sim 0.75 1; sample_sim 0.25 2] sample_state)
    as (s' & H1 & _ & _ & _ & _ & _ & H7).
  - exact (proj1 (proj2 (proj2 (proj2 (fresh_store_ok sample_config))))).
  - repeat (apply Forall_cons; split; [split; vm_compute; exact eq_refl |]).
    apply Forall_nil_2.
  - exists s'. split_and!; [exact H1 | |].
    + exact (proj2 (H7 0 (sample_sim 0.75 1) eq_refl)).
    + exact (proj2 (H7 1 (sample_sim 0.25 2) eq_refl)).
Defined.

Lemma append_returns_on_store_in_order_witness :
  ∃ lg f',
    append sample_self (sample_iteration 1) [sample_iteration 1] [sample_basis] [] sample_fs0 =
      (Ok tt, <["west.h5" := f']> sample_fs0, lg) ∧
    store_ok f' ∧
    table_len f' ["ibstates"; "index"] = 1.
Proof.
  destruct (append_returns_on_store_in_order sample_self (sample_sim 0.75 1)
              [sample_sim 0.25 1] [sample_iteration 1] [sample_basis] [] sample_fs0
              (fresh_store sample_config))
    as (lg & f' & H1 & H2 & H3 & _).
  - exact sample_fs0_store.
  - apply fresh_store_ok.
  - discriminate.
  - vm_compute. split; [discriminate | exact eq_refl].
  - vm_compute. split; [discriminate | exact eq_refl].
  - vm_compute. exact eq_refl.
  - vm_compute. exact eq_refl.
  - split; [reflexivity | apply Forall_cons; split; [reflexivity | apply Forall_nil_2]].
  - split; [reflexivity | apply Forall_nil_2].
  - exists lg, f'. split_and!; [exact H1 | exact H2 | exact H3].
Defined.



Lemma append_without_store_raises_witness :
  append sample_self (sample_iteration 1) [sample_iteration 1] [sample_basis] []
    (∅ : gmap string (gmap Path (Node float))) =
    (Raise KeyError, <["west.h5" := {[ [] := Group ∅ ]}]> ∅,
     [EvOpen "west.h5"; EvClose "west.h5"]).
Proof.
  apply (append_without_store_raises sample_self (sample_sim 0.75 1) [sample_sim 0.25 1]
           [sample_iteration 1] [sample_basis] [] ∅).
  - apply lookup_empty.
  - discriminate.
  - vm_compute. exact eq_refl.
Defined.

Lemma append_leaves_the_rest_alone_witness :
  (∀ name, name ≠ "west.h5" →
     (append sample_self (sample_iteration 1) [sample_iteration 1] [sample_basis] []
        sample_fs0).1.2 !! name = sample_fs0 !! name) ∧
  (∀ f, sample_fs0 !! "west.h5" = Some f →
     ∃ f',
       (append sample_self (sample_iteration 1) [sample_iteration 1] [sample_basis] []
          sample_fs0).1.2 !! "west.h5" = Some f' ∧
       (∀ p, outside_store_groups p → f' !! p = f !! p) ∧
       f' !! [] = f !! []).
Proof.
  apply (append_leaves_the_rest_alone sample_self (sample_iteration 1) [sample_iteration 1]
           [sample_basis] [] sample_fs0
           (append sample_self (sample_iteration 1) [sample_iteration 1] [sample_basis] []
              sample_fs0).1.1
           (append sample_self (sample_iteration 1) [sample_iteration 1] [sample_basis] []
              sample_fs0).1.2
           (append sample_self (sample_iteration 1) [sample_iteration 1] [sample_basis] []
              sample_fs0).2).
  apply outcome_triple.
Defined.

Lemma iteration_group_names_distinct_witness :
  py_format_0d 12 8 = Ok "00000012" ∧ (12 = 12)%Z.
Proof.
  split; [reflexivity |].
  apply (iteration_group_names_distinct 12 12 8 "00000012" "00000012"); reflexivity.
Defined.

Lemma bin_tables_out_of_step_witness :
  ∃ s',
    append_bin_mapper (sample_sim 0.75 1) sample_half_state = (Raise ValueError, s') ∧
    file s' = file sample_half_state.
Proof.
  destruct (bin_tables_out_of_step (sample_sim 0.75 1) sample_half_state ∅) as [H _].
  - vm_compute. exact eq_refl.
  - apply H.
    + exists []. vm_compute. exact eq_refl.
    + vm_compute. exact eq_refl.
Defined.

Lemma iteration_zero_row_overwritten_witness :
  ∃ s0 s1 s1' row1,
    append_summary 0 (sample_iteration 0) [sample_iteration 0] sample_state = (Ok tt, s0) ∧
    append_summary 1 (sample_iteration 1) [sample_iteration 1] s0 = (Ok tt, s1) ∧
    append_summary 1 (sample_iteration 1) [sample_iteration 1] sample_state = (Ok tt, s1') ∧
    is_summary_row (sample_iteration 1) [sample_iteration 1] row1 ∧
    file s1 !! ["summary"] = Some (SummaryTable [row1]) ∧
    file s1' !! ["summary"] = file s1 !! ["summary"].
Proof.
  refine (iteration_zero_row_overwritten (sample_sim 0.75 0) [sample_sim 0.25 0]
            (sample_iteration 0) [] (sample_sim 0.75 1) [sample_sim 0.25 1]
            (sample_iteration 1) [] sample_state [summary_zero] _ _ _ _).
  - vm_compute. exact eq_refl.
  - discriminate.
  - vm_compute. exact eq_refl.
  - vm_compute. exact eq_refl.
Defined.

Lemma negative_precision_fails_after_writing_witness :
  ∃ lg f' rows j row,
    append sample_bad_self (sample_iteration 1) [sample_iteration 1] [sample_basis] []
      sample_fs0 = (Raise ValueError, <["west.h5" := f']> sample_fs0, lg) ∧
    store_ok f' ∧
    f' !! ["summary"] = Some (SummaryTable rows) ∧
    h5_index (length rows) (1 - 1) = Ok j ∧
    rows !! j = Some row ∧
    is_summary_row (sample_iteration 1) [sample_iteration 1] row ∧
    table_len f' ["ibstates"; "index"] = 1 ∧
    agree_under "iterations" (fresh_store sample_config) f'.
Proof.
  refine (negative_precision_fails_after_writing sample_bad_self (sample_sim 0.75 1)
            [sample_sim 0.25 1] [sample_iteration 1] [sample_basis] [] sample_fs0
            (fresh_store sample_config) _ _ _ _ _ _ _ _ _).
  - exact sample_fs0_store.
  - apply fresh_store_ok.
  - discriminate.
  - vm_compute. split; [discriminate | exact eq_refl].
  - vm_compute. exact eq_refl.
  - vm_compute. exact eq_refl.
  - vm_compute. exact eq_refl.
  - split; [reflexivity | apply Forall_cons; split; [reflexivity | apply Forall_nil_2]].
  - split; [reflexivity | apply Forall_nil_2].
Defined.

Lemma append_never_removes_nodes_witness :
  ∃ f',
    (append sample_self (sample_iteration 2) [sample_iteration 2] [sample_basis] []
       sample_fs1).1.2 !! "west.h5" = Some f' ∧
    ∀ p, is_Some (sample_file1 !! p) → is_Some (f' !! p).
Proof.
  apply (append_never_removes_nodes sample_self (sample_iteration 2) [sample_iteration 2]
           [sample_basis] [] sample_fs1
           (append sample_self (sample_iteration 2) [sample_iteration 2] [sample_basis] []
              sample_fs1).1.1
           (append sample_self (sample_iteration 2) [sample_iteration 2] [sample_basis] []
              sample_fs1).1.2
           (append sample_self (sample_iteration 2) [sample_iteration 2] [sample_basis] []
              sample_fs1).2).
  - apply outcome_triple.
  - apply lookup_default_Some. vm_compute. exact eq_refl.
Defined.

Lemma iteration_group_name_width_witness :
  py_format_0d 12 8 = Ok "00000012" ∧ String.length "00000012" = 8.
Proof.
  split; [reflexivity |].
  apply (iteration_group_name_width 12 8 "00000012"); [lia | lia | reflexivity | lia].
Defined.
